(** * DBD: trigger transforms and the attention-gated wide residual network

    A shallow embedding of [data/backdoor.py] and
    [model/network/se_wideresnet.py], and the properties of their
    specification that can be settled on it.

    - Python integers are [Z]; Python floats are binary64 primitive floats.
    - A raised exception is the [Raise] case of [result].
    - A numpy array is an object in a store, reached through a reference, so
      that in-place mutation and aliasing are visible.
    - A torch tensor is its shape together with a symbolic term that records
      which operations produced its values: the numeric kernels (convolution,
      normalisation, pooling, sigmoid) belong to the framework and stay
      uninterpreted. *)

From Stdlib Require Import ZArith Lia List.
From Stdlib Require Import Floats.PrimFloat Floats.SpecFloat Floats.FloatOps.
From stdpp Require Import gmap strings list pretty.

Set Warnings "-register-all".
Local Open Scope Z_scope.

(** ** Python values shared by both source files *)

Module Py.

(** The exception classes the modelled code can raise.  [DanglingReference]
    is not a Python exception: it is the model's answer for a reference that
    is absent from the store, which no Python program can build. *)
Inductive exn : Type :=
| AssertionError
| AttributeError
| TypeError
| ValueError
| IndexError
| RuntimeError
| OverflowError
| UnboundLocalError
| DanglingReference.

Inductive result (A : Type) : Type :=
| Ok (a : A)
| Raise (e : exn).
Arguments Ok {A} a.
Arguments Raise {A} e.

Definition bind {A B : Type} (r : result A) (f : A -> result B) : result B :=
  match r with
  | Ok a => f a
  | Raise e => Raise e
  end.

Definition is_ok {A : Type} (r : result A) : bool :=
  match r with Ok _ => true | Raise _ => false end.

(** A Python number: an [int] or a [float]. *)
Inductive num : Type :=
| PyInt (z : Z)
| PyFloat (f : float).

(** [float(z)]: the nearest binary64 value, round half to even;
    [OverflowError] when [z] is too large for a float. *)
Definition float_of_int (z : Z) : result float :=
  let f := SF2Prim (binary_normalize prec emax z 0 false) in
  if PrimFloat.is_infinity f then Raise OverflowError else Ok f.

(** [int(f)]: truncation toward zero; [ValueError] on a NaN and
    [OverflowError] on an infinity. *)
Definition int_of_float (f : float) : result Z :=
  match Prim2SF f with
  | S754_zero _ => Ok 0
  | S754_infinity _ => Raise OverflowError
  | S754_nan => Raise ValueError
  | S754_finite s m e =>
      let mag := if 0 <=? e then Z.pos m * 2 ^ e else Z.pos m / 2 ^ (- e) in
      Ok (if s then - mag else mag)
  end.

(** [int(x)] *)
Definition int (x : num) : result Z :=
  match x with
  | PyInt z => Ok z
  | PyFloat f => int_of_float f
  end.

(** [z * x] for an [int] z: an [int] when [x] is one, else [z] is converted
    to a float and the product is the rounded binary64 product. *)
Definition mul_int (z : Z) (x : num) : result num :=
  match x with
  | PyInt y => Ok (PyInt (z * y))
  | PyFloat f => bind (float_of_int z) (fun fz => Ok (PyFloat (PrimFloat.mul fz f)))
  end.

(** [x < z] for an [int] z small enough to be a float exactly. *)
Definition lt_int (x : num) (z : Z) : bool :=
  match x with
  | PyInt y => y <? z
  | PyFloat f => PrimFloat.ltb f (SF2Prim (binary_normalize prec emax z 0 false))
  end.

(** [x > z] *)
Definition gt_int (x : num) (z : Z) : bool :=
  match x with
  | PyInt y => z <? y
  | PyFloat f => PrimFloat.ltb (SF2Prim (binary_normalize prec emax z 0 false)) f
  end.

(** [range(a, b)] *)
Definition range (a b : Z) : list Z := seqZ a (b - a).

(** [seq[i]] on a tuple or list: negative indices count from the end. *)
Definition getitem {A : Type} (l : list A) (i : Z) : result A :=
  let n := Z.of_nat (length l) in
  let i' := if i <? 0 then i + n else i in
  if (0 <=? i') && (i' <? n)
  then match l !! Z.to_nat i' with Some a => Ok a | None => Raise IndexError end
  else Raise IndexError.

End Py.

Export Py.

#[global] Instance exn_eq_dec : EqDecision exn.
Proof. solve_decision. Defined.
#[global] Instance result_eq_dec {A : Type} `{EqDecision A} : EqDecision (result A).
Proof. solve_decision. Defined.
#[global] Instance result_ret : MRet result := @Ok.
#[global] Instance result_bind : MBind result := fun A B f r => Py.bind r f.

(** ** data/backdoor.py *)

Module Backdoor.

(** A numpy array: its shape and its elements in row-major order.  Element
    values are integers; storing the float literal [255.0] stores [255].
    The element type (dtype) is not part of the model: an array is taken to
    hold the value 255 as it is, as [uint8] and the wider integer and float
    types do, whereas an [int8] or a boolean array would store another
    value.  Every array owns its elements: views, which share the buffer of
    another array, are not part of the model either. *)
Record ndarray : Type := mk_ndarray {
  shape : list Z;
  data : list Z
}.

Definition loc := positive.

(** The objects a transform can be called with: a reference to an array in
    the store, or an object of some other type (named for the message). *)
Inductive pyobj : Type :=
| ObjNdarray (l : loc)
| ObjOther (type_name : string).

Definition product (dims : list Z) : Z := foldr Z.mul 1 dims.

Definition zeros (dims : list Z) : ndarray :=
  mk_ndarray dims (replicate (Z.to_nat (product dims)) 0).

(** A numpy index along an axis of length [n]: negative indices wrap once,
    anything still outside raises [IndexError]. *)
Definition norm_index (n i : Z) : result Z :=
  let i' := if i <? 0 then i + n else i in
  if (0 <=? i') && (i' <? n) then Ok i' else Raise IndexError.

Definition fill_range (l : list Z) (off len : nat) (v : Z) : list Z :=
  take off l ++ replicate len v ++ drop (off + len) l.

(** [a[j, k] = v]: every element under the first two indices is set. *)
Definition setitem2 (a : ndarray) (j k v : Z) : result ndarray :=
  match shape a with
  | h :: w :: rest =>
      j' ← norm_index h j;
      k' ← norm_index w k;
      let inner := product rest in
      Ok (mk_ndarray (shape a)
            (fill_range (data a) (Z.to_nat ((j' * w + k') * inner)) (Z.to_nat inner) v))
  | _ => Raise IndexError
  end.

(** [a[j, k, c]] *)
Definition getitem3 (a : ndarray) (j k c : Z) : result Z :=
  match shape a with
  | [h; w; ch] =>
      j' ← norm_index h j;
      k' ← norm_index w k;
      c' ← norm_index ch c;
      match data a !! Z.to_nat ((j' * w + k') * ch + c') with
      | Some v => Ok v
      | None => Raise IndexError
      end
  | _ => Raise IndexError
  end.

(** [obj[j, k] = v] through a reference: the array in the store is replaced,
    every alias of the reference sees the change.  An array that is a view
    of another one would change that one too; the store has no views, so
    nothing is said here about the other arrays of a program. *)
Definition store_setitem2 (l : loc) (j k v : Z) (σ : gmap loc ndarray)
  : result (gmap loc ndarray) :=
  match σ !! l with
  | Some a => a' ← setitem2 a j k v; Ok (<[l := a']> σ)
  | None => Raise DanglingReference
  end.

(** A [for] loop over a list whose body updates the store. *)
Fixpoint for_each {S : Type} (xs : list Z) (body : Z -> S -> result S) (s : S)
  : result S :=
  match xs with
  | [] => Ok s
  | x :: xs' => s' ← body x s; for_each xs' body s'
  end.

Record BadNets : Type := mk_BadNets { trigger_size : Z }.

(** [BadNets.add_trigger]: [poison_img] is the same object as [img]. *)
Definition add_trigger (self : BadNets) (img : loc) (σ : gmap loc ndarray)
  : result (loc * gmap loc ndarray) :=
  let poison_img := img in
  match σ !! img with
  | None => Raise DanglingReference
  | Some a =>
      width ← getitem (shape a) 0;
      height ← getitem (shape a) 1;
      σ' ← for_each (range (width - 1 - trigger_size self) (width - 1))
              (fun j σ1 =>
                 for_each (range (height - 1 - trigger_size self) (height - 1))
                   (fun k σ2 => store_setitem2 poison_img j k 255 σ2) σ1) σ;
      Ok (poison_img, σ')
  end.

(** [BadNets.__call__] *)
Definition BadNets_call (self : BadNets) (img : loc) (σ : gmap loc ndarray)
  : result (loc * gmap loc ndarray) :=
  add_trigger self img σ.

(** [Blend]: the imaging library (PIL) is an external collaborator, taken as
    a parameter: conversion of an array to an image, resizing, blending and
    conversion back. *)
Section Blend.

Variable pil_image : Type.
Variable Image_fromarray : ndarray -> result pil_image.
Variable Image_size : pil_image -> Z * Z.
Variable Image_resize : pil_image -> Z * Z -> result pil_image.
Variable Image_blend : pil_image -> pil_image -> num -> result pil_image.
Variable np_array : pil_image -> ndarray.

Record Blend : Type := mk_Blend {
  trigger_ptn : pil_image;
  alpha : num
}.

(** [Blend.blend_trigger]: the two guards, then the blend into a new array. *)
Definition blend_trigger (self : Blend) (img : pyobj) (σ : gmap loc ndarray)
  : result (pyobj * gmap loc ndarray) :=
  match img with
  | ObjOther _ => Raise TypeError
  | ObjNdarray l =>
      match σ !! l with
      | None => Raise DanglingReference
      | Some a =>
          if negb (Z.of_nat (length (shape a)) =? 3) then Raise ValueError
          else
            im ← Image_fromarray a;
            trig ← Image_resize (trigger_ptn self) (Image_size im);
            poison_img ← Image_blend im trig (alpha self);
            let l' := fresh (dom σ) in
            Ok (ObjNdarray l', <[l' := np_array poison_img]> σ)
      end
  end.

(** [Blend.__call__] *)
Definition Blend_call (self : Blend) (img : pyobj) (σ : gmap loc ndarray)
  : result (pyobj * gmap loc ndarray) :=
  blend_trigger self img σ.

End Blend.

(** *** Definitions used to state the properties of [BadNets] *)

(** The array-level content of the two loops of [add_trigger]. *)
Definition fill_row (j : Z) (ks : list Z) (v : Z) (a : ndarray) : result ndarray :=
  for_each ks (fun k a' => setitem2 a' j k v) a.

Definition fill_patch (js ks : list Z) (v : Z) (a : ndarray) : result ndarray :=
  for_each js (fun j a' => fill_row j ks v a') a.

(** The image the transform leaves behind a 10 by 10 by 3 array of zeros. *)
Definition patched : ndarray :=
  Eval vm_compute in
    match fill_patch (range 6 9) (range 6 9) 255 (zeros [10; 10; 3]) with
    | Ok a => a
    | Raise _ => zeros []
    end.

Definition in_patch (j k : Z) : bool :=
  (6 <=? j) && (j <=? 8) && (6 <=? k) && (k <=? 8).

(** An array holds as many elements as its shape announces. *)
Definition well_formed (a : ndarray) : Prop :=
  length (data a) = Z.to_nat (product (shape a)).

(** Whether the flat position [i] lies under the first two indices [(j, k)]
    of an array with [w] columns and [c] channels. *)
Definition in_block (w c j k : Z) (i : nat) : bool :=
  ((j * w + k) * c <=? Z.of_nat i) && (Z.of_nat i <? (j * w + k) * c + c).

(** The pixels [add_trigger] writes when no index wraps around: rows
    [h - 1 - ts] to [h - 2] and columns [w - 1 - ts] to [w - 2]. *)
Definition in_trigger (h w ts j k : Z) : bool :=
  (h - 1 - ts <=? j) && (j <? h - 1) && (w - 1 - ts <=? k) && (k <? w - 1).

(** A numpy index brought into [0, n) when it is negative. *)
Definition wrap (n i : Z) : Z := if i <? 0 then i + n else i.

(** The pixels [add_trigger] writes when the trigger is larger than the
    image allows and negative indices wrap around: besides the rows from
    [h - 1 - ts] to [h - 2], the rows from [2 * h - 1 - ts] on, and the
    same for the columns. *)
Definition in_wrapped_trigger (h w ts j k : Z) : bool :=
  ((h - 1 - ts <=? j) && (j <? h - 1) || (2 * h - 1 - ts <=? j))
  && ((w - 1 - ts <=? k) && (k <? w - 1) || (2 * w - 1 - ts <=? k)).

End Backdoor.

(** ** model/network/se_wideresnet.py *)

Module Torch.

(** The framework modules the source instantiates, with the constructor
    arguments that decide shapes. *)
Inductive layer : Type :=
| Conv2d (in_channels out_channels kernel_size stride padding groups : Z)
| BatchNorm2d (num_features : Z)
| LeakyReLU
| ReLU
| Sigmoid
| AdaptiveAvgPool2d (output_size : Z)
| Linear (in_features out_features : Z).

(** The provenance of a tensor's values.  [ECall name l e] is the submodule
    stored under attribute [name] of the block at hand, applied to [e]. *)
Inductive expr : Type :=
| EInput
| ECall (name : string) (l : layer) (e : expr)
| EDropout (p : num) (e : expr)
| EAdd (a b : expr)
| EMul (a b : expr)
| ESqueeze (e : expr)
| ESlice (stop : Z) (e : expr)
| ECat (es : list expr)
| EPool (output_size : Z) (e : expr)
| EView (dims : list Z) (e : expr).

Record tensor : Type := mk_tensor {
  t_shape : list Z;
  t_data : expr
}.

(** What a [forward] method returns: a tensor or a tuple. *)
Inductive value : Type :=
| VTensor (t : tensor)
| VTuple (vs : list value).

Definition numel (dims : list Z) : Z := foldr Z.mul 1 dims.

(** Output length of a convolution along one axis; the padded input must
    hold the kernel. *)
Definition conv_out (n k s p : Z) : result Z :=
  if n + 2 * p - k <? 0 then Raise RuntimeError
  else Ok ((n + 2 * p - k) / s + 1).

(** The shape a framework module produces when it is called, or the error
    the call raises.  [training] matters to batch normalisation only, which
    refuses a single value per channel in training mode, and does so before
    it compares the channel count with its own.  The channel counts of a
    module are taken to be positive: what the framework does when a module
    is built or called with a zero or negative channel count is outside
    this function. *)
Definition layer_shape (training : bool) (l : layer) (sh : list Z)
  : result (list Z) :=
  match l with
  | Conv2d cin cout k s p _ =>
      match sh with
      | [b; c; h; w] =>
          if negb (c =? cin) then Raise RuntimeError
          else h' ← conv_out h k s p; w' ← conv_out w k s p; Ok [b; cout; h'; w']
      | [c; h; w] =>
          if negb (c =? cin) then Raise RuntimeError
          else h' ← conv_out h k s p; w' ← conv_out w k s p; Ok [cout; h'; w']
      | _ => Raise RuntimeError
      end
  | BatchNorm2d nf =>
      match sh with
      | [b; c; h; w] =>
          if training && (b * h * w =? 1) then Raise ValueError
          else if negb (c =? nf) then Raise RuntimeError
          else Ok sh
      | _ => Raise ValueError
      end
  | LeakyReLU | ReLU | Sigmoid => Ok sh
  | AdaptiveAvgPool2d o =>
      match sh with
      | [b; c; h; w] =>
          if (0 <? c) && (0 <? h) && (0 <? w) then Ok [b; c; o; o]
          else Raise RuntimeError
      | [c; h; w] =>
          if (0 <? c) && (0 <? h) && (0 <? w) then Ok [c; o; o]
          else Raise RuntimeError
      | _ => Raise RuntimeError
      end
  | Linear fin fout =>
      match reverse sh with
      | d :: rest => if d =? fin then Ok (reverse (fout :: rest)) else Raise RuntimeError
      | [] => Raise RuntimeError
      end
  end.

(** [self.<name>(x)] for a framework module. *)
Definition call (training : bool) (name : string) (l : layer) (x : tensor)
  : result tensor :=
  sh ← layer_shape training l (t_shape x);
  Ok (mk_tensor sh (ECall name l (t_data x))).

(** [self.<name>(x)] for an [nn.Sequential] of framework modules: the
    children are named by their position. *)
Fixpoint call_seq_from (training : bool) (name : string) (i : nat)
  (ls : list layer) (x : tensor) : result tensor :=
  match ls with
  | [] => Ok x
  | l :: ls' =>
      y ← call training (name +:+ "." +:+ pretty i) l x;
      call_seq_from training name (S i) ls' y
  end.

Definition call_seq (training : bool) (name : string) (ls : list layer)
  (x : tensor) : result tensor :=
  call_seq_from training name 0%nat ls x.

(** Broadcasting of two shapes, aligned from the last axis. *)
Fixpoint broadcast_rev (a b : list Z) : result (list Z) :=
  match a, b with
  | [], _ => Ok b
  | _, [] => Ok a
  | x :: a', y :: b' =>
      rest ← broadcast_rev a' b';
      if x =? y then Ok (x :: rest)
      else if x =? 1 then Ok (y :: rest)
      else if y =? 1 then Ok (x :: rest)
      else Raise RuntimeError
  end.

Definition broadcast (a b : list Z) : result (list Z) :=
  r ← broadcast_rev (reverse a) (reverse b); Ok (reverse r).

(** [torch.add(a, b)] *)
Definition add (a b : tensor) : result tensor :=
  sh ← broadcast (t_shape a) (t_shape b);
  Ok (mk_tensor sh (EAdd (t_data a) (t_data b))).

(** [a * b] *)
Definition mul (a b : tensor) : result tensor :=
  sh ← broadcast (t_shape a) (t_shape b);
  Ok (mk_tensor sh (EMul (t_data a) (t_data b))).

(** [F.dropout(x, p=p, training=training)]: a probability outside [0, 1]
    is refused; outside training mode the input is returned. *)
Definition dropout (x : tensor) (p : num) (training : bool) : result tensor :=
  if lt_int p 0 || gt_int p 1 then Raise ValueError
  else if training then Ok (mk_tensor (t_shape x) (EDropout p (t_data x)))
  else Ok x.

(** [x.squeeze()]: every axis of length one is removed. *)
Definition squeeze_shape (sh : list Z) : list Z :=
  filter (fun d => d ≠ 1) sh.

Definition squeeze (x : tensor) : tensor :=
  mk_tensor (squeeze_shape (t_shape x)) (ESqueeze (t_data x)).

(** Length of the Python slice [0:stop] of an axis of length [d]. *)
Definition slice_len (d stop : Z) : Z :=
  if stop <? 0 then Z.max 0 (stop + d) else Z.min stop d.

(** [x[:, 0:stop]]: two indices need two axes. *)
Definition slice_cols (x : tensor) (stop : Z) : result tensor :=
  match t_shape x with
  | b :: d :: rest =>
      Ok (mk_tensor (b :: slice_len d stop :: rest) (ESlice stop (t_data x)))
  | _ => Raise IndexError
  end.

(** The shape of [torch.cat(ts, dim=1)] given the shapes of [ts]: the list
    is not empty, every tensor has axis 1, and the tensors agree on every
    other axis.  An empty list is refused with [ValueError] by current
    releases of the framework and with [RuntimeError] by older ones; the
    development relies on the refusal only, not on its class. *)
Fixpoint cat1_shape_from (b : Z) (rest : list Z) (acc : Z) (shs : list (list Z))
  : result (list Z) :=
  match shs with
  | [] => Ok (b :: acc :: rest)
  | (b' :: d :: rest') :: shs' =>
      if (b' =? b) && bool_decide (rest' = rest)
      then cat1_shape_from b rest (acc + d) shs'
      else Raise RuntimeError
  | _ :: _ => Raise IndexError
  end.

Definition cat1_shape (shs : list (list Z)) : result (list Z) :=
  match shs with
  | [] => Raise ValueError
  | (b :: d :: rest) :: shs' => cat1_shape_from b rest d shs'
  | _ :: _ => Raise IndexError
  end.

Definition cat1 (ts : list tensor) : result tensor :=
  sh ← cat1_shape (t_shape <$> ts);
  Ok (mk_tensor sh (ECat (t_data <$> ts))).

(** [F.adaptive_avg_pool2d(x, o)] *)
Definition adaptive_avg_pool2d (x : tensor) (o : Z) : result tensor :=
  sh ← layer_shape false (AdaptiveAvgPool2d o) (t_shape x);
  Ok (mk_tensor sh (EPool o (t_data x))).

(** [x.view(-1, c)] *)
Definition view_rows (x : tensor) (c : Z) : result tensor :=
  let n := numel (t_shape x) in
  if negb (c =? 0) && (n mod c =? 0)
  then Ok (mk_tensor [n / c; c] (EView [-1; c] (t_data x)))
  else Raise RuntimeError.

(** [a and b or c] on integers, as the stage builders use it: [b] when [a]
    holds and [b] is not zero, else [c]. *)
Definition and_or (a : bool) (b c : Z) : Z :=
  if a && negb (b =? 0) then b else c.

(** [f(x)] for an attribute that holds a module or [None]. *)
Definition call_opt (training : bool) (name : string) (l : option layer)
  (x : tensor) : result tensor :=
  match l with
  | Some l' => call training name l' x
  | None => Raise TypeError
  end.

(** Reading a local variable that may not have been assigned. *)
Definition read_local {A : Type} (v : option A) : result A :=
  match v with
  | Some a => Ok a
  | None => Raise UnboundLocalError
  end.

End Torch.

Export Torch.

(** *** class BasicBlock *)

Module BasicBlock.

Record t : Type := mk {
  bn1 : layer;
  relu1 : layer;
  conv1 : layer;
  bn2 : layer;
  relu2 : layer;
  conv2 : layer;
  drop_rate : num;
  equalInOut : bool;
  convShortcut : option layer;
  activate_before_residual : bool;
  training : bool
}.

(** [BasicBlock.__init__]; a new module is in training mode. *)
Definition init (in_planes out_planes stride : Z) (drop_rate : num)
  (activate_before_residual : bool) : t :=
  let equalInOut := in_planes =? out_planes in
  {| bn1 := BatchNorm2d in_planes;
     relu1 := LeakyReLU;
     conv1 := Conv2d in_planes out_planes 3 stride 1 1;
     bn2 := BatchNorm2d out_planes;
     relu2 := LeakyReLU;
     conv2 := Conv2d out_planes out_planes 3 1 1 1;
     drop_rate := drop_rate;
     equalInOut := equalInOut;
     convShortcut :=
       if negb equalInOut then Some (Conv2d in_planes out_planes 1 stride 0 1)
       else None;
     activate_before_residual := activate_before_residual;
     training := true |}.

(** [nn.Module.train(mode)] on a block. *)
Definition train (mode : bool) (self : t) : t :=
  mk (bn1 self) (relu1 self) (conv1 self) (bn2 self) (relu2 self) (conv2 self)
    (drop_rate self) (equalInOut self) (convShortcut self)
    (activate_before_residual self) mode.

(** The first statement of [forward]: the new value of [x] and, when it was
    assigned, the local [out]. *)
Definition activate (self : t) (x : tensor) : result (tensor * option tensor) :=
  if negb (equalInOut self) && activate_before_residual self then
    n ← call (training self) "bn1" (bn1 self) x;
    x' ← call (training self) "relu1" (relu1 self) n;
    Ok (x', None)
  else
    n ← call (training self) "bn1" (bn1 self) x;
    out ← call (training self) "relu1" (relu1 self) n;
    Ok (x, Some out).

(** The argument of [self.conv1]: [out if self.equalInOut else x]. *)
Definition conv1_input (self : t) (x : tensor) (out : option tensor)
  : result tensor :=
  if equalInOut self then read_local out else Ok x.

(** [BasicBlock.forward] *)
Definition forward (self : t) (x : tensor) : result tensor :=
  '(x, out) ← activate self x;
  inp ← conv1_input self x out;
  c ← call (training self) "conv1" (conv1 self) inp;
  n ← call (training self) "bn2" (bn2 self) c;
  out ← call (training self) "relu2" (relu2 self) n;
  out ← (if gt_int (drop_rate self) 0
         then dropout out (drop_rate self) (training self) else Ok out);
  out ← call (training self) "conv2" (conv2 self) out;
  sc ← (if equalInOut self then Ok x
        else call_opt (training self) "convShortcut" (convShortcut self) x);
  add sc out.

End BasicBlock.

(** *** class CDBasicBlock *)

Module CDBasicBlock.

(** [attn] is [None] when [__init__] assigned no such attribute. *)
Record t : Type := mk {
  bn1 : layer;
  relu1 : layer;
  conv1 : layer;
  bn2 : layer;
  relu2 : layer;
  conv2 : layer;
  drop_rate : num;
  equalInOut : bool;
  convShortcut : option layer;
  activate_before_residual : bool;
  attn : option (list layer);
  training : bool
}.

(** The three-way choice of the gating module in [__init__]; no branch is
    taken for another value. *)
Definition make_attn (out_planes attn_var : Z) : option (list layer) :=
  if attn_var =? 1 then
    Some [AdaptiveAvgPool2d 1;
          Conv2d out_planes (out_planes / 16) 1 1 0 1;
          ReLU;
          Conv2d (out_planes / 16) out_planes 1 1 0 1;
          Sigmoid]
  else if attn_var =? 2 then
    Some [AdaptiveAvgPool2d 1;
          Conv2d out_planes out_planes 1 1 0 out_planes;
          Sigmoid]
  else if attn_var =? 3 then
    Some [AdaptiveAvgPool2d 1;
          Conv2d out_planes out_planes 1 1 0 1;
          Sigmoid]
  else None.

(** [CDBasicBlock.__init__] *)
Definition init (in_planes out_planes stride : Z) (drop_rate : num)
  (activate_before_residual : bool) (attn_var : Z) : t :=
  let equalInOut := in_planes =? out_planes in
  {| bn1 := BatchNorm2d in_planes;
     relu1 := LeakyReLU;
     conv1 := Conv2d in_planes out_planes 3 stride 1 1;
     bn2 := BatchNorm2d out_planes;
     relu2 := LeakyReLU;
     conv2 := Conv2d out_planes out_planes 3 1 1 1;
     drop_rate := drop_rate;
     equalInOut := equalInOut;
     convShortcut :=
       if negb equalInOut then Some (Conv2d in_planes out_planes 1 stride 0 1)
       else None;
     activate_before_residual := activate_before_residual;
     attn := make_attn out_planes attn_var;
     training := true |}.

(** [nn.Module.train(mode)] on a block. *)
Definition train (mode : bool) (self : t) : t :=
  mk (bn1 self) (relu1 self) (conv1 self) (bn2 self) (relu2 self) (conv2 self)
    (drop_rate self) (equalInOut self) (convShortcut self)
    (activate_before_residual self) (attn self) mode.

(** The first statement of [forward], as in [BasicBlock]. *)
Definition activate (self : t) (x : tensor) : result (tensor * option tensor) :=
  if negb (equalInOut self) && activate_before_residual self then
    n ← call (training self) "bn1" (bn1 self) x;
    x' ← call (training self) "relu1" (relu1 self) n;
    Ok (x', None)
  else
    n ← call (training self) "bn1" (bn1 self) x;
    out ← call (training self) "relu1" (relu1 self) n;
    Ok (x, Some out).

(** The argument of [self.conv1]: [out if self.equalInOut else x]. *)
Definition conv1_input (self : t) (x : tensor) (out : option tensor)
  : result tensor :=
  if equalInOut self then read_local out else Ok x.

(** Lines 78 to 82 of the source: the tensor [out] that the gate is computed
    from, after [conv2]. *)
Definition residual (self : t) (inp : tensor) : result tensor :=
  c ← call (training self) "conv1" (conv1 self) inp;
  out ← call (training self) "bn2" (bn2 self) c;
  out ← call (training self) "relu2" (relu2 self) out;
  out ← (if gt_int (drop_rate self) 0
         then dropout out (drop_rate self) (training self) else Ok out);
  call (training self) "conv2" (conv2 self) out.

(** [self.attn(out)]: the attribute must exist. *)
Definition call_attn (self : t) (out : tensor) : result tensor :=
  match attn self with
  | Some ls => call_seq (training self) "attn" ls out
  | None => Raise AttributeError
  end.

(** The operand of the residual addition that does not pass through the
    convolutions. *)
Definition shortcut (self : t) (x : tensor) : result tensor :=
  if equalInOut self then Ok x
  else call_opt (training self) "convShortcut" (convShortcut self) x.

(** [CDBasicBlock.forward] *)
Definition forward (self : t) (x : tensor) : result value :=
  '(x, out) ← activate self x;
  inp ← conv1_input self x out;
  out ← residual self inp;
  masks ← call_attn self out;
  out ← mul out masks;
  sc ← shortcut self x;
  out ← add sc out;
  Ok (VTuple [VTensor out; VTensor masks]).

End CDBasicBlock.

(** *** class CDWideResNet *)

Module CDWideResNet.

Record t : Type := mk {
  attn_var : Z;
  partial : num;
  widen_factor : Z;
  conv1 : layer;
  block1 : list BasicBlock.t;
  block2 : list BasicBlock.t;
  block3 : list CDBasicBlock.t;
  bn1 : layer;
  relu : layer;
  fc : layer;
  channels : Z;
  training : bool
}.

(** [_make_layer]: [nb_layers] is the integer that [int(nb_layers)] yields. *)
Definition _make_layer (nb_layers in_planes out_planes stride : Z)
  (drop_rate : num) (activate_before_residual : bool) : list BasicBlock.t :=
  (fun i => BasicBlock.init (and_or (i =? 0) in_planes out_planes) out_planes
              (and_or (i =? 0) stride 1) drop_rate activate_before_residual)
    <$> range 0 nb_layers.

(** [_make_cd_layer] *)
Definition _make_cd_layer (attn_var : Z) (nb_layers in_planes out_planes stride : Z)
  (drop_rate : num) (activate_before_residual : bool) : list CDBasicBlock.t :=
  (fun i => CDBasicBlock.init (and_or (i =? 0) in_planes out_planes) out_planes
              (and_or (i =? 0) stride 1) drop_rate activate_before_residual attn_var)
    <$> range 0 nb_layers.

(** [CDWideResNet.__init__].  After the assertion [(depth - 4) / 6] is an
    exact quotient, so the float [n] and [int(n)] are that integer.  The
    loop that initialises the weights changes no shape and no structure.
    The only failure modelled is the assertion of line 93: the constructors
    of the framework's modules are taken to succeed, which they do for a
    positive [widen_factor] and a positive [num_classes]; a negative one
    makes them raise, and that is outside this function. *)
Definition init (num_classes depth widen_factor : Z) (drop_rate : num)
  (attn_var : Z) (partial : num) : result t :=
  let c0 := 16 in
  let c1 := 16 * widen_factor in
  let c2 := 32 * widen_factor in
  let c3 := 64 * widen_factor in
  if negb ((depth - 4) mod 6 =? 0) then Raise AssertionError
  else
    let n := (depth - 4) / 6 in
    Ok {| attn_var := attn_var;
          partial := partial;
          widen_factor := widen_factor;
          conv1 := Conv2d 3 c0 3 1 1 1;
          block1 := _make_layer n c0 c1 1 drop_rate true;
          block2 := _make_layer n c1 c2 2 drop_rate false;
          block3 := _make_cd_layer attn_var n c2 c3 2 drop_rate false;
          bn1 := BatchNorm2d c3;
          relu := LeakyReLU;
          fc := Linear c3 num_classes;
          channels := c3;
          training := true |}.

(** [nn.Module.train(mode)]: the flag of the network and of every block. *)
Definition train (mode : bool) (self : t) : t :=
  mk (attn_var self) (partial self) (widen_factor self) (conv1 self)
    (BasicBlock.train mode <$> block1 self)
    (BasicBlock.train mode <$> block2 self)
    (CDBasicBlock.train mode <$> block3 self)
    (bn1 self) (relu self) (fc self) (channels self) mode.

(** An [nn.Sequential] of plain blocks. *)
Fixpoint sequential (blocks : list BasicBlock.t) (x : tensor) : result tensor :=
  match blocks with
  | [] => Ok x
  | b :: rest => y ← BasicBlock.forward b x; sequential rest y
  end.

(** [out, mask = v] *)
Definition unpack2 (v : value) : result (tensor * tensor) :=
  match v with
  | VTuple [VTensor a; VTensor b] => Ok (a, b)
  | _ => Raise ValueError
  end.

(** Lines 144 and 145: [out, mask = layer(out)], [mask = mask.squeeze()]. *)
Definition squeezed_gate (layer : CDBasicBlock.t) (out : tensor)
  : result (tensor * tensor) :=
  v ← CDBasicBlock.forward layer out;
  '(out, mask) ← unpack2 v;
  Ok (out, squeeze mask).

(** Lines 146 to 150: what the iteration appends to [mask_per_layer]. *)
Definition collected (self : t) (mask : tensor) : result tensor :=
  if lt_int (partial self) 1 then
    p ← mul_int (64 * widen_factor self) (partial self);
    stop ← int p;
    slice_cols mask stop
  else Ok mask.

(** The loop [for layer in self.block3]. *)
Fixpoint block3_loop (self : t) (layers : list CDBasicBlock.t) (out : tensor)
  (mask_per_layer : list tensor) : result (tensor * list tensor) :=
  match layers with
  | [] => Ok (out, mask_per_layer)
  | layer :: rest =>
      '(out, mask) ← squeezed_gate layer out;
      m ← collected self mask;
      block3_loop self rest out (mask_per_layer ++ [m])
  end.

(** Lines 138 to 151 of [forward]: the feature map after stage 3 and the
    concatenated local [mask]. *)
Definition features_and_mask (self : t) (x : tensor) : result (tensor * tensor) :=
  out ← call (training self) "conv1" (conv1 self) x;
  out ← sequential (block1 self) out;
  out ← sequential (block2 self) out;
  '(out, mask_per_layer) ← block3_loop self (block3 self) out [];
  mask ← cat1 mask_per_layer;
  Ok (out, mask).

(** [CDWideResNet.forward]: the last statement is [return logits]. *)
Definition forward (self : t) (x : tensor) : result value :=
  '(out, mask) ← features_and_mask self x;
  n ← call (training self) "bn1" (bn1 self) out;
  out ← call (training self) "relu" (relu self) n;
  out ← adaptive_avg_pool2d out 1;
  out ← view_rows out (channels self);
  logits ← call (training self) "fc" (fc self) out;
  Ok (VTensor logits).

(** [CDWRN28] *)
Definition CDWRN28 (num_classes widen_factor : Z) : result t :=
  init num_classes 28 widen_factor (PyFloat 0%float) 1 (PyInt 1).

End CDWideResNet.

(** ** Definitions used to state the properties of the network *)

Module NetSpec.

(** The output length of a strided convolution over a non-empty axis. *)
Definition down (n s : Z) : Z := (n - 1) / s + 1.

(** Batch normalisation accepts the input: evaluation mode, or more than
    one value per channel. *)
Definition bn_accepts (tr : bool) (b : Z) : Prop := tr = false ∨ 2 ≤ b.

(** The same for a feature map of [h] by [w] positions: in training mode
    batch normalisation counts the values of a channel over the batch and
    the positions, and wants more than one. *)
Definition bn_sized (tr : bool) (b h w : Z) : Prop :=
  tr = false ∨ 2 ≤ b * h * w.

(** The dropout probability is one: not below 0 and not above 1. *)
Definition drop_ok (dr : num) : Prop := lt_int dr 0 || gt_int dr 1 = false.

(** The values after the optional dropout. *)
Definition dropped (dr : num) (tr : bool) (e : expr) : expr :=
  if gt_int dr 0 && tr then EDropout dr e else e.

(** [relu1(bn1(e))] *)
Definition activated (cin : Z) (e : expr) : expr :=
  ECall "relu1" LeakyReLU (ECall "bn1" (BatchNorm2d cin) e).

(** The values after [conv2], from the values [e] given to [conv1]. *)
Definition after_conv2 (tr : bool) (cin cout s : Z) (dr : num) (e : expr) : expr :=
  ECall "conv2" (Conv2d cout cout 3 1 1 1)
    (dropped dr tr
       (ECall "relu2" LeakyReLU
          (ECall "bn2" (BatchNorm2d cout)
             (ECall "conv1" (Conv2d cin cout 3 s 1 1) e)))).

(** What [conv1] is applied to, as the code selects it. *)
Definition conv1_arg (cin cout : Z) (abr : bool) (e : expr) : expr :=
  if cin =? cout then activated cin e
  else if abr then activated cin e
  else e.

(** The first operand of the residual addition, as the code selects it. *)
Definition shortcut_values (cin cout s : Z) (abr : bool) (e : expr) : expr :=
  if cin =? cout then e
  else ECall "convShortcut" (Conv2d cin cout 1 s 0 1)
         (if abr then activated cin e else e).

(** The gate values of each attention variant, from the values [e] that
    [conv2] produced. *)
Definition gate_values (attn_var cout : Z) (e : expr) : expr :=
  if attn_var =? 1 then
    ECall "attn.4" Sigmoid
      (ECall "attn.3" (Conv2d (cout / 16) cout 1 1 0 1)
         (ECall "attn.2" ReLU
            (ECall "attn.1" (Conv2d cout (cout / 16) 1 1 0 1)
               (ECall "attn.0" (AdaptiveAvgPool2d 1) e))))
  else if attn_var =? 2 then
    ECall "attn.2" Sigmoid
      (ECall "attn.1" (Conv2d cout cout 1 1 0 cout)
         (ECall "attn.0" (AdaptiveAvgPool2d 1) e))
  else
    ECall "attn.2" Sigmoid
      (ECall "attn.1" (Conv2d cout cout 1 1 0 1)
         (ECall "attn.0" (AdaptiveAvgPool2d 1) e)).

(** The number of gate columns one block contributes, in the words of the
    specification: the full [64 * widen_factor] unless [partial < 1], and
    then the integer part [k] of the product [64 * widen_factor * partial]
    as Python computes it, which is its floor when it is not negative. *)
Inductive per_block_width (wf : Z) (partial : num) : Z → Prop :=
| width_full :
    lt_int partial 1 = false → per_block_width wf partial (64 * wf)
| width_prefix (p : num) (k : Z) :
    lt_int partial 1 = true →
    mul_int (64 * wf) partial = Ok p → int p = Ok k → 0 ≤ k ≤ 64 * wf →
    per_block_width wf partial k.

(** The network that [__init__] builds once the assertion has passed. *)
Definition built (num_classes depth widen_factor : Z) (drop_rate : num)
  (attn_var : Z) (partial : num) : CDWideResNet.t :=
  let n := (depth - 4) / 6 in
  CDWideResNet.mk attn_var partial widen_factor (Conv2d 3 16 3 1 1 1)
    (CDWideResNet._make_layer n 16 (16 * widen_factor) 1 drop_rate true)
    (CDWideResNet._make_layer n (16 * widen_factor) (32 * widen_factor) 2
       drop_rate false)
    (CDWideResNet._make_cd_layer attn_var n (32 * widen_factor)
       (64 * widen_factor) 2 drop_rate false)
    (BatchNorm2d (64 * widen_factor)) LeakyReLU
    (Linear (64 * widen_factor) num_classes) (64 * widen_factor) true.

(** Whether the values [e] depend on the submodule stored under [name]. *)
Fixpoint mentions (name : string) (e : expr) : bool :=
  match e with
  | EInput => false
  | ECall n _ e' => String.eqb n name || mentions name e'
  | EDropout _ e' | ESqueeze e' | ESlice _ e' | EPool _ e' | EView _ e' =>
      mentions name e'
  | EAdd a b | EMul a b => mentions name a || mentions name b
  | ECat es => existsb (mentions name) es
  end.

End NetSpec.

(** * Properties *)

(** Reduction of the monadic sequencing once its first computation is known. *)
Ltac bind_simpl := cbn [mbind result_bind Py.bind mret result_ret].

(** ** data/backdoor.py *)

Module BackdoorProps.
Import Backdoor.

(** A loop of assignments through one reference is a loop on the array
    behind it, written back under the same reference. *)
Lemma store_row_loop (l : loc) (j v : Z) (ks : list Z) :
  ∀ (σ : gmap loc ndarray) (a : ndarray),
    σ !! l = Some a →
    for_each ks (fun k σ2 => store_setitem2 l j k v σ2) σ
    = a' ← fill_row j ks v a; Ok (<[l := a']> σ).
Proof.
  induction ks as [|k ks IH]; intros σ a Hl.
  - unfold fill_row. simpl for_each. bind_simpl. by rewrite insert_id.
  - unfold fill_row. simpl for_each.
    assert (store_setitem2 l j k v σ
            = a' ← setitem2 a j k v; Ok (<[l := a']> σ)) as ->
      by (unfold store_setitem2; by rewrite Hl).
    destruct (setitem2 a j k v) as [a1|e] eqn:E; bind_simpl; [|done].
    rewrite (IH (<[l := a1]> σ) a1) by apply lookup_insert_eq.
    unfold fill_row.
    destruct (for_each ks _ a1) as [a2|e2]; bind_simpl; [|done].
    by rewrite insert_insert_eq.
Qed.

Lemma store_patch_loop (l : loc) (v : Z) (ks js : list Z) :
  ∀ (σ : gmap loc ndarray) (a : ndarray),
    σ !! l = Some a →
    for_each js (fun j σ1 =>
      for_each ks (fun k σ2 => store_setitem2 l j k v σ2) σ1) σ
    = a' ← fill_patch js ks v a; Ok (<[l := a']> σ).
Proof.
  induction js as [|j js IH]; intros σ a Hl.
  - unfold fill_patch. simpl for_each. bind_simpl. by rewrite insert_id.
  - unfold fill_patch. simpl for_each.
    rewrite (store_row_loop l j v ks σ a Hl).
    destruct (fill_row j ks v a) as [a1|e] eqn:E; bind_simpl; [|done].
    rewrite (IH (<[l := a1]> σ) a1) by apply lookup_insert_eq.
    unfold fill_patch.
    destruct (for_each js _ a1) as [a2|e2]; bind_simpl; [|done].
    by rewrite insert_insert_eq.
Qed.

(** [add_trigger] in terms of the array it is given. *)
Lemma add_trigger_array (self : BadNets) (l : loc) (σ : gmap loc ndarray)
  (a : ndarray) :
  σ !! l = Some a →
  add_trigger self l σ
  = width ← getitem (shape a) 0;
    height ← getitem (shape a) 1;
    a' ← fill_patch (range (width - 1 - trigger_size self) (width - 1))
           (range (height - 1 - trigger_size self) (height - 1)) 255 a;
    Ok (l, <[l := a']> σ).
Proof.
  intros Hl. unfold add_trigger. rewrite Hl.
  destruct (getitem (shape a) 0) as [w|e]; bind_simpl; [|done].
  destruct (getitem (shape a) 1) as [h|e]; bind_simpl; [|done].
  rewrite (store_patch_loop l 255 _ _ σ a Hl).
  by destruct (fill_patch _ _ 255 a).
Qed.

(** A check over a range of integers holds at each of its members. *)
Lemma forallb_seqZ (P : Z → bool) (m n : Z) :
  forallb P (seqZ m n) = true → ∀ x, m ≤ x < m + n → P x = true.
Proof.
  intros H x Hx. rewrite forallb_forall in H. apply H.
  apply list_elem_of_In, elem_of_seqZ. lia.
Qed.

Lemma patched_pixels (j k c : Z) :
  0 ≤ j < 10 → 0 ≤ k < 10 → 0 ≤ c < 3 →
  getitem3 patched j k c = Ok (if in_patch j k then 255 else 0).
Proof.
  intros Hj Hk Hc.
  assert (forallb (fun j => forallb (fun k => forallb (fun c =>
            bool_decide (getitem3 patched j k c
                         = Ok (if in_patch j k then 255 else 0)))
            (seqZ 0 3)) (seqZ 0 10)) (seqZ 0 10) = true) as H
    by (vm_compute; reflexivity).
  pose proof (forallb_seqZ _ _ _ H j Hj) as H1. cbv beta in H1.
  pose proof (forallb_seqZ _ _ _ H1 k Hk) as H2. cbv beta in H2.
  pose proof (forallb_seqZ _ _ _ H2 c Hc) as H3. cbv beta in H3.
  by apply bool_decide_eq_true in H3.
Qed.

(** C6: on a 10 by 10 by 3 array of zeros, [BadNets(trigger_size=3)] writes
    255 to every channel of the pixels in rows 6 to 8 and columns 6 to 8
    (row and column 9 stay out), leaves every other element 0, and returns
    the reference it was given: the array is changed in place, and no other
    object of the store is touched. *)
Theorem C6_badnets_patch (σ : gmap loc ndarray) (img : loc) :
  σ !! img = Some (zeros [10; 10; 3]) →
  ∃ a' : ndarray,
    add_trigger (mk_BadNets 3) img σ = Ok (img, <[img := a']> σ)
    ∧ shape a' = [10; 10; 3]
    ∧ ∀ j k c, 0 ≤ j < 10 → 0 ≤ k < 10 → 0 ≤ c < 3 →
        getitem3 a' j k c
        = Ok (if (6 <=? j) && (j <=? 8) && (6 <=? k) && (k <=? 8) then 255 else 0).
Proof.
  intros Hl. exists patched. split; [|split].
  - rewrite (add_trigger_array _ _ _ _ Hl). reflexivity.
  - reflexivity.
  - intros j k c Hj Hk Hc. apply (patched_pixels j k c Hj Hk Hc).
Qed.

Lemma C6_badnets_patch_witness :
  ∃ a' : ndarray,
    add_trigger (mk_BadNets 3) 1%positive {[ 1%positive := zeros [10; 10; 3] ]}
    = Ok (1%positive, <[1%positive := a']> {[ 1%positive := zeros [10; 10; 3] ]})
    ∧ shape a' = [10; 10; 3]
    ∧ ∀ j k c, 0 ≤ j < 10 → 0 ≤ k < 10 → 0 ≤ c < 3 →
        getitem3 a' j k c
        = Ok (if (6 <=? j) && (j <=? 8) && (6 <=? k) && (k <=? 8) then 255 else 0).
Proof.
  apply (C6_badnets_patch {[ 1%positive := zeros [10; 10; 3] ]} 1%positive).
  reflexivity.
Defined.

(** C7: [Blend.blend_trigger] raises [TypeError] on every object that is not
    an array, and [ValueError] on every array whose number of dimensions is
    not 3, whatever the imaging library would do: no conversion, resize or
    blend takes part in the result. *)
Theorem C7_blend_guards (pil_image : Type)
  (Image_fromarray : ndarray → result pil_image)
  (Image_size : pil_image → Z * Z)
  (Image_resize : pil_image → Z * Z → result pil_image)
  (Image_blend : pil_image → pil_image → num → result pil_image)
  (np_array : pil_image → ndarray)
  (self : Blend pil_image) (σ : gmap loc ndarray) (l : loc) (a : ndarray) :
  σ !! l = Some a →
  length (shape a) ≠ 3%nat →
  blend_trigger pil_image Image_fromarray Image_size Image_resize Image_blend
    np_array self (ObjNdarray l) σ = Raise ValueError
  ∧ ∀ type_name : string,
      blend_trigger pil_image Image_fromarray Image_size Image_resize Image_blend
        np_array self (ObjOther type_name) σ = Raise TypeError.
Proof.
  intros Hl Hdim. split; [|reflexivity].
  unfold blend_trigger. rewrite Hl.
  destruct (Z.eqb_spec (Z.of_nat (length (shape a))) 3) as [E|E]; [lia|done].
Qed.

(** A 2-dimensional array, with an imaging library that would fail loudly
    if it were reached. *)
Lemma C7_blend_guards_witness :
  blend_trigger unit (fun _ => Raise RuntimeError) (fun _ => (0, 0))
    (fun _ _ => Raise RuntimeError) (fun _ _ _ => Raise RuntimeError)
    (fun _ => zeros []) (mk_Blend unit tt (PyFloat 0x1.999999999999ap-4%float)) (ObjNdarray 1%positive)
    {[ 1%positive := zeros [4; 5] ]} = Raise ValueError
  ∧ ∀ type_name : string,
      blend_trigger unit (fun _ => Raise RuntimeError) (fun _ => (0, 0))
        (fun _ _ => Raise RuntimeError) (fun _ _ _ => Raise RuntimeError)
        (fun _ => zeros []) (mk_Blend unit tt (PyFloat 0x1.999999999999ap-4%float)) (ObjOther type_name)
        {[ 1%positive := zeros [4; 5] ]} = Raise TypeError.
Proof.
  apply (C7_blend_guards unit (fun _ => Raise RuntimeError) (fun _ => (0, 0))
           (fun _ _ => Raise RuntimeError) (fun _ _ _ => Raise RuntimeError)
           (fun _ => zeros []) (mk_Blend unit tt (PyFloat 0x1.999999999999ap-4%float))
           {[ 1%positive := zeros [4; 5] ]} 1%positive (zeros [4; 5])).
  - reflexivity.
  - cbn. lia.
Defined.

End BackdoorProps.

(** ** model/network/se_wideresnet.py *)

Module NetProps.
Import NetSpec.

(** *** Shapes of the framework operations *)

Lemma conv_out_k3 (n s : Z) :
  1 ≤ n → conv_out n 3 s 1 = Ok ((n - 1) / s + 1).
Proof.
  intros Hn. unfold conv_out.
  destruct (Z.ltb_spec (n + 2 * 1 - 3) 0) as [H|H]; [lia|].
  do 2 f_equal. f_equal. lia.
Qed.

Lemma conv_out_k1 (n s : Z) :
  1 ≤ n → conv_out n 1 s 0 = Ok ((n - 1) / s + 1).
Proof.
  intros Hn. unfold conv_out.
  destruct (Z.ltb_spec (n + 2 * 0 - 1) 0) as [H|H]; [lia|].
  do 2 f_equal. f_equal. lia.
Qed.

Lemma down_pos (n s : Z) : 1 ≤ n → 1 ≤ s → 1 ≤ down n s.
Proof.
  intros Hn Hs. unfold down.
  assert (0 ≤ (n - 1) / s) by (apply Z.div_pos; lia). lia.
Qed.

Lemma down_1 (n : Z) : down n 1 = n.
Proof. unfold down. rewrite Z.div_1_r. lia. Qed.

Lemma call_conv3 (tr : bool) (name : string) (cin cout s g b h w : Z) (e : expr) :
  1 ≤ h → 1 ≤ w →
  call tr name (Conv2d cin cout 3 s 1 g) (mk_tensor [b; cin; h; w] e)
  = Ok (mk_tensor [b; cout; down h s; down w s]
          (ECall name (Conv2d cin cout 3 s 1 g) e)).
Proof.
  intros Hh Hw. unfold call, layer_shape. cbn [t_shape t_data].
  rewrite Z.eqb_refl. cbn [negb].
  rewrite (conv_out_k3 h s Hh), (conv_out_k3 w s Hw). reflexivity.
Qed.

Lemma call_conv1 (tr : bool) (name : string) (cin cout s g b h w : Z) (e : expr) :
  1 ≤ h → 1 ≤ w →
  call tr name (Conv2d cin cout 1 s 0 g) (mk_tensor [b; cin; h; w] e)
  = Ok (mk_tensor [b; cout; down h s; down w s]
          (ECall name (Conv2d cin cout 1 s 0 g) e)).
Proof.
  intros Hh Hw. unfold call, layer_shape. cbn [t_shape t_data].
  rewrite Z.eqb_refl. cbn [negb].
  rewrite (conv_out_k1 h s Hh), (conv_out_k1 w s Hw). reflexivity.
Qed.

Lemma call_bn (tr : bool) (name : string) (c b h w : Z) (e : expr) :
  bn_accepts tr b → 1 ≤ h → 1 ≤ w →
  call tr name (BatchNorm2d c) (mk_tensor [b; c; h; w] e)
  = Ok (mk_tensor [b; c; h; w] (ECall name (BatchNorm2d c) e)).
Proof.
  intros Hbn Hh Hw. unfold call, layer_shape. cbn [t_shape t_data].
  assert (tr && (b * h * w =? 1) = false) as ->;
    [|rewrite Z.eqb_refl; reflexivity].
  destruct Hbn as [->|Hb]; [reflexivity|].
  apply andb_false_iff. right. apply Z.eqb_neq. nia.
Qed.

Lemma call_pointwise (tr : bool) (name : string) (l : layer) (x : tensor) :
  l = LeakyReLU ∨ l = ReLU ∨ l = Sigmoid →
  call tr name l x = Ok (mk_tensor (t_shape x) (ECall name l (t_data x))).
Proof. intros [->|[->| ->]]; reflexivity. Qed.

Lemma call_pool (tr : bool) (name : string) (o b c h w : Z) (e : expr) :
  1 ≤ c → 1 ≤ h → 1 ≤ w →
  call tr name (AdaptiveAvgPool2d o) (mk_tensor [b; c; h; w] e)
  = Ok (mk_tensor [b; c; o; o] (ECall name (AdaptiveAvgPool2d o) e)).
Proof.
  intros Hc Hh Hw. unfold call, layer_shape. cbn [t_shape t_data].
  destruct (Z.ltb_spec 0 c); [|lia]. destruct (Z.ltb_spec 0 h); [|lia].
  destruct (Z.ltb_spec 0 w); [|lia]. reflexivity.
Qed.

Lemma broadcast_rev_same (sh : list Z) : broadcast_rev sh sh = Ok sh.
Proof.
  induction sh as [|d sh IH]; [reflexivity|].
  cbn [broadcast_rev]. rewrite IH. bind_simpl. by rewrite Z.eqb_refl.
Qed.

Lemma broadcast_same (sh : list Z) : broadcast sh sh = Ok sh.
Proof.
  unfold broadcast. rewrite broadcast_rev_same. bind_simpl.
  by rewrite reverse_involutive.
Qed.

Lemma add_same (sh : list Z) (e1 e2 : expr) :
  add (mk_tensor sh e1) (mk_tensor sh e2) = Ok (mk_tensor sh (EAdd e1 e2)).
Proof. unfold add. cbn [t_shape t_data]. by rewrite broadcast_same. Qed.

(** A per-channel gate scales a feature map of any spatial size. *)
Lemma broadcast_gate (b c h w : Z) :
  broadcast [b; c; h; w] [b; c; 1; 1] = Ok [b; c; h; w].
Proof.
  unfold broadcast. change (reverse [b; c; h; w]) with [w; h; c; b].
  change (reverse [b; c; 1; 1]) with [1; 1; c; b].
  cbn [broadcast_rev]. bind_simpl. rewrite !Z.eqb_refl. bind_simpl.
  change (1 =? 1) with true.
  destruct (h =? 1) eqn:Eh, (w =? 1) eqn:Ew; bind_simpl;
    repeat match goal with H : (_ =? 1) = true |- _ => apply Z.eqb_eq in H; subst end;
    reflexivity.
Qed.

Lemma mul_gate (b c h w : Z) (e1 e2 : expr) :
  mul (mk_tensor [b; c; h; w] e1) (mk_tensor [b; c; 1; 1] e2)
  = Ok (mk_tensor [b; c; h; w] (EMul e1 e2)).
Proof. unfold mul. cbn [t_shape t_data]. by rewrite broadcast_gate. Qed.

(** *** The two residual blocks *)

Lemma dropout_step (dr : num) (tr : bool) (sh : list Z) (e : expr) :
  drop_ok dr →
  (if gt_int dr 0 then dropout (mk_tensor sh e) dr tr else Ok (mk_tensor sh e))
  = Ok (mk_tensor sh (dropped dr tr e)).
Proof.
  intros Hdr. unfold dropped, dropout. red in Hdr. rewrite Hdr.
  destruct (gt_int dr 0), tr; reflexivity.
Qed.

Ltac block_fields :=
  cbn [BasicBlock.train BasicBlock.init BasicBlock.bn1 BasicBlock.relu1
       BasicBlock.conv1 BasicBlock.bn2 BasicBlock.relu2 BasicBlock.conv2
       BasicBlock.drop_rate BasicBlock.equalInOut BasicBlock.convShortcut
       BasicBlock.activate_before_residual BasicBlock.training
       CDBasicBlock.train CDBasicBlock.init CDBasicBlock.bn1 CDBasicBlock.relu1
       CDBasicBlock.conv1 CDBasicBlock.bn2 CDBasicBlock.relu2 CDBasicBlock.conv2
       CDBasicBlock.drop_rate CDBasicBlock.equalInOut CDBasicBlock.convShortcut
       CDBasicBlock.activate_before_residual CDBasicBlock.attn
       CDBasicBlock.training].

Ltac dims := first [ assumption | lia | apply down_pos; dims ].

Ltac run_layers :=
  repeat first
    [ rewrite down_1
    | rewrite call_bn by dims
    | rewrite call_conv3 by dims
    | rewrite call_conv1 by dims
    | rewrite call_pointwise by tauto
    | rewrite dropout_step by assumption
    | rewrite add_same
    | progress bind_simpl
    | progress cbn [t_shape t_data negb andb call_opt read_local] ].

(** [BasicBlock.forward] on a feature map that fits the block. *)
Lemma BasicBlock_forward_fits (tr : bool) (cin cout s : Z) (dr : num) (abr : bool)
  (b h w : Z) (e : expr) :
  1 ≤ h → 1 ≤ w → 1 ≤ s → (cin = cout → s = 1) → bn_accepts tr b → drop_ok dr →
  BasicBlock.forward (BasicBlock.train tr (BasicBlock.init cin cout s dr abr))
    (mk_tensor [b; cin; h; w] e)
  = Ok (mk_tensor [b; cout; down h s; down w s]
          (EAdd (shortcut_values cin cout s abr e)
             (after_conv2 tr cin cout s dr (conv1_arg cin cout abr e)))).
Proof.
  intros Hh Hw Hs Heq Hbn Hdr.
  unfold BasicBlock.forward, BasicBlock.activate, BasicBlock.conv1_input.
  unfold shortcut_values, conv1_arg, after_conv2, activated.
  block_fields.
  destruct (Z.eqb_spec cin cout) as [->|Hne].
  - rewrite (Heq eq_refl). run_layers. reflexivity.
  - destruct abr; run_layers; reflexivity.
Qed.

Lemma attn_child_names :
  "attn" +:+ "." +:+ pretty 0%nat = "attn.0"
  ∧ "attn" +:+ "." +:+ pretty 1%nat = "attn.1"
  ∧ "attn" +:+ "." +:+ pretty 2%nat = "attn.2"
  ∧ "attn" +:+ "." +:+ pretty 3%nat = "attn.3"
  ∧ "attn" +:+ "." +:+ pretty 4%nat = "attn.4".
Proof. repeat split; vm_compute; reflexivity. Qed.

(** The part of [forward] between the choice of the input of [conv1] and the
    gate: lines 78 to 82. *)
Lemma CDBasicBlock_residual_fits (tr : bool) (cin cout s : Z) (dr : num)
  (abr : bool) (av : Z) (b h w : Z) (e : expr) :
  1 ≤ h → 1 ≤ w → 1 ≤ s → bn_accepts tr b → drop_ok dr →
  CDBasicBlock.residual (CDBasicBlock.train tr (CDBasicBlock.init cin cout s dr abr av))
    (mk_tensor [b; cin; h; w] e)
  = Ok (mk_tensor [b; cout; down h s; down w s] (after_conv2 tr cin cout s dr e)).
Proof.
  intros Hh Hw Hs Hbn Hdr. unfold CDBasicBlock.residual, after_conv2.
  block_fields. run_layers. reflexivity.
Qed.

(** [self.attn(out)] for the three variants: one gate per batch element and
    channel, with the two spatial axes kept at length one. *)
Lemma CDBasicBlock_attn_fits (tr : bool) (cin cout s : Z) (dr : num)
  (abr : bool) (av : Z) (b h w : Z) (e : expr) :
  1 ≤ h → 1 ≤ w → 1 ≤ cout → av = 1 ∨ av = 2 ∨ av = 3 →
  CDBasicBlock.call_attn (CDBasicBlock.train tr (CDBasicBlock.init cin cout s dr abr av))
    (mk_tensor [b; cout; h; w] e)
  = Ok (mk_tensor [b; cout; 1; 1] (gate_values av cout e)).
Proof.
  intros Hh Hw Hc Hav. unfold CDBasicBlock.call_attn, gate_values.
  block_fields. unfold CDBasicBlock.make_attn.
  destruct attn_child_names as (N0 & N1 & N2 & N3 & N4).
  destruct Hav as [->|[->| ->]];
    cbn [Z.eqb Pos.eqb]; unfold call_seq; cbn [call_seq_from];
    rewrite ?N0, ?N1, ?N2, ?N3, ?N4;
    rewrite call_pool by lia; run_layers; reflexivity.
Qed.

(** [CDBasicBlock.forward] on a feature map that fits the block: the pair
    it returns, in full. *)
Lemma CDBasicBlock_forward_fits (tr : bool) (cin cout s : Z) (dr : num)
  (abr : bool) (av : Z) (b h w : Z) (e : expr) :
  1 ≤ h → 1 ≤ w → 1 ≤ s → 1 ≤ cout → (cin = cout → s = 1) →
  bn_accepts tr b → drop_ok dr → av = 1 ∨ av = 2 ∨ av = 3 →
  CDBasicBlock.forward (CDBasicBlock.train tr (CDBasicBlock.init cin cout s dr abr av))
    (mk_tensor [b; cin; h; w] e)
  = Ok (VTuple
          [VTensor (mk_tensor [b; cout; down h s; down w s]
             (EAdd (shortcut_values cin cout s abr e)
                (EMul (after_conv2 tr cin cout s dr (conv1_arg cin cout abr e))
                   (gate_values av cout
                      (after_conv2 tr cin cout s dr (conv1_arg cin cout abr e))))));
           VTensor (mk_tensor [b; cout; 1; 1]
             (gate_values av cout
                (after_conv2 tr cin cout s dr (conv1_arg cin cout abr e))))]).
Proof.
  intros Hh Hw Hs Hc Heq Hbn Hdr Hav.
  pose proof (down_pos h s Hh Hs) as Hh'. pose proof (down_pos w s Hw Hs) as Hw'.
  unfold CDBasicBlock.forward, CDBasicBlock.activate, CDBasicBlock.conv1_input,
    CDBasicBlock.shortcut.
  unfold shortcut_values, conv1_arg.
  cbn [CDBasicBlock.train CDBasicBlock.init CDBasicBlock.bn1 CDBasicBlock.relu1
       CDBasicBlock.equalInOut CDBasicBlock.convShortcut
       CDBasicBlock.activate_before_residual CDBasicBlock.training].
  fold (CDBasicBlock.init cin cout s dr abr av).
  fold (CDBasicBlock.train tr (CDBasicBlock.init cin cout s dr abr av)).
  destruct (Z.eqb_spec cin cout) as [->|Hne]; [|destruct abr];
    run_layers;
    rewrite CDBasicBlock_residual_fits by assumption; bind_simpl;
    rewrite CDBasicBlock_attn_fits by assumption; bind_simpl;
    rewrite mul_gate; run_layers.
  - rewrite (Heq eq_refl). run_layers. reflexivity.
  - reflexivity.
  - reflexivity.
Qed.

(** *** The stage builders *)

Lemma map_seq_const {A : Type} (g : Z → A) (v : A) (k : nat) :
  ∀ m : Z, (∀ i, m ≤ i → g i = v) →
  g <$> seqZ m (Z.of_nat k) = replicate k v.
Proof.
  induction k as [|k IH]; intros m Hg; [reflexivity|].
  rewrite seqZ_cons by lia. cbn [fmap list_fmap replicate].
  rewrite (Hg m) by lia. f_equal.
  replace (Z.pred (Z.of_nat (S k))) with (Z.of_nat k) by lia.
  apply IH. intros i Hi. apply Hg. lia.
Qed.

(** A stage is its transition block followed by [n - 1] blocks that keep
    the shape. *)
Lemma make_layer_blocks (n cin cout s : Z) (dr : num) (abr : bool) :
  1 ≤ n → cin ≠ 0 → s ≠ 0 →
  CDWideResNet._make_layer n cin cout s dr abr
  = BasicBlock.init cin cout s dr abr
    :: replicate (Z.to_nat (n - 1)) (BasicBlock.init cout cout 1 dr abr).
Proof.
  intros Hn Hc Hs. unfold CDWideResNet._make_layer, range.
  rewrite seqZ_cons by lia. cbn [fmap list_fmap]. f_equal.
  - unfold and_or. rewrite Z.eqb_refl. cbn [andb].
    destruct (Z.eqb_spec cin 0); [lia|]. destruct (Z.eqb_spec s 0); [lia|].
    reflexivity.
  - replace (Z.pred (n - 0)) with (Z.of_nat (Z.to_nat (n - 1))) by lia.
    apply map_seq_const. intros i Hi. unfold and_or.
    destruct (Z.eqb_spec i 0); [lia|]. reflexivity.
Qed.

Lemma make_cd_layer_blocks (av n cin cout s : Z) (dr : num) (abr : bool) :
  1 ≤ n → cin ≠ 0 → s ≠ 0 →
  CDWideResNet._make_cd_layer av n cin cout s dr abr
  = CDBasicBlock.init cin cout s dr abr av
    :: replicate (Z.to_nat (n - 1)) (CDBasicBlock.init cout cout 1 dr abr av).
Proof.
  intros Hn Hc Hs. unfold CDWideResNet._make_cd_layer, range.
  rewrite seqZ_cons by lia. cbn [fmap list_fmap]. f_equal.
  - unfold and_or. rewrite Z.eqb_refl. cbn [andb].
    destruct (Z.eqb_spec cin 0); [lia|]. destruct (Z.eqb_spec s 0); [lia|].
    reflexivity.
  - replace (Z.pred (n - 0)) with (Z.of_nat (Z.to_nat (n - 1))) by lia.
    apply map_seq_const. intros i Hi. unfold and_or.
    destruct (Z.eqb_spec i 0); [lia|]. reflexivity.
Qed.

(** Blocks that keep the shape, one after the other. *)
Lemma sequential_same_shape (tr : bool) (c : Z) (dr : num) (abr : bool)
  (b h w : Z) (k : nat) :
  1 ≤ h → 1 ≤ w → bn_accepts tr b → drop_ok dr →
  ∀ e, ∃ e',
    CDWideResNet.sequential
      (replicate k (BasicBlock.train tr (BasicBlock.init c c 1 dr abr)))
      (mk_tensor [b; c; h; w] e)
    = Ok (mk_tensor [b; c; h; w] e').
Proof.
  intros Hh Hw Hbn Hdr. induction k as [|k IH]; intros e.
  - exists e. reflexivity.
  - cbn [replicate CDWideResNet.sequential].
    rewrite BasicBlock_forward_fits by (assumption || lia). bind_simpl.
    rewrite !down_1. apply IH.
Qed.

(** A plain stage maps [(b, cin, h, w)] to [(b, cout, h', w')]. *)
Lemma stage_shape (tr : bool) (n cin cout s : Z) (dr : num) (abr : bool)
  (b h w : Z) (e : expr) :
  1 ≤ n → cin ≠ 0 → 1 ≤ s → (cin = cout → s = 1) →
  1 ≤ h → 1 ≤ w → bn_accepts tr b → drop_ok dr →
  ∃ e',
    CDWideResNet.sequential
      (BasicBlock.train tr <$> CDWideResNet._make_layer n cin cout s dr abr)
      (mk_tensor [b; cin; h; w] e)
    = Ok (mk_tensor [b; cout; down h s; down w s] e').
Proof.
  intros Hn Hc Hs Heq Hh Hw Hbn Hdr.
  rewrite make_layer_blocks by lia.
  cbn [fmap list_fmap CDWideResNet.sequential].
  rewrite BasicBlock_forward_fits by assumption. bind_simpl.
  change (list_fmap _ _ (BasicBlock.train tr)) with (fmap (M:=list) (BasicBlock.train tr)).
  rewrite fmap_replicate.
  apply sequential_same_shape; first [assumption | apply down_pos; lia].
Qed.

(** *** The attention-gated stage and the gate tensor *)

(** [squeeze()] on a gate of shape [(b, c, 1, 1)]: both spatial axes go, and
    so does the batch axis when it has length one. *)
Lemma squeeze_gate_shape (b c : Z) :
  c ≠ 1 → squeeze_shape [b; c; 1; 1] = if b =? 1 then [c] else [b; c].
Proof.
  intros Hc. unfold squeeze_shape.
  rewrite !filter_cons, filter_nil.
  destruct (decide (c ≠ 1)) as [_|]; [|done].
  destruct (decide (1 ≠ 1)) as [?|_]; [done|].
  destruct (Z.eqb_spec b 1) as [->|Hb].
  - destruct (decide (1 ≠ 1)) as [?|_]; done.
  - destruct (decide (b ≠ 1)) as [_|]; done.
Qed.

Lemma squeeze_removes_ones (sh : list Z) : 1 ∉ squeeze_shape sh.
Proof. unfold squeeze_shape. rewrite list_elem_of_filter. tauto. Qed.

(** Lines 144 and 145 on a feature map that fits the block. *)
Lemma squeezed_gate_fits (tr : bool) (cin cout s : Z) (dr : num)
  (abr : bool) (av : Z) (b h w : Z) (e : expr) :
  1 ≤ h → 1 ≤ w → 1 ≤ s → 1 ≤ cout → (cin = cout → s = 1) →
  bn_accepts tr b → drop_ok dr → av = 1 ∨ av = 2 ∨ av = 3 →
  ∃ e1 e2,
    CDWideResNet.squeezed_gate
      (CDBasicBlock.train tr (CDBasicBlock.init cin cout s dr abr av))
      (mk_tensor [b; cin; h; w] e)
    = Ok (mk_tensor [b; cout; down h s; down w s] e1,
          mk_tensor (squeeze_shape [b; cout; 1; 1]) e2).
Proof.
  intros. unfold CDWideResNet.squeezed_gate.
  rewrite CDBasicBlock_forward_fits by assumption. bind_simpl.
  cbn [CDWideResNet.unpack2]. bind_simpl. unfold squeeze. cbn [t_shape t_data].
  eauto.
Qed.

Lemma collected_width (self : CDWideResNet.t) (wf g b : Z) (e : expr) :
  CDWideResNet.widen_factor self = wf →
  per_block_width wf (CDWideResNet.partial self) g →
  ∃ e', CDWideResNet.collected self (mk_tensor [b; 64 * wf] e)
        = Ok (mk_tensor [b; g] e').
Proof.
  intros Hwf Hg. unfold CDWideResNet.collected. rewrite Hwf.
  destruct Hg as [Hlt | p k Hlt Hp Hk Hr]; rewrite Hlt.
  - eauto.
  - rewrite Hp. bind_simpl. rewrite Hk. bind_simpl.
    unfold slice_cols, slice_len. cbn [t_shape t_data].
    destruct (Z.ltb_spec k 0); [lia|]. rewrite Z.min_l by lia. eauto.
Qed.

(** The loop over the blocks of stage 3 that keep the shape: one gate of
    the same width is appended per block. *)
Lemma block3_loop_same_shape (self : CDWideResNet.t) (tr : bool) (wf g : Z)
  (dr : num) (abr : bool) (av b h w : Z) (k : nat) :
  CDWideResNet.widen_factor self = wf →
  per_block_width wf (CDWideResNet.partial self) g →
  1 ≤ wf → 2 ≤ b → 1 ≤ h → 1 ≤ w → drop_ok dr → av = 1 ∨ av = 2 ∨ av = 3 →
  ∀ (e : expr) (acc : list tensor), ∃ e' ms,
    CDWideResNet.block3_loop self
      (replicate k (CDBasicBlock.train tr
                      (CDBasicBlock.init (64 * wf) (64 * wf) 1 dr abr av)))
      (mk_tensor [b; 64 * wf; h; w] e) acc
    = Ok (mk_tensor [b; 64 * wf; h; w] e', acc ++ ms)
    ∧ length ms = k
    ∧ Forall (fun m => t_shape m = [b; g]) ms.
Proof.
  intros Hwf Hg Hw1 Hb Hh Hw Hdr Hav.
  assert (bn_accepts tr b) as Hbn by (right; lia).
  induction k as [|k IH]; intros e acc.
  - exists e, []. rewrite app_nil_r. split; [reflexivity|]. split; [reflexivity|constructor].
  - cbn [replicate CDWideResNet.block3_loop].
    destruct (squeezed_gate_fits tr (64 * wf) (64 * wf) 1 dr abr av b h w e)
      as (e1 & e2 & ->); try assumption; try lia.
    bind_simpl. rewrite squeeze_gate_shape by lia.
    destruct (Z.eqb_spec b 1) as [|_]; [lia|].
    destruct (collected_width self wf g b e2 Hwf Hg) as (e3 & ->). bind_simpl.
    rewrite !down_1.
    destruct (IH e1 (acc ++ [mk_tensor [b; g] e3])) as (e' & ms & -> & Hlen & Hall).
    exists e', (mk_tensor [b; g] e3 :: ms).
    rewrite <- app_assoc. split; [reflexivity|].
    split; [cbn; lia|]. constructor; [reflexivity|assumption].
Qed.

(** The whole of stage 3. *)
Lemma block3_loop_stage (self : CDWideResNet.t) (tr : bool) (n wf g : Z)
  (dr : num) (av b h w : Z) (e : expr) :
  CDWideResNet.widen_factor self = wf →
  per_block_width wf (CDWideResNet.partial self) g →
  1 ≤ n → 1 ≤ wf → 2 ≤ b → 1 ≤ h → 1 ≤ w → drop_ok dr →
  av = 1 ∨ av = 2 ∨ av = 3 →
  ∃ e' ms,
    CDWideResNet.block3_loop self
      (CDBasicBlock.train tr
         <$> CDWideResNet._make_cd_layer av n (32 * wf) (64 * wf) 2 dr false)
      (mk_tensor [b; 32 * wf; h; w] e) []
    = Ok (mk_tensor [b; 64 * wf; down h 2; down w 2] e', ms)
    ∧ Z.of_nat (length ms) = n
    ∧ Forall (fun m => t_shape m = [b; g]) ms.
Proof.
  intros Hwf Hg Hn Hw1 Hb Hh Hw Hdr Hav.
  assert (bn_accepts tr b) as Hbn by (right; lia).
  rewrite make_cd_layer_blocks by lia.
  cbn [fmap list_fmap CDWideResNet.block3_loop].
  destruct (squeezed_gate_fits tr (32 * wf) (64 * wf) 2 dr false av b h w e)
    as (e1 & e2 & ->); try assumption; try lia.
  bind_simpl. rewrite squeeze_gate_shape by lia.
  destruct (Z.eqb_spec b 1) as [|_]; [lia|].
  destruct (collected_width self wf g b e2 Hwf Hg) as (e3 & ->). bind_simpl.
  change (list_fmap _ _ (CDBasicBlock.train tr))
    with (fmap (M:=list) (CDBasicBlock.train tr)).
  rewrite fmap_replicate.
  destruct (block3_loop_same_shape self tr wf g dr false av b (down h 2) (down w 2)
              (Z.to_nat (n - 1)) Hwf Hg Hw1 Hb) with (e := e1)
              (acc := [] ++ [mk_tensor [b; g] e3])
    as (e' & ms & -> & Hlen & Hall);
    try assumption; try (apply down_pos; lia).
  exists e', (mk_tensor [b; g] e3 :: ms).
  split; [reflexivity|]. split; [cbn [length]; lia|].
  constructor; [reflexivity|assumption].
Qed.

Lemma cat1_shape_from_same (b g : Z) (shs : list (list Z)) :
  Forall (fun sh => sh = [b; g]) shs →
  ∀ acc, cat1_shape_from b [] acc shs
         = Ok [b; acc + Z.of_nat (length shs) * g].
Proof.
  induction 1 as [|sh shs -> _ IH]; intros acc.
  - cbn. do 3 f_equal. lia.
  - cbn [cat1_shape_from length]. rewrite Z.eqb_refl.
    rewrite bool_decide_eq_true_2 by reflexivity. cbn [andb].
    rewrite IH. do 3 f_equal. lia.
Qed.

(** Concatenating gates of one width along axis 1. *)
Lemma cat1_same_width (b g : Z) (ts : list tensor) :
  ts ≠ [] → Forall (fun m => t_shape m = [b; g]) ts →
  cat1 ts = Ok (mk_tensor [b; Z.of_nat (length ts) * g] (ECat (t_data <$> ts))).
Proof.
  intros Hne Hall. unfold cat1.
  destruct Hall as [|t ts Ht Hall]; [done|].
  cbn [fmap list_fmap cat1_shape]. rewrite Ht.
  rewrite (cat1_shape_from_same b g).
  - bind_simpl. rewrite length_fmap. cbn [length].
    replace (Z.of_nat (S (length ts)) * g) with (g + Z.of_nat (length ts) * g) by lia.
    reflexivity.
  - apply Forall_fmap. exact Hall.
Qed.

(** *** The backbone *)

Ltac net_fields :=
  cbn [CDWideResNet.train CDWideResNet.attn_var CDWideResNet.partial
       CDWideResNet.widen_factor CDWideResNet.conv1 CDWideResNet.block1
       CDWideResNet.block2 CDWideResNet.block3 CDWideResNet.bn1
       CDWideResNet.relu CDWideResNet.fc CDWideResNet.channels
       CDWideResNet.training].

Lemma init_valid_depth (nc depth wf : Z) (dr : num) (av : Z) (partial : num) :
  (depth - 4) mod 6 = 0 →
  CDWideResNet.init nc depth wf dr av partial = Ok (built nc depth wf dr av partial).
Proof.
  intros Hd. unfold CDWideResNet.init. rewrite Hd. reflexivity.
Qed.

Lemma init_invalid_depth (nc depth wf : Z) (dr : num) (av : Z) (partial : num) :
  (depth - 4) mod 6 ≠ 0 →
  CDWideResNet.init nc depth wf dr av partial = Raise AssertionError.
Proof.
  intros Hd. unfold CDWideResNet.init.
  destruct (Z.eqb_spec ((depth - 4) mod 6) 0); [lia|reflexivity].
Qed.

Lemma built_block3_length (nc depth wf : Z) (dr : num) (av : Z) (partial : num) :
  4 ≤ depth →
  Z.of_nat (length (CDWideResNet.block3 (built nc depth wf dr av partial)))
  = (depth - 4) / 6.
Proof.
  intros Hd. unfold built, CDWideResNet._make_cd_layer, range. net_fields.
  rewrite length_fmap, length_seqZ.
  assert (0 ≤ (depth - 4) / 6) by (apply Z.div_pos; lia). lia.
Qed.

(** Lines 138 to 151 on a batch of at least two images: the feature map
    after stage 3 and the concatenated gate tensor. *)
Lemma features_and_mask_fits (nc depth wf : Z) (dr : num) (av : Z)
  (partial : num) (tr : bool) (b h w g : Z) (e : expr) :
  10 ≤ depth → 1 ≤ wf → drop_ok dr → av = 1 ∨ av = 2 ∨ av = 3 →
  per_block_width wf partial g → 2 ≤ b → 1 ≤ h → 1 ≤ w →
  ∃ e1 e2,
    CDWideResNet.features_and_mask
      (CDWideResNet.train tr (built nc depth wf dr av partial))
      (mk_tensor [b; 3; h; w] e)
    = Ok (mk_tensor [b; 64 * wf; down (down h 2) 2; down (down w 2) 2] e1,
          mk_tensor [b; (depth - 4) / 6 * g] e2).
Proof.
  intros Hd Hwf Hdr Hav Hg Hb Hh Hw.
  assert (bn_accepts tr b) as Hbn by (right; lia).
  assert (1 ≤ (depth - 4) / 6) as Hn
    by (apply Z.div_le_lower_bound; lia).
  pose proof (down_pos h 2 Hh ltac:(lia)) as Hh2.
  pose proof (down_pos w 2 Hw ltac:(lia)) as Hw2.
  unfold CDWideResNet.features_and_mask.
  set (self := CDWideResNet.train tr (built nc depth wf dr av partial)).
  assert (CDWideResNet.widen_factor self = wf) as Hswf by reflexivity.
  assert (per_block_width wf (CDWideResNet.partial self) g) as Hsg by exact Hg.
  change (CDWideResNet.training self) with tr.
  change (CDWideResNet.conv1 self) with (Conv2d 3 16 3 1 1 1).
  change (CDWideResNet.block1 self)
    with (BasicBlock.train tr
            <$> CDWideResNet._make_layer ((depth - 4) / 6) 16 (16 * wf) 1 dr true).
  change (CDWideResNet.block2 self)
    with (BasicBlock.train tr
            <$> CDWideResNet._make_layer ((depth - 4) / 6) (16 * wf) (32 * wf) 2
                  dr false).
  change (CDWideResNet.block3 self)
    with (CDBasicBlock.train tr
            <$> CDWideResNet._make_cd_layer av ((depth - 4) / 6) (32 * wf)
                  (64 * wf) 2 dr false).
  rewrite call_conv3 by assumption. bind_simpl. rewrite !down_1.
  destruct (stage_shape tr ((depth - 4) / 6) 16 (16 * wf) 1 dr true b h w
              (ECall "conv1" (Conv2d 3 16 3 1 1 1) e))
    as (e1 & ->); try assumption; try lia.
  bind_simpl. rewrite !down_1.
  destruct (stage_shape tr ((depth - 4) / 6) (16 * wf) (32 * wf) 2 dr false b h w e1)
    as (e2 & ->); try assumption; try lia.
  bind_simpl.
  destruct (block3_loop_stage self tr ((depth - 4) / 6) wf g dr av b
              (down h 2) (down w 2) e2 Hswf Hsg)
    as (e3 & ms & -> & Hlen & Hall); try assumption; try lia.
  bind_simpl.
  rewrite (cat1_same_width b g ms); [|destruct ms; [cbn in Hlen; lia|done]|exact Hall].
  bind_simpl. rewrite Hlen. eauto.
Qed.

(** [forward] on a batch of at least two images: the logits, alone. *)
Lemma forward_fits (nc depth wf : Z) (dr : num) (av : Z)
  (partial : num) (tr : bool) (b h w g : Z) (e : expr) :
  10 ≤ depth → 1 ≤ wf → drop_ok dr → av = 1 ∨ av = 2 ∨ av = 3 →
  per_block_width wf partial g → 2 ≤ b → 1 ≤ h → 1 ≤ w →
  ∃ e',
    CDWideResNet.forward
      (CDWideResNet.train tr (built nc depth wf dr av partial))
      (mk_tensor [b; 3; h; w] e)
    = Ok (VTensor (mk_tensor [b; nc] e')).
Proof.
  intros Hd Hwf Hdr Hav Hg Hb Hh Hw.
  assert (bn_accepts tr b) as Hbn by (right; lia).
  pose proof (down_pos h 2 Hh ltac:(lia)) as Hh2.
  pose proof (down_pos w 2 Hw ltac:(lia)) as Hw2.
  unfold CDWideResNet.forward.
  destruct (features_and_mask_fits nc depth wf dr av partial tr b h w g e)
    as (e1 & e2 & ->); try assumption.
  bind_simpl.
  change (CDWideResNet.training (CDWideResNet.train tr _)) with tr.
  change (CDWideResNet.bn1 (CDWideResNet.train tr (built nc depth wf dr av partial)))
    with (BatchNorm2d (64 * wf)).
  change (CDWideResNet.relu (CDWideResNet.train tr (built nc depth wf dr av partial)))
    with LeakyReLU.
  change (CDWideResNet.fc (CDWideResNet.train tr (built nc depth wf dr av partial)))
    with (Linear (64 * wf) nc).
  change (CDWideResNet.channels (CDWideResNet.train tr (built nc depth wf dr av partial)))
    with (64 * wf).
  rewrite call_bn by dims. bind_simpl.
  rewrite call_pointwise by tauto. bind_simpl. cbn [t_shape t_data].
  unfold adaptive_avg_pool2d, layer_shape. cbn [t_shape t_data].
  destruct (Z.ltb_spec 0 (64 * wf)); [|lia].
  destruct (Z.ltb_spec 0 (down (down h 2) 2)); [|pose proof (down_pos (down h 2) 2); lia].
  destruct (Z.ltb_spec 0 (down (down w 2) 2)); [|pose proof (down_pos (down w 2) 2); lia].
  cbn [andb]. bind_simpl.
  unfold view_rows. cbn [t_shape t_data].
  replace (numel [b; 64 * wf; 1; 1]) with (b * (64 * wf))
    by (unfold numel; cbn [foldr]; lia).
  rewrite Z.mod_mul by lia. rewrite Z.div_mul by lia.
  destruct (Z.eqb_spec (64 * wf) 0); [lia|]. cbn [negb andb Z.eqb]. bind_simpl.
  unfold call, layer_shape. cbn [t_shape t_data].
  change (reverse [b; 64 * wf]) with [64 * wf; b]. cbv beta iota.
  rewrite Z.eqb_refl. bind_simpl.
  change (reverse [nc; b]) with [b; nc]. eauto.
Qed.

(** A freshly built network is in training mode already. *)
Lemma train_true_built (nc depth wf : Z) (dr : num) (av : Z) (partial : num) :
  CDWideResNet.train true (built nc depth wf dr av partial)
  = built nc depth wf dr av partial.
Proof.
  unfold built, CDWideResNet.train. net_fields.
  unfold CDWideResNet._make_layer, CDWideResNet._make_cd_layer.
  rewrite <- !list_fmap_compose. reflexivity.
Qed.

(** *** Construction *)


(** C8: for an [attn_var] other than 1, 2 and 3, [CDBasicBlock.__init__]
    returns a block that has no [attn] attribute; [forward] on a feature map
    that fits the block runs up to [self.attn] and raises [AttributeError]
    there, and on no input at all does it return. *)
Theorem C8_unknown_variant_fails_in_forward (tr : bool) (cin cout s : Z)
  (dr : num) (abr : bool) (av : Z) (b h w : Z) (e : expr) :
  av ≠ 1 → av ≠ 2 → av ≠ 3 →
  1 ≤ h → 1 ≤ w → 1 ≤ s → bn_accepts tr b → drop_ok dr →
  CDBasicBlock.attn (CDBasicBlock.train tr (CDBasicBlock.init cin cout s dr abr av))
  = None
  ∧ CDBasicBlock.forward
      (CDBasicBlock.train tr (CDBasicBlock.init cin cout s dr abr av))
      (mk_tensor [b; cin; h; w] e)
    = Raise AttributeError
  ∧ ∀ x : tensor,
      is_ok (CDBasicBlock.forward
               (CDBasicBlock.train tr (CDBasicBlock.init cin cout s dr abr av)) x)
      = false.
Proof.
  intros H1 H2 H3 Hh Hw Hs Hbn Hdr.
  assert (CDBasicBlock.make_attn cout av = None) as Hnone.
  { unfold CDBasicBlock.make_attn.
    destruct (Z.eqb_spec av 1); [lia|]. destruct (Z.eqb_spec av 2); [lia|].
    destruct (Z.eqb_spec av 3); [lia|]. reflexivity. }
  assert (∀ out, CDBasicBlock.call_attn
            (CDBasicBlock.train tr (CDBasicBlock.init cin cout s dr abr av)) out
          = Raise AttributeError) as Hattn.
  { intros out. unfold CDBasicBlock.call_attn. block_fields. by rewrite Hnone. }
  split; [exact Hnone|]. split.
  - unfold CDBasicBlock.forward, CDBasicBlock.activate, CDBasicBlock.conv1_input.
    cbn [CDBasicBlock.train CDBasicBlock.init CDBasicBlock.bn1 CDBasicBlock.relu1
         CDBasicBlock.equalInOut CDBasicBlock.convShortcut
         CDBasicBlock.activate_before_residual CDBasicBlock.training].
    fold (CDBasicBlock.init cin cout s dr abr av).
    fold (CDBasicBlock.train tr (CDBasicBlock.init cin cout s dr abr av)).
    destruct (cin =? cout), abr; run_layers;
      rewrite CDBasicBlock_residual_fits by assumption; bind_simpl;
      rewrite Hattn; reflexivity.
  - intros x. unfold CDBasicBlock.forward.
    destruct (CDBasicBlock.activate _ x) as [[x' o]|]; bind_simpl; [|reflexivity].
    destruct (CDBasicBlock.conv1_input _ x' o) as [inp|]; bind_simpl; [|reflexivity].
    destruct (CDBasicBlock.residual _ inp) as [out|]; bind_simpl; [|reflexivity].
    rewrite Hattn. reflexivity.
Qed.

Lemma C8_unknown_variant_fails_in_forward_witness :
  CDBasicBlock.attn
    (CDBasicBlock.train true (CDBasicBlock.init 64 128 2 (PyFloat 0) false 7))
  = None
  ∧ CDBasicBlock.forward
      (CDBasicBlock.train true (CDBasicBlock.init 64 128 2 (PyFloat 0) false 7))
      (mk_tensor [4; 64; 16; 16] EInput)
    = Raise AttributeError
  ∧ ∀ x : tensor,
      is_ok (CDBasicBlock.forward
               (CDBasicBlock.train true
                  (CDBasicBlock.init 64 128 2 (PyFloat 0) false 7)) x)
      = false.
Proof.
  apply (C8_unknown_variant_fails_in_forward true 64 128 2 (PyFloat 0) false 7
           4 16 16 EInput); try lia.
  - right. lia.
  - reflexivity.
Defined.

(** *** The residual blocks *)

(** In a block that changes the channel count and does not activate before
    the residual, [conv1] and the shortcut projection both read the raw
    input: the value [relu1(bn1(x))] is computed and dropped. *)
Lemma raw_input_feeds_conv1 (tr : bool) (cin cout s : Z) (dr : num)
  (b h w : Z) (e : expr) :
  cin ≠ cout → 1 ≤ h → 1 ≤ w → 1 ≤ s → bn_accepts tr b → drop_ok dr →
  BasicBlock.forward (BasicBlock.train tr (BasicBlock.init cin cout s dr false))
    (mk_tensor [b; cin; h; w] e)
  = Ok (mk_tensor [b; cout; down h s; down w s]
          (EAdd (ECall "convShortcut" (Conv2d cin cout 1 s 0 1) e)
             (after_conv2 tr cin cout s dr e))).
Proof.
  intros Hne Hh Hw Hs Hbn Hdr.
  rewrite BasicBlock_forward_fits by (assumption || lia).
  unfold shortcut_values, conv1_arg.
  destruct (Z.eqb_spec cin cout); [lia|reflexivity].
Qed.

(** C3: the code at a plain block with 16 input and 32 output channels and
    [activate_before_residual = False], and at the attention-gated block of
    the same configuration.  [conv1] is applied to the raw input, which also
    feeds the shortcut projection; the normalised and activated input
    reaches neither output: no value depends on [bn1] or [relu1]. *)
Theorem C3_conv1_reads_raw_input :
  BasicBlock.forward (BasicBlock.init 16 32 1 (PyFloat 0) false)
    (mk_tensor [2; 16; 8; 8] EInput)
  = Ok (mk_tensor [2; 32; 8; 8]
          (EAdd (ECall "convShortcut" (Conv2d 16 32 1 1 0 1) EInput)
             (ECall "conv2" (Conv2d 32 32 3 1 1 1)
                (ECall "relu2" LeakyReLU
                   (ECall "bn2" (BatchNorm2d 32)
                      (ECall "conv1" (Conv2d 16 32 3 1 1 1) EInput))))))
  ∧ BasicBlock.activate (BasicBlock.init 16 32 1 (PyFloat 0) false)
      (mk_tensor [2; 16; 8; 8] EInput)
    = Ok (mk_tensor [2; 16; 8; 8] EInput,
          Some (mk_tensor [2; 16; 8; 8]
                  (ECall "relu1" LeakyReLU (ECall "bn1" (BatchNorm2d 16) EInput))))
  ∧ (∃ y gate,
       CDBasicBlock.forward (CDBasicBlock.init 16 32 1 (PyFloat 0) false 1)
         (mk_tensor [2; 16; 8; 8] EInput)
       = Ok (VTuple [VTensor y; VTensor gate])
       ∧ mentions "conv1" (t_data y) = true
       ∧ mentions "bn1" (t_data y) = false
       ∧ mentions "relu1" (t_data y) = false
       ∧ mentions "bn1" (t_data gate) = false
       ∧ mentions "relu1" (t_data gate) = false).
Proof.
  split; [vm_compute; reflexivity|]. split; [vm_compute; reflexivity|].
  eexists. eexists. split; [vm_compute; reflexivity|].
  repeat split; vm_compute; reflexivity.
Qed.

(** C4: the code at the first block of stage 3 of [CDWRN28(10, 2)], called
    on four feature maps of 64 channels and 16 by 16 positions.  The first
    component of the pair is [shortcut(x) + out * gate], with [out] the
    tensor after [conv2] and [gate = attn(out)] broadcast over the spatial
    axes.  The second component is the gate as [attn] returns it, of shape
    [(4, 128, 1, 1)]: it is not of the shape [(N, C) = (4, 128)] that the
    docstring of [forward] gives to [m]. *)
Theorem C4_gate_is_returned_unsqueezed :
  ∃ out gate sc y : tensor,
    CDBasicBlock.forward (CDBasicBlock.init 64 128 2 (PyFloat 0) false 1)
      (mk_tensor [4; 64; 16; 16] EInput)
    = Ok (VTuple [VTensor y; VTensor gate])
    ∧ CDBasicBlock.residual (CDBasicBlock.init 64 128 2 (PyFloat 0) false 1)
        (mk_tensor [4; 64; 16; 16] EInput)
      = Ok out
    ∧ CDBasicBlock.call_attn (CDBasicBlock.init 64 128 2 (PyFloat 0) false 1) out
      = Ok gate
    ∧ CDBasicBlock.shortcut (CDBasicBlock.init 64 128 2 (PyFloat 0) false 1)
        (mk_tensor [4; 64; 16; 16] EInput)
      = Ok sc
    ∧ t_data y = EAdd (t_data sc) (EMul (t_data out) (t_data gate))
    ∧ t_shape out = [4; 128; 8; 8]
    ∧ t_shape y = [4; 128; 8; 8]
    ∧ t_shape gate = [4; 128; 1; 1]
    ∧ t_shape gate ≠ [4; 128].
Proof.
  eexists _, _, _, _.
  split; [vm_compute; reflexivity|].
  split; [vm_compute; reflexivity|].
  split; [vm_compute; reflexivity|].
  split; [vm_compute; reflexivity|].
  split_and!; try reflexivity. discriminate.
Qed.

(** *** Batch normalisation and the size of the feature map *)

Lemma down_le (n s : Z) : 1 ≤ n → 1 ≤ s → down n s ≤ n.
Proof.
  intros Hn Hs. unfold down.
  assert ((n - 1) / s ≤ n - 1) by (apply Z.div_le_upper_bound; nia). lia.
Qed.

Lemma bn_sized_larger (tr : bool) (b h w h' w' : Z) :
  bn_sized tr b h' w' → 1 ≤ h' → h' ≤ h → 1 ≤ w' → w' ≤ w → bn_sized tr b h w.
Proof.
  intros [->|H] Hh1 Hh Hw1 Hw; [left; reflexivity|right].
  assert (1 ≤ b) as Hb.
  { destruct (Z.le_gt_cases b 0) as [Hb|Hb]; [|lia].
    assert (b * h' ≤ 0) by (apply Z.mul_nonpos_nonneg; lia).
    assert (b * h' * w' ≤ 0) by (apply Z.mul_nonpos_nonneg; lia). lia. }
  assert (b * h' ≤ b * h) by (apply Z.mul_le_mono_nonneg_l; lia).
  assert (b * h' * w' ≤ b * h * w); [|lia].
  apply Z.mul_le_mono_nonneg; lia.
Qed.

Lemma bn_sized_down (tr : bool) (b h w s : Z) :
  bn_sized tr b (down h s) (down w s) → 1 ≤ h → 1 ≤ w → 1 ≤ s →
  bn_sized tr b h w.
Proof.
  intros Hbn Hh Hw Hs.
  apply (bn_sized_larger tr b h w (down h s) (down w s));
    first [assumption | apply down_pos; assumption | apply down_le; assumption].
Qed.

Lemma call_bn_sized (tr : bool) (name : string) (c b h w : Z) (e : expr) :
  bn_sized tr b h w →
  call tr name (BatchNorm2d c) (mk_tensor [b; c; h; w] e)
  = Ok (mk_tensor [b; c; h; w] (ECall name (BatchNorm2d c) e)).
Proof.
  intros Hbn. unfold call, layer_shape. cbn [t_shape t_data].
  assert (tr && (b * h * w =? 1) = false) as ->;
    [|rewrite Z.eqb_refl; reflexivity].
  destruct Hbn as [->|Hb]; [reflexivity|].
  apply andb_false_iff. right. apply Z.eqb_neq. lia.
Qed.

Ltac run_sized :=
  repeat first
    [ rewrite down_1
    | rewrite call_bn_sized by assumption
    | rewrite call_conv3 by dims
    | rewrite call_conv1 by dims
    | rewrite call_pointwise by tauto
    | rewrite dropout_step by assumption
    | rewrite add_same
    | progress bind_simpl
    | progress cbn [t_shape t_data negb andb call_opt read_local] ].

(** The blocks again, for a feature map that batch normalisation accepts
    by its size: the smallest map a block normalises is the one after its
    first convolution. *)
Lemma BasicBlock_forward_sized (tr : bool) (cin cout s : Z) (dr : num) (abr : bool)
  (b h w : Z) (e : expr) :
  1 ≤ h → 1 ≤ w → 1 ≤ s → (cin = cout → s = 1) →
  bn_sized tr b (down h s) (down w s) → drop_ok dr →
  BasicBlock.forward (BasicBlock.train tr (BasicBlock.init cin cout s dr abr))
    (mk_tensor [b; cin; h; w] e)
  = Ok (mk_tensor [b; cout; down h s; down w s]
          (EAdd (shortcut_values cin cout s abr e)
             (after_conv2 tr cin cout s dr (conv1_arg cin cout abr e)))).
Proof.
  intros Hh Hw Hs Heq Hbn2 Hdr.
  pose proof (bn_sized_down tr b h w s Hbn2 Hh Hw Hs) as Hbn1.
  unfold BasicBlock.forward, BasicBlock.activate, BasicBlock.conv1_input.
  unfold shortcut_values, conv1_arg, after_conv2, activated.
  block_fields.
  destruct (Z.eqb_spec cin cout) as [->|Hne].
  - assert (s = 1) as -> by (apply Heq; reflexivity).
    rewrite ?down_1 in *. run_sized. reflexivity.
  - destruct abr; run_sized; reflexivity.
Qed.

Lemma CDBasicBlock_residual_sized (tr : bool) (cin cout s : Z) (dr : num)
  (abr : bool) (av : Z) (b h w : Z) (e : expr) :
  1 ≤ h → 1 ≤ w → 1 ≤ s → bn_sized tr b (down h s) (down w s) → drop_ok dr →
  CDBasicBlock.residual (CDBasicBlock.train tr (CDBasicBlock.init cin cout s dr abr av))
    (mk_tensor [b; cin; h; w] e)
  = Ok (mk_tensor [b; cout; down h s; down w s] (after_conv2 tr cin cout s dr e)).
Proof.
  intros Hh Hw Hs Hbn Hdr. unfold CDBasicBlock.residual, after_conv2.
  block_fields. run_sized. reflexivity.
Qed.

Lemma CDBasicBlock_forward_sized (tr : bool) (cin cout s : Z) (dr : num)
  (abr : bool) (av : Z) (b h w : Z) (e : expr) :
  1 ≤ h → 1 ≤ w → 1 ≤ s → 1 ≤ cout → (cin = cout → s = 1) →
  bn_sized tr b (down h s) (down w s) → drop_ok dr → av = 1 ∨ av = 2 ∨ av = 3 →
  CDBasicBlock.forward (CDBasicBlock.train tr (CDBasicBlock.init cin cout s dr abr av))
    (mk_tensor [b; cin; h; w] e)
  = Ok (VTuple
          [VTensor (mk_tensor [b; cout; down h s; down w s]
             (EAdd (shortcut_values cin cout s abr e)
                (EMul (after_conv2 tr cin cout s dr (conv1_arg cin cout abr e))
                   (gate_values av cout
                      (after_conv2 tr cin cout s dr (conv1_arg cin cout abr e))))));
           VTensor (mk_tensor [b; cout; 1; 1]
             (gate_values av cout
                (after_conv2 tr cin cout s dr (conv1_arg cin cout abr e))))]).
Proof.
  intros Hh Hw Hs Hc Heq Hbn2 Hdr Hav.
  pose proof (bn_sized_down tr b h w s Hbn2 Hh Hw Hs) as Hbn1.
  pose proof (down_pos h s Hh Hs) as Hh'. pose proof (down_pos w s Hw Hs) as Hw'.
  unfold CDBasicBlock.forward, CDBasicBlock.activate, CDBasicBlock.conv1_input,
    CDBasicBlock.shortcut.
  unfold shortcut_values, conv1_arg.
  cbn [CDBasicBlock.train CDBasicBlock.init CDBasicBlock.bn1 CDBasicBlock.relu1
       CDBasicBlock.equalInOut CDBasicBlock.convShortcut
       CDBasicBlock.activate_before_residual CDBasicBlock.training].
  fold (CDBasicBlock.init cin cout s dr abr av).
  fold (CDBasicBlock.train tr (CDBasicBlock.init cin cout s dr abr av)).
  destruct (Z.eqb_spec cin cout) as [->|Hne]; [|destruct abr];
    run_sized;
    rewrite CDBasicBlock_residual_sized by assumption; bind_simpl;
    rewrite CDBasicBlock_attn_fits by assumption; bind_simpl;
    rewrite mul_gate; run_sized.
  - rewrite (Heq eq_refl). run_sized. reflexivity.
  - reflexivity.
  - reflexivity.
Qed.

Lemma squeezed_gate_sized (tr : bool) (cin cout s : Z) (dr : num)
  (abr : bool) (av : Z) (b h w : Z) (e : expr) :
  1 ≤ h → 1 ≤ w → 1 ≤ s → 1 ≤ cout → (cin = cout → s = 1) →
  bn_sized tr b (down h s) (down w s) → drop_ok dr → av = 1 ∨ av = 2 ∨ av = 3 →
  ∃ e1 e2,
    CDWideResNet.squeezed_gate
      (CDBasicBlock.train tr (CDBasicBlock.init cin cout s dr abr av))
      (mk_tensor [b; cin; h; w] e)
    = Ok (mk_tensor [b; cout; down h s; down w s] e1,
          mk_tensor (squeeze_shape [b; cout; 1; 1]) e2).
Proof.
  intros. unfold CDWideResNet.squeezed_gate.
  rewrite CDBasicBlock_forward_sized by assumption. bind_simpl.
  cbn [CDWideResNet.unpack2]. bind_simpl. unfold squeeze. cbn [t_shape t_data].
  eauto.
Qed.

Lemma sequential_same_shape_sized (tr : bool) (c : Z) (dr : num) (abr : bool)
  (b h w : Z) (k : nat) :
  1 ≤ h → 1 ≤ w → bn_sized tr b h w → drop_ok dr →
  ∀ e, ∃ e',
    CDWideResNet.sequential
      (replicate k (BasicBlock.train tr (BasicBlock.init c c 1 dr abr)))
      (mk_tensor [b; c; h; w] e)
    = Ok (mk_tensor [b; c; h; w] e').
Proof.
  intros Hh Hw Hbn Hdr. induction k as [|k IH]; intros e.
  - exists e. reflexivity.
  - cbn [replicate CDWideResNet.sequential].
    rewrite BasicBlock_forward_sized
      by (rewrite ?down_1; first [assumption | lia]).
    bind_simpl. rewrite !down_1. apply IH.
Qed.

Lemma stage_shape_sized (tr : bool) (n cin cout s : Z) (dr : num) (abr : bool)
  (b h w : Z) (e : expr) :
  1 ≤ n → cin ≠ 0 → 1 ≤ s → (cin = cout → s = 1) →
  1 ≤ h → 1 ≤ w → bn_sized tr b (down h s) (down w s) → drop_ok dr →
  ∃ e',
    CDWideResNet.sequential
      (BasicBlock.train tr <$> CDWideResNet._make_layer n cin cout s dr abr)
      (mk_tensor [b; cin; h; w] e)
    = Ok (mk_tensor [b; cout; down h s; down w s] e').
Proof.
  intros Hn Hc Hs Heq Hh Hw Hbn Hdr.
  rewrite make_layer_blocks by lia.
  cbn [fmap list_fmap CDWideResNet.sequential].
  rewrite BasicBlock_forward_sized by assumption. bind_simpl.
  change (list_fmap _ _ (BasicBlock.train tr)) with (fmap (M:=list) (BasicBlock.train tr)).
  rewrite fmap_replicate.
  apply sequential_same_shape_sized; first [assumption | apply down_pos; lia].
Qed.

(** The loop over the blocks of stage 3 that keep the shape, given the shape
    [csh] that lines 146 to 150 give to a squeezed gate. *)
Lemma block3_loop_sized (self : CDWideResNet.t) (tr : bool) (wf : Z)
  (csh : list Z) (dr : num) (abr : bool) (av b h w : Z) (k : nat) :
  (∀ e, ∃ e', CDWideResNet.collected self
                (mk_tensor (squeeze_shape [b; 64 * wf; 1; 1]) e)
              = Ok (mk_tensor csh e')) →
  1 ≤ wf → bn_sized tr b h w → 1 ≤ h → 1 ≤ w → drop_ok dr →
  av = 1 ∨ av = 2 ∨ av = 3 →
  ∀ (e : expr) (acc : list tensor), ∃ e' ms,
    CDWideResNet.block3_loop self
      (replicate k (CDBasicBlock.train tr
                      (CDBasicBlock.init (64 * wf) (64 * wf) 1 dr abr av)))
      (mk_tensor [b; 64 * wf; h; w] e) acc
    = Ok (mk_tensor [b; 64 * wf; h; w] e', acc ++ ms)
    ∧ length ms = k
    ∧ Forall (fun m => t_shape m = csh) ms.
Proof.
  intros Hcol Hw1 Hbn Hh Hw Hdr Hav.
  induction k as [|k IH]; intros e acc.
  - exists e, []. rewrite app_nil_r. split_and!; [reflexivity..|constructor].
  - cbn [replicate CDWideResNet.block3_loop].
    destruct (squeezed_gate_sized tr (64 * wf) (64 * wf) 1 dr abr av b h w e)
      as (e1 & e2 & ->);
      try (rewrite ?down_1; first [assumption | lia]).
    bind_simpl. destruct (Hcol e2) as (e3 & ->). bind_simpl. rewrite !down_1.
    destruct (IH e1 (acc ++ [mk_tensor csh e3])) as (e' & ms & -> & Hlen & Hall).
    exists e', (mk_tensor csh e3 :: ms).
    rewrite <- app_assoc. split; [reflexivity|].
    split; [cbn; lia|]. constructor; [reflexivity|assumption].
Qed.

(** The whole of stage 3, in the same generality. *)
Lemma block3_stage_sized (self : CDWideResNet.t) (tr : bool) (n wf : Z)
  (csh : list Z) (dr : num) (av b h w : Z) (e : expr) :
  (∀ e, ∃ e', CDWideResNet.collected self
                (mk_tensor (squeeze_shape [b; 64 * wf; 1; 1]) e)
              = Ok (mk_tensor csh e')) →
  1 ≤ n → 1 ≤ wf → bn_sized tr b (down h 2) (down w 2) → 1 ≤ h → 1 ≤ w →
  drop_ok dr → av = 1 ∨ av = 2 ∨ av = 3 →
  ∃ e' m ms,
    CDWideResNet.block3_loop self
      (CDBasicBlock.train tr
         <$> CDWideResNet._make_cd_layer av n (32 * wf) (64 * wf) 2 dr false)
      (mk_tensor [b; 32 * wf; h; w] e) []
    = Ok (mk_tensor [b; 64 * wf; down h 2; down w 2] e', m :: ms)
    ∧ Z.of_nat (length (m :: ms)) = n
    ∧ Forall (fun m => t_shape m = csh) (m :: ms).
Proof.
  intros Hcol Hn Hw1 Hbn Hh Hw Hdr Hav.
  rewrite make_cd_layer_blocks by lia.
  cbn [fmap list_fmap CDWideResNet.block3_loop].
  destruct (squeezed_gate_sized tr (32 * wf) (64 * wf) 2 dr false av b h w e)
    as (e1 & e2 & ->); try assumption; try lia.
  bind_simpl. destruct (Hcol e2) as (e3 & ->). bind_simpl.
  change (list_fmap _ _ (CDBasicBlock.train tr))
    with (fmap (M:=list) (CDBasicBlock.train tr)).
  rewrite fmap_replicate.
  destruct (block3_loop_sized self tr wf csh dr false av b (down h 2) (down w 2)
              (Z.to_nat (n - 1)) Hcol Hw1 Hbn) with (e := e1)
              (acc := [] ++ [mk_tensor csh e3])
    as (e' & ms & -> & Hlen & Hall);
    try assumption; try (apply down_pos; lia).
  exists e', (mk_tensor csh e3), ms.
  split; [reflexivity|]. split; [cbn [length]; lia|].
  constructor; [reflexivity|assumption].
Qed.

(** *** The backbone's forward pass *)

(** Lines 138 to 151 of [forward]: the three statements before the loop,
    the loop, and the concatenation. *)
Lemma features_and_mask_stages (self : CDWideResNet.t) (x : tensor) :
  CDWideResNet.features_and_mask self x
  = out ← (out ← call (CDWideResNet.training self) "conv1"
                    (CDWideResNet.conv1 self) x;
           out ← CDWideResNet.sequential (CDWideResNet.block1 self) out;
           CDWideResNet.sequential (CDWideResNet.block2 self) out);
    '(out, mask_per_layer) ←
       CDWideResNet.block3_loop self (CDWideResNet.block3 self) out [];
    mask ← cat1 mask_per_layer;
    Ok (out, mask).
Proof.
  unfold CDWideResNet.features_and_mask.
  destruct (call _ "conv1" _ x) as [o1|]; bind_simpl; [|reflexivity].
  destruct (CDWideResNet.sequential _ o1) as [o2|]; bind_simpl; reflexivity.
Qed.

(** The statements before the loop, on a batch of images. *)
Lemma stages_before_the_loop (nc depth wf : Z) (dr : num) (av : Z) (partial : num)
  (tr : bool) (b h w : Z) (e : expr) :
  10 ≤ depth → 1 ≤ wf → bn_sized tr b (down h 2) (down w 2) → 1 ≤ h → 1 ≤ w →
  drop_ok dr →
  ∃ e2,
    (out ← call (CDWideResNet.training
                   (CDWideResNet.train tr (built nc depth wf dr av partial)))
              "conv1"
              (CDWideResNet.conv1
                 (CDWideResNet.train tr (built nc depth wf dr av partial)))
              (mk_tensor [b; 3; h; w] e);
     out ← CDWideResNet.sequential
             (CDWideResNet.block1
                (CDWideResNet.train tr (built nc depth wf dr av partial))) out;
     CDWideResNet.sequential
       (CDWideResNet.block2
          (CDWideResNet.train tr (built nc depth wf dr av partial))) out)
    = Ok (mk_tensor [b; 32 * wf; down h 2; down w 2] e2).
Proof.
  intros Hd Hwf Hbn2 Hh Hw Hdr.
  assert (1 ≤ (depth - 4) / 6) as Hn by (apply Z.div_le_lower_bound; lia).
  pose proof (bn_sized_down tr b h w 2 Hbn2 Hh Hw ltac:(lia)) as Hbn1.
  change (CDWideResNet.training (CDWideResNet.train tr _)) with tr.
  change (CDWideResNet.conv1 (CDWideResNet.train tr (built nc depth wf dr av partial)))
    with (Conv2d 3 16 3 1 1 1).
  change (CDWideResNet.block1 (CDWideResNet.train tr (built nc depth wf dr av partial)))
    with (BasicBlock.train tr
            <$> CDWideResNet._make_layer ((depth - 4) / 6) 16 (16 * wf) 1 dr true).
  change (CDWideResNet.block2 (CDWideResNet.train tr (built nc depth wf dr av partial)))
    with (BasicBlock.train tr
            <$> CDWideResNet._make_layer ((depth - 4) / 6) (16 * wf) (32 * wf) 2
                  dr false).
  rewrite call_conv3 by assumption. bind_simpl. rewrite !down_1.
  destruct (stage_shape_sized tr ((depth - 4) / 6) 16 (16 * wf) 1 dr true b h w
              (ECall "conv1" (Conv2d 3 16 3 1 1 1) e))
    as (e1 & ->); try (rewrite ?down_1; first [assumption | lia]).
  bind_simpl. rewrite !down_1.
  destruct (stage_shape_sized tr ((depth - 4) / 6) (16 * wf) (32 * wf) 2 dr false
              b h w e1)
    as (e2 & ->); try assumption; try lia.
  eauto.
Qed.

(** The blocks of stage 3, by position. *)
Lemma built_block3_lookup (nc depth wf : Z) (dr : num) (av : Z) (partial : num)
  (tr : bool) (i : nat) (layer : CDBasicBlock.t) :
  10 ≤ depth → 1 ≤ wf →
  CDWideResNet.block3 (CDWideResNet.train tr (built nc depth wf dr av partial)) !! i
  = Some layer →
  layer = CDBasicBlock.train tr
            (CDBasicBlock.init (if decide (i = 0%nat) then 32 * wf else 64 * wf)
               (64 * wf) (if decide (i = 0%nat) then 2 else 1) dr false av).
Proof.
  intros Hd Hwf. unfold built. net_fields.
  assert (1 ≤ (depth - 4) / 6) by (apply Z.div_le_lower_bound; lia).
  rewrite make_cd_layer_blocks by lia.
  destruct i as [|i]; cbn [fmap list_fmap lookup list_lookup].
  - intros [= <-]. reflexivity.
  - change (list_fmap _ _ (CDBasicBlock.train tr))
      with (fmap (M:=list) (CDBasicBlock.train tr)).
    rewrite fmap_replicate. intros [-> _]%lookup_replicate. reflexivity.
Qed.

(** C5: in the forward pass of a valid network on a batch of [B] images,
    [squeeze()] removes every axis of length one from the gate of each block
    of stage 3.  The statements before the loop give the loop its input;
    each block of stage 3 then yields a squeezed gate of shape [(B, C)] for
    [B >= 2] and of shape [(C,)] for [B = 1], with [C = 64 * widen_factor],
    in training and in evaluation mode.  When the gates are collected whole
    ([partial] not below 1) the loop of [forward] returns one such gate per
    block; [forward] then returns the logits for [B >= 2] and raises
    [IndexError] for [B = 1], where [torch.cat(..., dim=1)] meets gates with
    one axis.  The one condition on the mode is that of batch
    normalisation, which in training mode refuses a single value per
    channel: [B] times the positions of the last feature map is 2 or more. *)
Theorem C5_squeeze_drops_unit_batch_axis (nc depth wf : Z) (dr : num) (av : Z)
  (partial : num) (tr : bool) (b h w : Z) (e : expr) :
  (depth - 4) mod 6 = 0 → 10 ≤ depth → 1 ≤ wf → 1 ≤ nc → drop_ok dr →
  av = 1 ∨ av = 2 ∨ av = 3 → 1 ≤ b → 1 ≤ h → 1 ≤ w →
  bn_sized tr b (down (down h 2) 2) (down (down w 2) 2) →
  ∃ net out2,
    CDWideResNet.init nc depth wf dr av partial = Ok net
    ∧ (out ← call (CDWideResNet.training (CDWideResNet.train tr net)) "conv1"
                (CDWideResNet.conv1 (CDWideResNet.train tr net))
                (mk_tensor [b; 3; h; w] e);
       out ← CDWideResNet.sequential
               (CDWideResNet.block1 (CDWideResNet.train tr net)) out;
       CDWideResNet.sequential
         (CDWideResNet.block2 (CDWideResNet.train tr net)) out)
      = Ok out2
    ∧ t_shape out2 = [b; 32 * wf; down h 2; down w 2]
    ∧ (∀ (i : nat) (layer : CDBasicBlock.t) (e0 : expr),
         CDWideResNet.block3 (CDWideResNet.train tr net) !! i = Some layer →
         ∃ out mask,
           CDWideResNet.squeezed_gate layer
             (mk_tensor (if decide (i = 0%nat) then t_shape out2
                         else [b; 64 * wf; down (down h 2) 2; down (down w 2) 2])
                e0)
           = Ok (out, mask)
           ∧ t_shape out = [b; 64 * wf; down (down h 2) 2; down (down w 2) 2]
           ∧ t_shape mask = (if b =? 1 then [64 * wf] else [b; 64 * wf])
           ∧ 1 ∉ t_shape mask)
    ∧ (lt_int partial 1 = false →
       ∃ out3 masks,
         CDWideResNet.block3_loop (CDWideResNet.train tr net)
           (CDWideResNet.block3 (CDWideResNet.train tr net)) out2 []
         = Ok (out3, masks)
         ∧ Z.of_nat (length masks) = (depth - 4) / 6
         ∧ Forall (fun m => t_shape m = (if b =? 1 then [64 * wf] else [b; 64 * wf])
                            ∧ 1 ∉ t_shape m) masks
         ∧ (b = 1 →
            CDWideResNet.forward (CDWideResNet.train tr net)
              (mk_tensor [b; 3; h; w] e)
            = Raise IndexError)
         ∧ (2 ≤ b →
            ∃ logits,
              CDWideResNet.forward (CDWideResNet.train tr net)
                (mk_tensor [b; 3; h; w] e)
              = Ok (VTensor logits)
              ∧ t_shape logits = [b; nc])).
Proof.
  intros Hm Hd Hwf Hnc Hdr Hav Hb Hh Hw Hbn3.
  assert (1 ≤ (depth - 4) / 6) as Hn by (apply Z.div_le_lower_bound; lia).
  pose proof (down_pos h 2 Hh ltac:(lia)) as Hh2.
  pose proof (down_pos w 2 Hw ltac:(lia)) as Hw2.
  pose proof (down_pos _ 2 Hh2 ltac:(lia)) as Hh3.
  pose proof (down_pos _ 2 Hw2 ltac:(lia)) as Hw3.
  pose proof (bn_sized_down tr b _ _ 2 Hbn3 Hh2 Hw2 ltac:(lia)) as Hbn2.
  assert (squeeze_shape [b; 64 * wf; 1; 1]
          = (if b =? 1 then [64 * wf] else [b; 64 * wf])) as Hsq
    by (apply squeeze_gate_shape; lia).
  destruct (stages_before_the_loop nc depth wf dr av partial tr b h w e)
    as (e2 & Hst); try assumption.
  exists (built nc depth wf dr av partial), (mk_tensor [b; 32 * wf; down h 2; down w 2] e2).
  split; [apply init_valid_depth; exact Hm|].
  split; [exact Hst|]. split; [reflexivity|]. split.
  - intros i layer e0 Hl.
    apply built_block3_lookup in Hl; [|assumption..]. subst layer.
    cbn [t_shape]. destruct (decide (i = 0%nat)) as [_|_].
    + destruct (squeezed_gate_sized tr (32 * wf) (64 * wf) 2 dr false av b
                  (down h 2) (down w 2) e0)
        as (e3 & e4 & ->); try assumption; try lia.
      eexists _, _. split; [reflexivity|]. cbn [t_shape].
      split; [reflexivity|]. split; [exact Hsq|apply squeeze_removes_ones].
    + destruct (squeezed_gate_sized tr (64 * wf) (64 * wf) 1 dr false av b
                  (down (down h 2) 2) (down (down w 2) 2) e0)
        as (e3 & e4 & ->); try (rewrite ?down_1; first [assumption | lia]).
      eexists _, _. split; [reflexivity|]. cbn [t_shape]. rewrite !down_1.
      split; [reflexivity|]. split; [exact Hsq|apply squeeze_removes_ones].
  - intros Hlt.
    destruct (block3_stage_sized
                (CDWideResNet.train tr (built nc depth wf dr av partial))
                tr ((depth - 4) / 6) wf (squeeze_shape [b; 64 * wf; 1; 1]) dr av b
                (down h 2) (down w 2) e2)
      as (e3 & m & ms & Hloop & Hlen & Hall); try assumption.
    { intros e0. exists e0. unfold CDWideResNet.collected.
      change (CDWideResNet.partial (CDWideResNet.train tr _)) with partial.
      rewrite Hlt. reflexivity. }
    change (CDWideResNet.block3 (CDWideResNet.train tr (built nc depth wf dr av partial)))
      with (CDBasicBlock.train tr
              <$> CDWideResNet._make_cd_layer av ((depth - 4) / 6) (32 * wf)
                    (64 * wf) 2 dr false).
    eexists _, _. split; [exact Hloop|]. split; [exact Hlen|]. split; [|split].
    + eapply Forall_impl; [exact Hall|]. intros t Ht. cbn beta in Ht.
      rewrite Ht. split; [exact Hsq|apply squeeze_removes_ones].
    + intros ->. unfold CDWideResNet.forward.
      rewrite features_and_mask_stages, Hst. bind_simpl.
      change (CDWideResNet.block3
                (CDWideResNet.train tr (built nc depth wf dr av partial)))
        with (CDBasicBlock.train tr
                <$> CDWideResNet._make_cd_layer av ((depth - 4) / 6) (32 * wf)
                      (64 * wf) 2 dr false).
      rewrite Hloop. bind_simpl.
      apply Forall_cons_1 in Hall as [Hm0 _]. rewrite Hsq in Hm0.
      unfold cat1. cbn [fmap list_fmap]. rewrite Hm0. reflexivity.
    + intros Hb2.
      destruct (forward_fits nc depth wf dr av partial tr b h w (64 * wf) e)
        as (e' & Hf); try assumption.
      { apply width_full. exact Hlt. }
      eexists. split; [exact Hf|reflexivity].
Qed.

(** A single image of 32 by 32 pixels through [CDWRN28(10, 2)] in training
    mode: each of the four blocks of stage 3 collects a gate with the one
    axis of length 128, and [forward] raises [IndexError]. *)
Lemma C5_squeeze_drops_unit_batch_axis_witness :
  ∃ net out2 out3 masks,
    CDWideResNet.CDWRN28 10 2 = Ok net
    ∧ (out ← call true "conv1" (CDWideResNet.conv1 (CDWideResNet.train true net))
                (mk_tensor [1; 3; 32; 32] EInput);
       out ← CDWideResNet.sequential
               (CDWideResNet.block1 (CDWideResNet.train true net)) out;
       CDWideResNet.sequential
         (CDWideResNet.block2 (CDWideResNet.train true net)) out)
      = Ok out2
    ∧ CDWideResNet.block3_loop (CDWideResNet.train true net)
        (CDWideResNet.block3 (CDWideResNet.train true net)) out2 []
      = Ok (out3, masks)
    ∧ Z.of_nat (length masks) = 4
    ∧ Forall (fun m => t_shape m = [128] ∧ 1 ∉ t_shape m) masks
    ∧ CDWideResNet.forward (CDWideResNet.train true net)
        (mk_tensor [1; 3; 32; 32] EInput)
      = Raise IndexError.
Proof.
  destruct (C5_squeeze_drops_unit_batch_axis 10 28 2 (PyFloat 0) 1 (PyInt 1) true
              1 32 32 EInput)
    as (net & out2 & Hnet & Hst & _ & _ & Hloop);
    first [lia | reflexivity | (right; vm_compute; discriminate) | idtac].
  destruct (Hloop eq_refl) as (out3 & masks & Hl & Hlen & Hall & Hone & _).
  exists net, out2, out3, masks.
  split; [exact Hnet|]. split; [exact Hst|]. split; [exact Hl|].
  split; [exact Hlen|]. split; [exact Hall|]. exact (Hone eq_refl).
Defined.

(** C1: the code at [CDWRN28(10, 2)] on four images of 32 by 32 pixels.
    Lines 142 to 151 build the concatenated gate tensor, of shape
    [(4, 512)]; [forward] then ends in [return logits] and returns the
    logits, of shape [(4, 10)], and nothing else.  Its result is one tensor
    and not a pair: the gate tensor is built and dropped. *)
Theorem C1_forward_drops_the_gate_tensor :
  ∃ net logits out mask,
    CDWideResNet.CDWRN28 10 2 = Ok net
    ∧ CDWideResNet.features_and_mask net (mk_tensor [4; 3; 32; 32] EInput)
      = Ok (out, mask)
    ∧ t_shape mask = [4; 512]
    ∧ CDWideResNet.forward net (mk_tensor [4; 3; 32; 32] EInput)
      = Ok (VTensor logits)
    ∧ t_shape logits = [4; 10]
    ∧ ¬ ∃ l g, CDWideResNet.forward net (mk_tensor [4; 3; 32; 32] EInput)
               = Ok (VTuple [VTensor l; VTensor g]).
Proof.
  destruct (forward_fits 10 28 2 (PyFloat 0) 1 (PyInt 1) true 4 32 32 128 EInput)
    as (e' & Hf);
    first [lia | reflexivity | apply (width_full 2 (PyInt 1)); reflexivity | idtac].
  destruct (features_and_mask_fits 10 28 2 (PyFloat 0) 1 (PyInt 1) true 4 32 32 128
              EInput)
    as (e1 & e2 & Hfm);
    first [lia | reflexivity | apply (width_full 2 (PyInt 1)); reflexivity | idtac].
  rewrite train_true_built in Hf, Hfm.
  exists (built 10 28 2 (PyFloat 0) 1 (PyInt 1)). eexists _, _, _.
  split; [apply init_valid_depth; reflexivity|].
  split; [exact Hfm|]. split; [reflexivity|]. split; [exact Hf|].
  split; [reflexivity|].
  intros (l & g & Hpair). rewrite Hf in Hpair. discriminate Hpair.
Qed.

(** The gate tensor of [CDWRN28(10, 2)] on four images of 32 by 32 pixels is
    not of shape [(4, 4 * 256)]. *)
Lemma C2_gate_tensor_is_not_4_by_1024 :
  ¬ ∃ net out mask,
      CDWideResNet.CDWRN28 10 2 = Ok net
      ∧ CDWideResNet.features_and_mask net (mk_tensor [4; 3; 32; 32] EInput)
        = Ok (out, mask)
      ∧ t_shape mask = [4; 4 * 256].
Proof.
  intros (net & out & mask & Hnet & Hf & Hsh).
  unfold CDWideResNet.CDWRN28 in Hnet.
  rewrite init_valid_depth in Hnet by reflexivity. injection Hnet as <-.
  rewrite <- train_true_built in Hf.
  destruct (features_and_mask_fits 10 28 2 (PyFloat 0) 1 (PyInt 1) true 4 32 32 128
              EInput)
    as (e1 & e2 & Hfm);
    first [lia | reflexivity | apply (width_full 2 (PyInt 1)); reflexivity | idtac].
  rewrite Hfm in Hf. injection Hf as _ <-. cbn [t_shape] in Hsh.
  discriminate Hsh.
Qed.

(** C2, amended: the gate tensor concatenated over stage 3 has width
    (number of blocks of stage 3) times the per-block width, which is
    [64 * widen_factor] unless [partial < 1] and else the integer part of
    the product [64 * widen_factor * partial]; the logits have shape
    [(B, num_classes)].  For [CDWRN28(10, 2)] on four images this is
    [(4, 10)] and [(4, 4 * 128)], with [128 = 64 * widen_factor]. *)
Theorem C2_gate_tensor_width (nc depth wf : Z) (dr : num) (av : Z)
  (partial : num) (tr : bool) (b h w g : Z) (e : expr) :
  (depth - 4) mod 6 = 0 → 10 ≤ depth → 1 ≤ wf → drop_ok dr →
  av = 1 ∨ av = 2 ∨ av = 3 → per_block_width wf partial g →
  2 ≤ b → 1 ≤ h → 1 ≤ w →
  ∃ net out mask logits,
    CDWideResNet.init nc depth wf dr av partial = Ok net
    ∧ Z.of_nat (length (CDWideResNet.block3 (CDWideResNet.train tr net)))
      = (depth - 4) / 6
    ∧ CDWideResNet.features_and_mask (CDWideResNet.train tr net)
        (mk_tensor [b; 3; h; w] e)
      = Ok (out, mask)
    ∧ t_shape mask
      = [b; Z.of_nat (length (CDWideResNet.block3 (CDWideResNet.train tr net))) * g]
    ∧ CDWideResNet.forward (CDWideResNet.train tr net) (mk_tensor [b; 3; h; w] e)
      = Ok (VTensor logits)
    ∧ t_shape logits = [b; nc].
Proof.
  intros Hm Hd Hwf Hdr Hav Hg Hb Hh Hw.
  destruct (forward_fits nc depth wf dr av partial tr b h w g e)
    as (e' & Hf); try assumption.
  destruct (features_and_mask_fits nc depth wf dr av partial tr b h w g e)
    as (e1 & e2 & Hfm); try assumption.
  assert (Z.of_nat (length (CDWideResNet.block3
            (CDWideResNet.train tr (built nc depth wf dr av partial))))
          = (depth - 4) / 6) as Hlen.
  { net_fields. rewrite length_fmap.
    apply (built_block3_length nc depth wf dr av partial). lia. }
  eexists _, _, _, _. split; [apply init_valid_depth; exact Hm|].
  split; [exact Hlen|]. split; [exact Hfm|]. rewrite Hlen.
  split; [reflexivity|]. split; [exact Hf|reflexivity].
Qed.

(** [CDWRN28(num_classes=10, widen_factor=2)] on four images of shape
    [(3, 32, 32)]: four blocks in stage 3, 128 gate columns each. *)
Lemma C2_gate_tensor_width_witness :
  ∃ net out mask logits,
    CDWideResNet.CDWRN28 10 2 = Ok net
    ∧ Z.of_nat (length (CDWideResNet.block3 (CDWideResNet.train true net))) = 4
    ∧ CDWideResNet.features_and_mask (CDWideResNet.train true net)
        (mk_tensor [4; 3; 32; 32] EInput)
      = Ok (out, mask)
    ∧ t_shape mask
      = [4; Z.of_nat (length (CDWideResNet.block3 (CDWideResNet.train true net)))
            * 128]
    ∧ CDWideResNet.forward (CDWideResNet.train true net)
        (mk_tensor [4; 3; 32; 32] EInput)
      = Ok (VTensor logits)
    ∧ t_shape logits = [4; 10].
Proof.
  apply (C2_gate_tensor_width 10 28 2 (PyFloat 0) 1 (PyInt 1) true
           4 32 32 128 EInput);
    first [lia | reflexivity | apply (width_full 2 (PyInt 1)); reflexivity].
Defined.

(** *** Further facts about the gate tensor *)

(** A single image does not get through [forward]: the squeezed gates have
    one axis, and [torch.cat(..., dim=1)] needs two.  This holds in training
    and in evaluation mode. *)
Lemma forward_single_image_raises :
  ∃ net,
    CDWideResNet.CDWRN28 10 2 = Ok net
    ∧ CDWideResNet.forward net (mk_tensor [1; 3; 32; 32] EInput) = Raise IndexError
    ∧ CDWideResNet.forward (CDWideResNet.train false net)
        (mk_tensor [1; 3; 32; 32] EInput)
      = Raise IndexError.
Proof.
  eexists. split; [reflexivity|]. split; vm_compute; reflexivity.
Qed.

(** With [partial = 0.5] each block of [widen_factor = 2] contributes the
    first 64 of its 128 gate columns. *)
Lemma per_block_width_half : per_block_width 2 (PyFloat 0.5%float) 64.
Proof.
  apply (width_prefix 2 (PyFloat 0.5%float) (PyFloat 64%float) 64);
    first [reflexivity | lia].
Qed.

Lemma gate_tensor_width_half (tr : bool) :
  ∃ e1 e2,
    CDWideResNet.features_and_mask
      (CDWideResNet.train tr (built 10 28 2 (PyFloat 0) 1 (PyFloat 0.5%float)))
      (mk_tensor [4; 3; 32; 32] EInput)
    = Ok (mk_tensor [4; 128; 8; 8] e1, mk_tensor [4; 4 * 64] e2).
Proof.
  apply (features_and_mask_fits 10 28 2 (PyFloat 0) 1 (PyFloat 0.5%float) tr
           4 32 32 64 EInput);
    first [lia | reflexivity | exact per_block_width_half].
Qed.

(** The product [64 * widen_factor * partial] is a binary64 product and is
    rounded before [int] truncates it.  With [widen_factor = 3] and
    [partial] the float nearest to one third, the product rounds up to 64
    although the exact product of the two numbers is below 64. *)
Lemma per_block_width_rounds_first :
  per_block_width 3 (PyFloat 0x1.5555555555555p-2%float) 64
  ∧ Prim2SF 0x1.5555555555555p-2%float = S754_finite false 6004799503160661 (-54)
  ∧ 64 * 3 * 6004799503160661 < 64 * 2 ^ 54.
Proof.
  split; [|split].
  - apply (width_prefix 3 (PyFloat 0x1.5555555555555p-2%float) (PyFloat 64%float) 64);
      first [reflexivity | lia].
  - reflexivity.
  - reflexivity.
Qed.

(** In each attention variant the gate is the output of the sigmoid that
    ends the gating module. *)
Lemma gate_is_sigmoid_output (av cout : Z) (e : expr) :
  ∃ name e', gate_values av cout e = ECall name Sigmoid e'.
Proof.
  unfold gate_values. destruct (av =? 1); [eauto|]. destruct (av =? 2); eauto.
Qed.

End NetProps.

(** * Further properties of the code *)

(** ** data/backdoor.py *)

Tactic Notation "bind_simpl" "in" hyp(H) :=
  cbn [mbind result_bind Py.bind mret result_ret] in H.

Module BackdoorMore.
Import Backdoor.

(** *** Writing a block of a flat array *)

Lemma fill_range_length (l : list Z) (off len : nat) (v : Z) :
  (off + len ≤ length l)%nat → length (fill_range l off len v) = length l.
Proof.
  intros H. unfold fill_range.
  rewrite !length_app, length_take, length_replicate, length_drop. lia.
Qed.

Lemma fill_range_lookup (l : list Z) (off len : nat) (v : Z) (i : nat) :
  (off + len ≤ length l)%nat →
  fill_range l off len v !! i
  = if decide (off ≤ i < off + len)%nat then Some v else l !! i.
Proof.
  intros H. unfold fill_range.
  destruct (decide (i < off)%nat) as [Hlt|Hge].
  - rewrite lookup_app_l by (rewrite length_take; lia).
    rewrite lookup_take_lt by lia.
    destruct (decide (off ≤ i < off + len)%nat); [lia|reflexivity].
  - rewrite lookup_app_r by (rewrite length_take; lia).
    rewrite length_take, Nat.min_l by lia.
    destruct (decide (i < off + len)%nat) as [Hin|Hout].
    + rewrite lookup_app_l by (rewrite length_replicate; lia).
      rewrite lookup_replicate_2 by lia.
      destruct (decide (off ≤ i < off + len)%nat); [reflexivity|lia].
    + rewrite lookup_app_r by (rewrite length_replicate; lia).
      rewrite length_replicate, lookup_drop.
      destruct (decide (off ≤ i < off + len)%nat); [lia|].
      f_equal. lia.
Qed.

(** One assignment [a[j, k] = v] within bounds. *)
Lemma setitem2_within (a : ndarray) (h w c j k v : Z) :
  shape a = [h; w; c] → well_formed a →
  0 ≤ j < h → 0 ≤ k < w → 0 ≤ c →
  ∃ a',
    setitem2 a j k v = Ok a'
    ∧ shape a' = [h; w; c]
    ∧ well_formed a'
    ∧ ∀ i : nat,
        data a' !! i = if in_block w c j k i then Some v else data a !! i.
Proof.
  intros Hsh Hwf Hj Hk Hc. unfold setitem2, norm_index. rewrite Hsh.
  destruct (Z.ltb_spec j 0); [lia|]. destruct (Z.ltb_spec k 0); [lia|].
  destruct (Z.leb_spec 0 j); [|lia]. destruct (Z.ltb_spec j h); [|lia].
  destruct (Z.leb_spec 0 k); [|lia]. destruct (Z.ltb_spec k w); [|lia].
  cbn [andb]. bind_simpl.
  assert (product [c] = c) as Hp by (unfold product; cbn [foldr]; lia).
  rewrite Hp.
  assert (length (data a) = Z.to_nat (h * w * c)) as Hlen.
  { red in Hwf. rewrite Hwf, Hsh. unfold product. cbn [foldr]. f_equal. lia. }
  assert (0 ≤ j * w + k ∧ j * w + k + 1 ≤ h * w) as [Hlo Hhi] by nia.
  assert ((j * w + k) * c + c ≤ h * w * c) as Hend by nia.
  assert (0 ≤ (j * w + k) * c) as Hoff by nia.
  assert (Z.to_nat ((j * w + k) * c) + Z.to_nat c ≤ length (data a))%nat as Hfit
    by (rewrite Hlen; lia).
  eexists. split; [reflexivity|]. cbn [shape data].
  split; [reflexivity|]. split.
  - red. cbn [shape data]. rewrite fill_range_length by exact Hfit.
    rewrite <- Hsh. exact Hwf.
  - intros i. rewrite fill_range_lookup by exact Hfit. unfold in_block.
    destruct (decide (Z.to_nat ((j * w + k) * c) ≤ i
                      < Z.to_nat ((j * w + k) * c) + Z.to_nat c)%nat) as [Hin|Hout].
    + destruct (Z.leb_spec ((j * w + k) * c) (Z.of_nat i)); [|lia].
      destruct (Z.ltb_spec (Z.of_nat i) ((j * w + k) * c + c)); [|lia].
      reflexivity.
    + destruct (Z.leb_spec ((j * w + k) * c) (Z.of_nat i)); [|reflexivity].
      destruct (Z.ltb_spec (Z.of_nat i) ((j * w + k) * c + c)); [lia|reflexivity].
Qed.

(** The inner loop over columns that are all within bounds. *)
Lemma fill_row_within (h w c j v : Z) (ks : list Z) :
  0 ≤ j < h → 0 ≤ c → Forall (fun k => 0 ≤ k < w) ks →
  ∀ a, shape a = [h; w; c] → well_formed a →
  ∃ a',
    fill_row j ks v a = Ok a'
    ∧ shape a' = [h; w; c]
    ∧ well_formed a'
    ∧ ∀ i : nat,
        data a' !! i
        = if existsb (fun k => in_block w c j k i) ks then Some v else data a !! i.
Proof.
  intros Hj Hc Hks. induction Hks as [|k ks Hk _ IH]; intros a Hsh Hwf.
  - exists a. split_and!; try assumption; reflexivity.
  - unfold fill_row. cbn [for_each].
    destruct (setitem2_within a h w c j k v Hsh Hwf Hj Hk Hc)
      as (a1 & -> & Hsh1 & Hwf1 & Hd1). bind_simpl.
    destruct (IH a1 Hsh1 Hwf1) as (a2 & Hrow & Hsh2 & Hwf2 & Hd2).
    unfold fill_row in Hrow. rewrite Hrow.
    exists a2. split_and!; try assumption; try reflexivity.
    intros i. rewrite Hd2, Hd1. cbn [existsb].
    destruct (in_block w c j k i), (existsb _ ks); reflexivity.
Qed.

(** The two nested loops over rows and columns that are all within bounds. *)
Lemma fill_patch_within (h w c v : Z) (js ks : list Z) :
  0 ≤ c → Forall (fun j => 0 ≤ j < h) js → Forall (fun k => 0 ≤ k < w) ks →
  ∀ a, shape a = [h; w; c] → well_formed a →
  ∃ a',
    fill_patch js ks v a = Ok a'
    ∧ shape a' = [h; w; c]
    ∧ well_formed a'
    ∧ ∀ i : nat,
        data a' !! i
        = if existsb (fun j => existsb (fun k => in_block w c j k i) ks) js
          then Some v else data a !! i.
Proof.
  intros Hc Hjs Hks. induction Hjs as [|j js Hj _ IH]; intros a Hsh Hwf.
  - exists a. split_and!; try assumption; reflexivity.
  - unfold fill_patch. cbn [for_each].
    destruct (fill_row_within h w c j v ks Hj Hc Hks a Hsh Hwf)
      as (a1 & -> & Hsh1 & Hwf1 & Hd1). bind_simpl.
    destruct (IH a1 Hsh1 Hwf1) as (a2 & Hp & Hsh2 & Hwf2 & Hd2).
    unfold fill_patch in Hp. rewrite Hp.
    exists a2. split_and!; try assumption; try reflexivity.
    intros i. rewrite Hd2, Hd1. cbn [existsb].
    destruct (existsb (fun k => in_block w c j k i) ks), (existsb _ js); reflexivity.
Qed.

(** A flat position belongs to the block of exactly one pixel. *)
Lemma in_block_pixel (w c j k j' k' c' : Z) :
  0 ≤ j → 0 ≤ k < w → 0 ≤ j' → 0 ≤ k' < w → 0 ≤ c' < c →
  in_block w c j k (Z.to_nat ((j' * w + k') * c + c')) = true ↔ j = j' ∧ k = k'.
Proof.
  intros Hj Hk Hj' Hk' Hc'. unfold in_block.
  assert (0 ≤ j * w) by (apply Z.mul_nonneg_nonneg; lia).
  assert (0 ≤ j' * w) by (apply Z.mul_nonneg_nonneg; lia).
  assert (0 ≤ (j' * w + k') * c) by (apply Z.mul_nonneg_nonneg; lia).
  rewrite Z2Nat.id by lia.
  rewrite andb_true_iff, Z.leb_le, Z.ltb_lt. split.
  - intros [Hlow Hupp].
    assert (j * w + k = j' * w + k') as Heq.
    { destruct (Z.lt_trichotomy (j * w + k) (j' * w + k')) as [Hlt|[Heq|Hgt]];
        [|exact Heq|].
      - assert ((j * w + k + 1) * c ≤ (j' * w + k') * c)
          by (apply Z.mul_le_mono_nonneg_r; lia). lia.
      - assert ((j' * w + k' + 1) * c ≤ (j * w + k) * c)
          by (apply Z.mul_le_mono_nonneg_r; lia). lia. }
    assert (j = j') as Hjj.
    { destruct (Z.lt_trichotomy j j') as [Hlt|[Hjj|Hgt]]; [|exact Hjj|].
      - assert ((j + 1) * w ≤ j' * w) by (apply Z.mul_le_mono_nonneg_r; lia). lia.
      - assert ((j' + 1) * w ≤ j * w) by (apply Z.mul_le_mono_nonneg_r; lia). lia. }
    split; [exact Hjj|]. subst j'. lia.
  - intros [-> ->]. lia.
Qed.

Lemma existsb_range (P : Z → bool) (lo hi : Z) :
  existsb P (range lo hi) = true ↔ ∃ x, lo ≤ x < hi ∧ P x = true.
Proof.
  rewrite existsb_exists. unfold range. split.
  - intros (x & Hin & HP). exists x. split; [|exact HP].
    apply list_elem_of_In, elem_of_seqZ in Hin. lia.
  - intros (x & Hx & HP). exists x. split; [|exact HP].
    apply list_elem_of_In, elem_of_seqZ. lia.
Qed.

Lemma range_within (lo hi n : Z) :
  0 ≤ lo → hi ≤ n → Forall (fun x => 0 ≤ x < n) (range lo hi).
Proof.
  intros Hlo Hhi. apply Forall_forall. intros x Hx.
  unfold range in Hx. apply elem_of_seqZ in Hx. lia.
Qed.

(** The painted positions of the two loops are the pixels of the patch. *)
Lemma patch_positions (h w ch ts j k c : Z) :
  0 ≤ ts → ts ≤ h - 1 → ts ≤ w - 1 →
  0 ≤ j < h → 0 ≤ k < w → 0 ≤ c < ch →
  existsb (fun j0 => existsb (fun k0 =>
      in_block w ch j0 k0 (Z.to_nat ((j * w + k) * ch + c)))
    (range (w - 1 - ts) (w - 1))) (range (h - 1 - ts) (h - 1))
  = in_trigger h w ts j k.
Proof.
  intros Hts Hh Hw Hj Hk Hc. apply eq_iff_eq_true.
  rewrite existsb_range. unfold in_trigger.
  rewrite !andb_true_iff, !Z.leb_le, !Z.ltb_lt. split.
  - intros (j0 & Hj0 & Hex). apply existsb_range in Hex as (k0 & Hk0 & Hin).
    apply in_block_pixel in Hin as [-> ->]; lia.
  - intros [[[H1 H2] H3] H4]. exists j. split; [lia|].
    apply existsb_range. exists k. split; [lia|].
    apply in_block_pixel; [lia..|done].
Qed.

(** Reading a pixel of a well-shaped array. *)
Lemma getitem3_within (a : ndarray) (h w ch j k c : Z) :
  shape a = [h; w; ch] → 0 ≤ j < h → 0 ≤ k < w → 0 ≤ c < ch →
  getitem3 a j k c
  = match data a !! Z.to_nat ((j * w + k) * ch + c) with
    | Some v => Ok v
    | None => Raise IndexError
    end.
Proof.
  intros Hsh Hj Hk Hc. unfold getitem3, norm_index. rewrite Hsh.
  destruct (Z.ltb_spec j 0); [lia|]. destruct (Z.ltb_spec k 0); [lia|].
  destruct (Z.ltb_spec c 0); [lia|].
  destruct (Z.leb_spec 0 j); [|lia]. destruct (Z.ltb_spec j h); [|lia].
  destruct (Z.leb_spec 0 k); [|lia]. destruct (Z.ltb_spec k w); [|lia].
  destruct (Z.leb_spec 0 c); [|lia]. destruct (Z.ltb_spec c ch); [|lia].
  reflexivity.
Qed.

(** [BadNets.add_trigger] on any image of shape [(h, w, ch)], for a trigger
    that fits ([0 <= trigger_size <= min(h, w) - 1]): the reference given is
    returned, the array behind it keeps its shape, the pixels of rows
    [h - 1 - trigger_size .. h - 2] and columns [w - 1 - trigger_size .. w - 2]
    are 255 in every channel, and every other element is what it was. *)
Theorem add_trigger_paints_corner (σ : gmap loc ndarray) (img : loc)
  (a : ndarray) (h w ch ts : Z) :
  σ !! img = Some a → shape a = [h; w; ch] → well_formed a →
  0 ≤ ch → 0 ≤ ts → ts ≤ h - 1 → ts ≤ w - 1 →
  ∃ a' : ndarray,
    add_trigger (mk_BadNets ts) img σ = Ok (img, <[img := a']> σ)
    ∧ shape a' = [h; w; ch]
    ∧ ∀ j k c, 0 ≤ j < h → 0 ≤ k < w → 0 ≤ c < ch →
        getitem3 a' j k c
        = if in_trigger h w ts j k then Ok 255 else getitem3 a j k c.
Proof.
  intros Hl Hsh Hwf Hch Hts Hh Hw.
  rewrite (BackdoorProps.add_trigger_array _ _ _ _ Hl). rewrite Hsh.
  change (getitem [h; w; ch] 0) with (Ok (A:=Z) h).
  change (getitem [h; w; ch] 1) with (Ok (A:=Z) w). bind_simpl.
  cbn [trigger_size].
  destruct (fill_patch_within h w ch 255 (range (h - 1 - ts) (h - 1))
              (range (w - 1 - ts) (w - 1)) Hch) with (a := a)
    as (a' & -> & Hsh' & _ & Hd); try assumption;
    try (apply range_within; lia).
  bind_simpl. exists a'. split; [reflexivity|]. split; [exact Hsh'|].
  intros j k c Hj Hk Hc.
  rewrite (getitem3_within a' h w ch) by assumption.
  rewrite (getitem3_within a h w ch) by assumption.
  rewrite Hd, patch_positions by assumption.
  destruct (in_trigger h w ts j k); reflexivity.
Qed.

Lemma add_trigger_paints_corner_witness :
  ∃ a' : ndarray,
    add_trigger (mk_BadNets 2) 1%positive
      {[ 1%positive := mk_ndarray [4; 5; 3] (replicate 60 7) ]}
    = Ok (1%positive,
          <[1%positive := a']> {[ 1%positive := mk_ndarray [4; 5; 3] (replicate 60 7) ]})
    ∧ shape a' = [4; 5; 3]
    ∧ ∀ j k c, 0 ≤ j < 4 → 0 ≤ k < 5 → 0 ≤ c < 3 →
        getitem3 a' j k c
        = if in_trigger 4 5 2 j k then Ok 255
          else getitem3 (mk_ndarray [4; 5; 3] (replicate 60 7)) j k c.
Proof.
  apply (add_trigger_paints_corner
           {[ 1%positive := mk_ndarray [4; 5; 3] (replicate 60 7) ]} 1%positive
           (mk_ndarray [4; 5; 3] (replicate 60 7)) 4 5 3 2);
    first [reflexivity | lia].
Defined.

(** *** What [add_trigger] leaves alone *)

Lemma setitem2_shape (a a' : ndarray) (j k v : Z) :
  setitem2 a j k v = Ok a' → shape a' = shape a.
Proof.
  unfold setitem2. destruct (shape a) as [|h [|w rest]]; try discriminate.
  destruct (norm_index h j); bind_simpl; [|discriminate].
  destruct (norm_index w k); bind_simpl; [|discriminate].
  intros [= <-]. reflexivity.
Qed.

Lemma fill_row_shape (j v : Z) (ks : list Z) :
  ∀ a a', fill_row j ks v a = Ok a' → shape a' = shape a.
Proof.
  unfold fill_row. induction ks as [|k ks IH]; intros a a'; cbn [for_each].
  - intros [= <-]. reflexivity.
  - destruct (setitem2 a j k v) as [a1|] eqn:E; bind_simpl; [|discriminate].
    intros H. rewrite (IH _ _ H). exact (setitem2_shape _ _ _ _ _ E).
Qed.

Lemma fill_patch_shape (v : Z) (js ks : list Z) :
  ∀ a a', fill_patch js ks v a = Ok a' → shape a' = shape a.
Proof.
  unfold fill_patch. induction js as [|j js IH]; intros a a'; cbn [for_each].
  - intros [= <-]. reflexivity.
  - destruct (fill_row j ks v a) as [a1|] eqn:E; bind_simpl; [|discriminate].
    intros H. rewrite (IH _ _ H). exact (fill_row_shape _ _ _ _ _ E).
Qed.

(** Whenever [add_trigger] returns, for any array and any trigger size: it
    returns the reference it was given, so the caller's array is the one
    that was painted; no object is added to the store or removed from it;
    and the array behind the reference has kept its shape. *)
Theorem add_trigger_in_place (self : BadNets) (img r : loc)
  (σ σ' : gmap loc ndarray) :
  add_trigger self img σ = Ok (r, σ') →
  r = img
  ∧ dom σ' = dom σ
  ∧ ∃ a a', σ !! img = Some a ∧ σ' !! img = Some a' ∧ shape a' = shape a.
Proof.
  intros Hrun.
  destruct (σ !! img) as [a|] eqn:Hl;
    [|unfold add_trigger in Hrun; rewrite Hl in Hrun; discriminate].
  rewrite (BackdoorProps.add_trigger_array _ _ _ _ Hl) in Hrun.
  destruct (getitem (shape a) 0) as [w|]; bind_simpl in Hrun; [|discriminate].
  destruct (getitem (shape a) 1) as [h|]; bind_simpl in Hrun; [|discriminate].
  destruct (fill_patch _ _ 255 a) as [a'|] eqn:Hp; bind_simpl in Hrun;
    [|discriminate].
  injection Hrun as <- <-. split; [reflexivity|]. split.
  - apply dom_insert_lookup_L. by exists a.
  - exists a, a'. split; [reflexivity|]. split; [apply lookup_insert_eq|].
    exact (fill_patch_shape _ _ _ _ _ Hp).
Qed.

Lemma add_trigger_in_place_witness :
  1%positive = 1%positive
  ∧ dom (<[1%positive := patched]> {[ 1%positive := zeros [10; 10; 3];
                                      2%positive := zeros [2; 2] ]}
         : gmap loc ndarray)
    = dom ({[ 1%positive := zeros [10; 10; 3]; 2%positive := zeros [2; 2] ]}
           : gmap loc ndarray)
  ∧ ∃ a a',
      ({[ 1%positive := zeros [10; 10; 3]; 2%positive := zeros [2; 2] ]}
       : gmap loc ndarray) !! 1%positive = Some a
      ∧ (<[1%positive := patched]> {[ 1%positive := zeros [10; 10; 3];
                                      2%positive := zeros [2; 2] ]}
         : gmap loc ndarray) !! 1%positive = Some a'
      ∧ shape a' = shape a.
Proof.
  apply (add_trigger_in_place (mk_BadNets 3) 1%positive 1%positive
           {[ 1%positive := zeros [10; 10; 3]; 2%positive := zeros [2; 2] ]}
           (<[1%positive := patched]> {[ 1%positive := zeros [10; 10; 3];
                                         2%positive := zeros [2; 2] ]})).
  vm_compute. reflexivity.
Defined.

(** *** Triggers that do not fit *)

Lemma range_empty (lo hi : Z) : hi ≤ lo → range lo hi = [].
Proof.
  intros H. unfold range, seqZ.
  replace (Z.to_nat (hi - lo)) with 0%nat by lia. reflexivity.
Qed.

Lemma range_cons (lo hi : Z) : lo < hi → range lo hi = lo :: range (lo + 1) hi.
Proof.
  intros H. unfold range. rewrite seqZ_cons by lia.
  f_equal. f_equal; lia.
Qed.

Lemma getitem_first {A : Type} (x : A) (l : list A) : getitem (x :: l) 0 = Ok x.
Proof.
  unfold getitem. cbn [length]. change (0 <? 0) with false. cbv beta iota zeta.
  destruct (Z.ltb_spec 0 (Z.of_nat (S (length l)))); [|lia]. reflexivity.
Qed.

Lemma getitem_second {A : Type} (x y : A) (l : list A) :
  getitem (x :: y :: l) 1 = Ok y.
Proof.
  unfold getitem. cbn [length]. change (1 <? 0) with false. cbv beta iota zeta.
  destruct (Z.ltb_spec 1 (Z.of_nat (S (S (length l))))); [|lia]. reflexivity.
Qed.

(** A trigger size of zero or below writes nothing: both ranges are empty
    and the store is returned as it was. *)
Theorem add_trigger_nonpositive_size (σ : gmap loc ndarray) (img : loc)
  (a : ndarray) (ts : Z) :
  σ !! img = Some a → (2 ≤ length (shape a))%nat → ts ≤ 0 →
  add_trigger (mk_BadNets ts) img σ = Ok (img, σ).
Proof.
  intros Hl Hdim Hts.
  rewrite (BackdoorProps.add_trigger_array _ _ _ _ Hl).
  destruct (shape a) as [|h [|w rest]] eqn:Hsh; cbn [length] in Hdim; try lia.
  rewrite getitem_first, getitem_second. bind_simpl.
  cbn [trigger_size]. rewrite (range_empty (h - 1 - ts)) by lia.
  unfold fill_patch. cbn [for_each]. bind_simpl. by rewrite insert_id.
Qed.

Lemma add_trigger_nonpositive_size_witness :
  add_trigger (mk_BadNets 0) 1%positive {[ 1%positive := zeros [4; 5; 3] ]}
  = Ok (1%positive, {[ 1%positive := zeros [4; 5; 3] ]}).
Proof.
  apply (add_trigger_nonpositive_size {[ 1%positive := zeros [4; 5; 3] ]}
           1%positive (zeros [4; 5; 3]) 0);
    first [reflexivity | cbn; lia | lia].
Defined.

(** An array with fewer than two axes is refused with [IndexError], when
    the shape is read. *)
Theorem add_trigger_needs_two_axes (self : BadNets) (σ : gmap loc ndarray)
  (img : loc) (a : ndarray) :
  σ !! img = Some a → (length (shape a) < 2)%nat →
  add_trigger self img σ = Raise IndexError.
Proof.
  intros Hl Hdim. unfold add_trigger. rewrite Hl.
  destruct (shape a) as [|h [|w rest]]; cbn [length] in Hdim; try lia; reflexivity.
Qed.

Lemma add_trigger_needs_two_axes_witness :
  add_trigger (mk_BadNets 3) 1%positive {[ 1%positive := zeros [10] ]}
  = Raise IndexError.
Proof.
  apply (add_trigger_needs_two_axes (mk_BadNets 3) {[ 1%positive := zeros [10] ]}
           1%positive (zeros [10]));
    first [reflexivity | cbn; lia].
Defined.

Lemma norm_index_below (n i : Z) : i + n < 0 → 0 ≤ n → norm_index n i = Raise IndexError.
Proof.
  intros Hi Hn. unfold norm_index.
  destruct (Z.ltb_spec i 0); [|lia].
  destruct (Z.leb_spec 0 (i + n)); [lia|]. reflexivity.
Qed.

(** A trigger size of at least twice the number of rows is refused with
    [IndexError]: the first row index is below [-h]. *)
Theorem add_trigger_oversized (σ : gmap loc ndarray) (img : loc)
  (a : ndarray) (h w : Z) (rest : list Z) (ts : Z) :
  σ !! img = Some a → shape a = h :: w :: rest →
  0 ≤ h → 1 ≤ ts → 2 * h ≤ ts →
  add_trigger (mk_BadNets ts) img σ = Raise IndexError.
Proof.
  intros Hl Hsh Hh Hts Hbig.
  rewrite (BackdoorProps.add_trigger_array _ _ _ _ Hl). rewrite Hsh.
  rewrite getitem_first, getitem_second. bind_simpl.
  cbn [trigger_size].
  rewrite (range_cons (h - 1 - ts)) by lia.
  rewrite (range_cons (w - 1 - ts)) by lia.
  assert (setitem2 a (h - 1 - ts) (w - 1 - ts) 255 = Raise IndexError) as E.
  { unfold setitem2. rewrite Hsh.
    rewrite (norm_index_below h (h - 1 - ts)) by lia. reflexivity. }
  unfold fill_patch, fill_row. cbn [for_each]. rewrite E. reflexivity.
Qed.

Lemma add_trigger_oversized_witness :
  add_trigger (mk_BadNets 8) 1%positive {[ 1%positive := zeros [4; 5; 3] ]}
  = Raise IndexError.
Proof.
  apply (add_trigger_oversized {[ 1%positive := zeros [4; 5; 3] ]} 1%positive
           (zeros [4; 5; 3]) 4 5 [3] 8);
    first [reflexivity | lia].
Defined.

(** *** Triggers that wrap around *)

Lemma norm_index_wrap (n i : Z) :
  - n ≤ i < n → norm_index n i = Ok (wrap n i) ∧ 0 ≤ wrap n i < n.
Proof.
  intros Hi. unfold norm_index, wrap.
  destruct (Z.ltb_spec i 0).
  - destruct (Z.leb_spec 0 (i + n)); [|lia].
    destruct (Z.ltb_spec (i + n) n); [|lia]. split; [reflexivity|lia].
  - destruct (Z.leb_spec 0 i); [|lia].
    destruct (Z.ltb_spec i n); [|lia]. split; [reflexivity|lia].
Qed.

Lemma wrap_within (n i : Z) : 0 ≤ i → wrap n i = i.
Proof. intros Hi. unfold wrap. destruct (Z.ltb_spec i 0); [lia|reflexivity]. Qed.

(** A negative index addresses the same element as its wrapped value. *)
Lemma setitem2_wrap (a : ndarray) (h w : Z) (rest : list Z) (j k v : Z) :
  shape a = h :: w :: rest → - h ≤ j < h → - w ≤ k < w →
  setitem2 a j k v = setitem2 a (wrap h j) (wrap w k) v.
Proof.
  intros Hsh Hj Hk. unfold setitem2. rewrite Hsh.
  destruct (norm_index_wrap h j Hj) as [Ej Hj'].
  destruct (norm_index_wrap w k Hk) as [Ek Hk'].
  destruct (norm_index_wrap h (wrap h j)) as [Ej' _]; [lia|].
  destruct (norm_index_wrap w (wrap w k)) as [Ek' _]; [lia|].
  rewrite Ej, Ek, Ej', Ek'. rewrite !(wrap_within _ (wrap _ _)) by lia.
  reflexivity.
Qed.

Lemma fill_row_wrap (h w : Z) (rest : list Z) (j v : Z) (ks : list Z) :
  - h ≤ j < h → Forall (fun k => - w ≤ k < w) ks →
  ∀ a, shape a = h :: w :: rest →
  fill_row j ks v a = fill_row (wrap h j) (wrap w <$> ks) v a.
Proof.
  intros Hj Hks. unfold fill_row.
  induction Hks as [|k ks Hk _ IH]; intros a Hsh; [reflexivity|].
  cbn [fmap list_fmap for_each].
  rewrite (setitem2_wrap a h w rest j k v Hsh Hj Hk).
  destruct (setitem2 a (wrap h j) (wrap w k) v) as [a1|] eqn:E; [|reflexivity].
  bind_simpl. apply IH. rewrite (setitem2_shape _ _ _ _ _ E). exact Hsh.
Qed.

Lemma fill_patch_wrap (h w : Z) (rest : list Z) (v : Z) (js ks : list Z) :
  Forall (fun j => - h ≤ j < h) js → Forall (fun k => - w ≤ k < w) ks →
  ∀ a, shape a = h :: w :: rest →
  fill_patch js ks v a = fill_patch (wrap h <$> js) (wrap w <$> ks) v a.
Proof.
  intros Hjs Hks. unfold fill_patch.
  induction Hjs as [|j js Hj _ IH]; intros a Hsh; [reflexivity|].
  cbn [fmap list_fmap for_each].
  rewrite (fill_row_wrap h w rest j v ks Hj Hks a Hsh).
  destruct (fill_row (wrap h j) (wrap w <$> ks) v a) as [a1|] eqn:E; [|reflexivity].
  bind_simpl. apply IH. rewrite (fill_row_shape _ _ _ _ _ E). exact Hsh.
Qed.

Lemma range_wrappable (lo hi n : Z) :
  - n ≤ lo → hi ≤ n → Forall (fun x => - n ≤ x < n) (range lo hi).
Proof.
  intros Hlo Hhi. apply Forall_forall. intros x Hx.
  unfold range in Hx. apply elem_of_seqZ in Hx. lia.
Qed.

Lemma wrapped_range_within (lo hi n : Z) :
  - n ≤ lo → hi ≤ n → Forall (fun x => 0 ≤ x < n) (wrap n <$> range lo hi).
Proof.
  intros Hlo Hhi. apply Forall_fmap, Forall_forall. intros x Hx.
  unfold range in Hx. apply elem_of_seqZ in Hx. cbn.
  unfold wrap. destruct (Z.ltb_spec x 0); lia.
Qed.

(** The wrapped values of the indices [n - 1 - ts .. n - 2]. *)
Lemma wrapped_range_member (n ts j : Z) :
  0 ≤ ts → ts ≤ 2 * n - 1 → 0 ≤ j < n →
  j ∈ wrap n <$> range (n - 1 - ts) (n - 1)
  ↔ (n - 1 - ts ≤ j ∧ j < n - 1) ∨ 2 * n - 1 - ts ≤ j.
Proof.
  intros Hts Hn Hj. rewrite list_elem_of_fmap. unfold range. split.
  - intros (y & -> & Hy). apply elem_of_seqZ in Hy. unfold wrap in *.
    destruct (Z.ltb_spec y 0); lia.
  - intros [[H1 H2]|H].
    + exists j. split; [symmetry; apply wrap_within; lia|].
      apply elem_of_seqZ. lia.
    + destruct (Z.lt_ge_cases j (n - 1)) as [Hlt|Hge].
      * destruct (Z.le_gt_cases (n - 1 - ts) j).
        -- exists j. split; [symmetry; apply wrap_within; lia|].
           apply elem_of_seqZ. lia.
        -- exists (j - n). split.
           ++ unfold wrap. destruct (Z.ltb_spec (j - n) 0); lia.
           ++ apply elem_of_seqZ. lia.
      * exists (j - n). split.
        -- unfold wrap. destruct (Z.ltb_spec (j - n) 0); lia.
        -- apply elem_of_seqZ. lia.
Qed.

Lemma wrapped_patch_positions (h w ch ts j k c : Z) :
  0 ≤ ts → ts ≤ 2 * h - 1 → ts ≤ 2 * w - 1 →
  0 ≤ j < h → 0 ≤ k < w → 0 ≤ c < ch →
  existsb (fun j0 => existsb (fun k0 =>
      in_block w ch j0 k0 (Z.to_nat ((j * w + k) * ch + c)))
    (wrap w <$> range (w - 1 - ts) (w - 1)))
    (wrap h <$> range (h - 1 - ts) (h - 1))
  = in_wrapped_trigger h w ts j k.
Proof.
  intros Hts Hh Hw Hj Hk Hc. apply eq_iff_eq_true.
  pose proof (wrapped_range_within (h - 1 - ts) (h - 1) h
                ltac:(lia) ltac:(lia)) as Hjs.
  pose proof (wrapped_range_within (w - 1 - ts) (w - 1) w
                ltac:(lia) ltac:(lia)) as Hks.
  rewrite Forall_forall in Hjs, Hks.
  unfold in_wrapped_trigger.
  rewrite andb_true_iff, !orb_true_iff, !andb_true_iff, !Z.leb_le, !Z.ltb_lt.
  rewrite <- (wrapped_range_member h ts j) by lia.
  rewrite <- (wrapped_range_member w ts k) by lia.
  rewrite existsb_exists. split.
  - intros (j0 & Hj0 & Hex). apply existsb_exists in Hex as (k0 & Hk0 & Hin).
    apply list_elem_of_In in Hj0, Hk0.
    pose proof (Hjs j0 Hj0). pose proof (Hks k0 Hk0).
    apply in_block_pixel in Hin as [-> ->]; [|lia..]. split; assumption.
  - intros [Hj0 Hk0]. exists j. split; [by apply list_elem_of_In|].
    apply existsb_exists. exists k. split; [by apply list_elem_of_In|].
    apply in_block_pixel; [lia..|done].
Qed.

(** [BadNets.add_trigger] with a trigger of up to [2 * min(h, w) - 1]: no
    error is raised; the row and column indices that fall below zero wrap
    around, so that besides the corner patch the rows from
    [2 * h - 1 - trigger_size] and the columns from [2 * w - 1 - trigger_size]
    on are written too, the last row and the last column included as soon as
    the trigger size reaches [h] and [w]. *)
Theorem add_trigger_wraps_around (σ : gmap loc ndarray) (img : loc)
  (a : ndarray) (h w ch ts : Z) :
  σ !! img = Some a → shape a = [h; w; ch] → well_formed a →
  0 ≤ ch → 0 ≤ ts → ts ≤ 2 * h - 1 → ts ≤ 2 * w - 1 →
  ∃ a' : ndarray,
    add_trigger (mk_BadNets ts) img σ = Ok (img, <[img := a']> σ)
    ∧ shape a' = [h; w; ch]
    ∧ ∀ j k c, 0 ≤ j < h → 0 ≤ k < w → 0 ≤ c < ch →
        getitem3 a' j k c
        = if in_wrapped_trigger h w ts j k then Ok 255 else getitem3 a j k c.
Proof.
  intros Hl Hsh Hwf Hch Hts Hh Hw.
  rewrite (BackdoorProps.add_trigger_array _ _ _ _ Hl). rewrite Hsh.
  rewrite getitem_first, getitem_second. bind_simpl. cbn [trigger_size].
  rewrite (fill_patch_wrap h w [ch]) by
    first [apply range_wrappable; lia | exact Hsh].
  destruct (fill_patch_within h w ch 255 (wrap h <$> range (h - 1 - ts) (h - 1))
              (wrap w <$> range (w - 1 - ts) (w - 1)) Hch) with (a := a)
    as (a' & -> & Hsh' & _ & Hd); try assumption;
    try (apply wrapped_range_within; lia).
  bind_simpl. exists a'. split; [reflexivity|]. split; [exact Hsh'|].
  intros j k c Hj Hk Hc.
  rewrite (getitem3_within a' h w ch) by assumption.
  rewrite (getitem3_within a h w ch) by assumption.
  rewrite Hd, wrapped_patch_positions by assumption.
  destruct (in_wrapped_trigger h w ts j k); reflexivity.
Qed.

(** A trigger as large as the image: every pixel is written. *)
Lemma add_trigger_wraps_around_witness :
  ∃ a' : ndarray,
    add_trigger (mk_BadNets 4) 1%positive {[ 1%positive := zeros [4; 4; 3] ]}
    = Ok (1%positive, <[1%positive := a']> {[ 1%positive := zeros [4; 4; 3] ]})
    ∧ shape a' = [4; 4; 3]
    ∧ ∀ j k c, 0 ≤ j < 4 → 0 ≤ k < 4 → 0 ≤ c < 3 →
        getitem3 a' j k c
        = if in_wrapped_trigger 4 4 4 j k then Ok 255
          else getitem3 (zeros [4; 4; 3]) j k c.
Proof.
  apply (add_trigger_wraps_around {[ 1%positive := zeros [4; 4; 3] ]} 1%positive
           (zeros [4; 4; 3]) 4 4 3 4);
    first [reflexivity | lia].
Defined.

(** *** Applying the trigger twice *)

Lemma add_trigger_fits_data (σ : gmap loc ndarray) (img : loc)
  (a : ndarray) (h w ch ts : Z) :
  σ !! img = Some a → shape a = [h; w; ch] → well_formed a →
  0 ≤ ch → 0 ≤ ts → ts ≤ h - 1 → ts ≤ w - 1 →
  ∃ a' : ndarray,
    add_trigger (mk_BadNets ts) img σ = Ok (img, <[img := a']> σ)
    ∧ shape a' = [h; w; ch]
    ∧ well_formed a'
    ∧ ∀ i : nat,
        data a' !! i
        = if existsb (fun j => existsb (fun k => in_block w ch j k i)
                                 (range (w - 1 - ts) (w - 1)))
               (range (h - 1 - ts) (h - 1))
          then Some 255 else data a !! i.
Proof.
  intros Hl Hsh Hwf Hch Hts Hh Hw.
  rewrite (BackdoorProps.add_trigger_array _ _ _ _ Hl). rewrite Hsh.
  rewrite getitem_first, getitem_second. bind_simpl. cbn [trigger_size].
  destruct (fill_patch_within h w ch 255 (range (h - 1 - ts) (h - 1))
              (range (w - 1 - ts) (w - 1)) Hch) with (a := a)
    as (a' & -> & Hsh' & Hwf' & Hd); try assumption;
    try (apply range_within; lia).
  bind_simpl. exists a'. split_and!; try assumption; reflexivity.
Qed.

(** A poisoned image is a fixed point of the transform: for a trigger that
    fits, [add_trigger] applied to the store it has just produced returns
    that very store. *)
Theorem add_trigger_idempotent (σ : gmap loc ndarray) (img : loc)
  (a : ndarray) (h w ch ts : Z) :
  σ !! img = Some a → shape a = [h; w; ch] → well_formed a →
  0 ≤ ch → 0 ≤ ts → ts ≤ h - 1 → ts ≤ w - 1 →
  ∃ σ1 : gmap loc ndarray,
    add_trigger (mk_BadNets ts) img σ = Ok (img, σ1)
    ∧ add_trigger (mk_BadNets ts) img σ1 = Ok (img, σ1).
Proof.
  intros Hl Hsh Hwf Hch Hts Hh Hw.
  destruct (add_trigger_fits_data σ img a h w ch ts)
    as (a1 & Hrun1 & Hsh1 & Hwf1 & Hd1); try assumption.
  destruct (add_trigger_fits_data (<[img := a1]> σ) img a1 h w ch ts)
    as (a2 & Hrun2 & Hsh2 & Hwf2 & Hd2); try assumption;
    [apply lookup_insert_eq|].
  exists (<[img := a1]> σ). split; [exact Hrun1|].
  rewrite Hrun2, insert_insert_eq. do 3 f_equal.
  destruct a1 as [sh1 d1], a2 as [sh2 d2]. cbn [shape data] in *.
  f_equal; [congruence|].
  apply list_eq. intros i. rewrite Hd2, Hd1.
  destruct (existsb _ (range (h - 1 - ts) (h - 1))); reflexivity.
Qed.

Lemma add_trigger_idempotent_witness :
  ∃ σ1 : gmap loc ndarray,
    add_trigger (mk_BadNets 3) 1%positive {[ 1%positive := zeros [10; 10; 3] ]}
    = Ok (1%positive, σ1)
    ∧ add_trigger (mk_BadNets 3) 1%positive σ1 = Ok (1%positive, σ1).
Proof.
  apply (add_trigger_idempotent {[ 1%positive := zeros [10; 10; 3] ]} 1%positive
           (zeros [10; 10; 3]) 10 10 3 3);
    first [reflexivity | lia].
Defined.

(** *** Blend *)

(** When the imaging library succeeds on a 3-dimensional array,
    [Blend.blend_trigger] returns a reference that did not exist before,
    bound to the converted result of the blend of the input with the resized
    trigger; the input array and every other object of the store are left as
    they were.  Unlike [BadNets], the transform does not work in place. *)
Theorem blend_trigger_returns_new_array (pil_image : Type)
  (Image_fromarray : ndarray → result pil_image)
  (Image_size : pil_image → Z * Z)
  (Image_resize : pil_image → Z * Z → result pil_image)
  (Image_blend : pil_image → pil_image → num → result pil_image)
  (np_array : pil_image → ndarray)
  (self : Blend pil_image) (σ : gmap loc ndarray) (l : loc) (a : ndarray)
  (im trig out : pil_image) :
  σ !! l = Some a → length (shape a) = 3%nat →
  Image_fromarray a = Ok im →
  Image_resize (trigger_ptn pil_image self) (Image_size im) = Ok trig →
  Image_blend im trig (alpha pil_image self) = Ok out →
  ∃ (l' : loc) (σ' : gmap loc ndarray),
    blend_trigger pil_image Image_fromarray Image_size Image_resize Image_blend
      np_array self (ObjNdarray l) σ = Ok (ObjNdarray l', σ')
    ∧ (l' ∉ dom σ)
    ∧ σ' !! l' = Some (np_array out)
    ∧ σ' !! l = Some a
    ∧ ∀ l0, (l0 ∈ dom σ) → σ' !! l0 = σ !! l0.
Proof.
  intros Hl Hdim Him Htrig Hout.
  exists (fresh (dom σ)), (<[fresh (dom σ) := np_array out]> σ).
  pose proof (is_fresh (dom σ)) as Hfresh.
  assert (∀ l0, l0 ∈ dom σ → l0 ≠ fresh (dom σ)) as Hne
    by (intros l0 Hin ->; exact (Hfresh Hin)).
  split; [|split; [exact Hfresh|split; [apply lookup_insert_eq|split]]].
  - unfold blend_trigger. rewrite Hl, Hdim. cbn [negb Z.eqb Z.of_nat Pos.of_succ_nat
      Pos.succ Pos.eqb]. rewrite Him. bind_simpl. rewrite Htrig. bind_simpl.
    rewrite Hout. reflexivity.
  - rewrite lookup_insert_ne; [exact Hl|].
    intros E. apply (Hne l); [by apply elem_of_dom_2 in Hl|by symmetry].
  - intros l0 Hin. rewrite lookup_insert_ne; [reflexivity|].
    intros E. by apply (Hne l0 Hin).
Qed.

(** An imaging library that keeps the size and returns its first image. *)
Lemma blend_trigger_returns_new_array_witness :
  ∃ (l' : loc) (σ' : gmap loc ndarray),
    blend_trigger ndarray Ok (fun _ => (5, 4)) (fun t _ => Ok t)
      (fun x _ _ => Ok x) (fun x => x)
      (mk_Blend ndarray (zeros [2; 2; 3]) (PyFloat 0x1.999999999999ap-4%float))
      (ObjNdarray 1%positive) {[ 1%positive := zeros [4; 5; 3] ]}
    = Ok (ObjNdarray l', σ')
    ∧ (l' ∉ dom ({[ 1%positive := zeros [4; 5; 3] ]} : gmap loc ndarray))
    ∧ σ' !! l' = Some (zeros [4; 5; 3])
    ∧ σ' !! 1%positive = Some (zeros [4; 5; 3])
    ∧ ∀ l0, (l0 ∈ dom ({[ 1%positive := zeros [4; 5; 3] ]} : gmap loc ndarray)) →
        σ' !! l0 = ({[ 1%positive := zeros [4; 5; 3] ]} : gmap loc ndarray) !! l0.
Proof.
  apply (blend_trigger_returns_new_array ndarray Ok (fun _ => (5, 4))
           (fun t _ => Ok t) (fun x _ _ => Ok x) (fun x => x)
           (mk_Blend ndarray (zeros [2; 2; 3]) (PyFloat 0x1.999999999999ap-4%float))
           {[ 1%positive := zeros [4; 5; 3] ]} 1%positive (zeros [4; 5; 3])
           (zeros [4; 5; 3]) (zeros [2; 2; 3]) (zeros [4; 5; 3]));
    reflexivity.
Defined.

End BackdoorMore.

(** ** model/network/se_wideresnet.py *)

Module NetMore.
Import NetSpec NetProps.

(** *** BasicBlock and CDBasicBlock *)

(** A plain block that keeps the channel count, with stride 1, is a
    pre-activation residual unit with an identity shortcut: the output has
    the shape of the input and is the raw input plus the convolutions of the
    normalised and activated input, whatever [activate_before_residual]
    says. *)
Theorem identity_block_keeps_shape (tr : bool) (c : Z) (dr : num) (abr : bool)
  (b h w : Z) (e : expr) :
  1 ≤ h → 1 ≤ w → bn_accepts tr b → drop_ok dr →
  BasicBlock.forward (BasicBlock.train tr (BasicBlock.init c c 1 dr abr))
    (mk_tensor [b; c; h; w] e)
  = Ok (mk_tensor [b; c; h; w]
          (EAdd e (after_conv2 tr c c 1 dr (activated c e)))).
Proof.
  intros Hh Hw Hbn Hdr.
  rewrite BasicBlock_forward_fits by (assumption || lia).
  unfold shortcut_values, conv1_arg. rewrite Z.eqb_refl, !down_1. reflexivity.
Qed.

Lemma identity_block_keeps_shape_witness :
  BasicBlock.forward (BasicBlock.train true (BasicBlock.init 32 32 1 (PyFloat 0) false))
    (mk_tensor [4; 32; 8; 8] EInput)
  = Ok (mk_tensor [4; 32; 8; 8]
          (EAdd EInput (after_conv2 true 32 32 1 (PyFloat 0) (activated 32 EInput)))).
Proof.
  apply (identity_block_keeps_shape true 32 (PyFloat 0) false 4 8 8 EInput);
    first [lia | reflexivity | (right; lia)].
Defined.

(** With [activate_before_residual = True] a block that changes the channel
    count replaces [x] by its normalised and activated value: [conv1] and
    the shortcut projection both read that value, and the raw input is used
    nowhere else. *)
Theorem activated_input_feeds_both_paths (tr : bool) (cin cout s : Z) (dr : num)
  (b h w : Z) (e : expr) :
  cin ≠ cout → 1 ≤ h → 1 ≤ w → 1 ≤ s → bn_accepts tr b → drop_ok dr →
  BasicBlock.forward (BasicBlock.train tr (BasicBlock.init cin cout s dr true))
    (mk_tensor [b; cin; h; w] e)
  = Ok (mk_tensor [b; cout; down h s; down w s]
          (EAdd (ECall "convShortcut" (Conv2d cin cout 1 s 0 1) (activated cin e))
             (after_conv2 tr cin cout s dr (activated cin e)))).
Proof.
  intros Hne Hh Hw Hs Hbn Hdr.
  rewrite BasicBlock_forward_fits by (assumption || lia).
  unfold shortcut_values, conv1_arg.
  destruct (Z.eqb_spec cin cout); [lia|reflexivity].
Qed.

Lemma activated_input_feeds_both_paths_witness :
  BasicBlock.forward (BasicBlock.train true (BasicBlock.init 16 32 1 (PyFloat 0) true))
    (mk_tensor [4; 16; 32; 32] EInput)
  = Ok (mk_tensor [4; 32; down 32 1; down 32 1]
          (EAdd (ECall "convShortcut" (Conv2d 16 32 1 1 0 1) (activated 16 EInput))
             (after_conv2 true 16 32 1 (PyFloat 0) (activated 16 EInput)))).
Proof.
  apply (activated_input_feeds_both_paths true 16 32 1 (PyFloat 0) 4 32 32 EInput);
    first [lia | reflexivity | (right; lia)].
Defined.

(** The attention-gated block computes the shortcut and the convolutions
    of the plain block of the same configuration; the two outputs differ
    only by the product with the gate.  The channel counts are positive, and
    for variant 1, whose gating module narrows to [out_planes // 16]
    channels, there are at least 16 output channels. *)
Theorem gated_block_extends_plain_block (tr : bool) (cin cout s : Z) (dr : num)
  (abr : bool) (av : Z) (b h w : Z) (e : expr) :
  1 ≤ h → 1 ≤ w → 1 ≤ s → 1 ≤ cin → 1 ≤ cout → (av = 1 → 16 ≤ cout) →
  (cin = cout → s = 1) →
  bn_accepts tr b → drop_ok dr → av = 1 ∨ av = 2 ∨ av = 3 →
  ∃ (sh : list Z) (sc out gate : expr),
    BasicBlock.forward (BasicBlock.train tr (BasicBlock.init cin cout s dr abr))
      (mk_tensor [b; cin; h; w] e)
    = Ok (mk_tensor sh (EAdd sc out))
    ∧ CDBasicBlock.forward
        (CDBasicBlock.train tr (CDBasicBlock.init cin cout s dr abr av))
        (mk_tensor [b; cin; h; w] e)
      = Ok (VTuple [VTensor (mk_tensor sh (EAdd sc (EMul out gate)));
                    VTensor (mk_tensor [b; cout; 1; 1] gate)])
    ∧ gate = gate_values av cout out.
Proof.
  intros Hh Hw Hs _ Hc _ Heq Hbn Hdr Hav.
  rewrite BasicBlock_forward_fits by assumption.
  rewrite CDBasicBlock_forward_fits by assumption.
  eexists _, _, _, _. split; [reflexivity|]. split; reflexivity.
Qed.

Lemma gated_block_extends_plain_block_witness :
  ∃ (sh : list Z) (sc out gate : expr),
    BasicBlock.forward (BasicBlock.train true (BasicBlock.init 64 128 2 (PyFloat 0) false))
      (mk_tensor [4; 64; 16; 16] EInput)
    = Ok (mk_tensor sh (EAdd sc out))
    ∧ CDBasicBlock.forward
        (CDBasicBlock.train true (CDBasicBlock.init 64 128 2 (PyFloat 0) false 1))
        (mk_tensor [4; 64; 16; 16] EInput)
      = Ok (VTuple [VTensor (mk_tensor sh (EAdd sc (EMul out gate)));
                    VTensor (mk_tensor [4; 128; 1; 1] gate)])
    ∧ gate = gate_values 1 128 out.
Proof.
  apply (gated_block_extends_plain_block true 64 128 2 (PyFloat 0) false 1
           4 16 16 EInput);
    first [lia | reflexivity | (right; lia)].
Defined.

(** *** Dropout *)

Lemma dropout_step_eval (dr : num) (x : tensor) :
  drop_ok dr →
  (if gt_int dr 0 then dropout x dr false else Ok x) = Ok x.
Proof.
  intros Hdr. unfold dropout. red in Hdr. rewrite Hdr.
  destruct (gt_int dr 0); reflexivity.
Qed.

Ltac peel :=
  repeat match goal with
    | |- (?m ≫= _) = (?m ≫= _) =>
        let E := fresh "E" in
        destruct m eqn:E; bind_simpl; [|reflexivity]
    | |- (match ?p with (_, _) => _ end) = _ => destruct p
    end.

Lemma residual_eval_mode (cin cout s : Z) (dr : num) (abr : bool) (av : Z)
  (inp : tensor) :
  drop_ok dr →
  CDBasicBlock.residual
    (CDBasicBlock.train false (CDBasicBlock.init cin cout s dr abr av)) inp
  = CDBasicBlock.residual
      (CDBasicBlock.train false (CDBasicBlock.init cin cout s (PyFloat 0) abr av)) inp.
Proof.
  intros Hdr. unfold CDBasicBlock.residual. block_fields. peel.
  rewrite (dropout_step_eval dr) by exact Hdr.
  rewrite (dropout_step_eval (PyFloat 0)) by reflexivity. reflexivity.
Qed.

(** In evaluation mode the dropout rate plays no part: on every input, a
    block with a rate in [0, 1] returns what the block with rate 0.0
    returns, be it a tensor or an error.  This holds for the plain and for
    the attention-gated block. *)
Theorem dropout_is_off_in_eval_mode (cin cout s : Z) (dr : num) (abr : bool)
  (av : Z) (x : tensor) :
  drop_ok dr →
  BasicBlock.forward (BasicBlock.train false (BasicBlock.init cin cout s dr abr)) x
  = BasicBlock.forward
      (BasicBlock.train false (BasicBlock.init cin cout s (PyFloat 0) abr)) x
  ∧ CDBasicBlock.forward
      (CDBasicBlock.train false (CDBasicBlock.init cin cout s dr abr av)) x
    = CDBasicBlock.forward
        (CDBasicBlock.train false (CDBasicBlock.init cin cout s (PyFloat 0) abr av)) x.
Proof.
  intros Hdr. split.
  - unfold BasicBlock.forward, BasicBlock.activate, BasicBlock.conv1_input.
    block_fields. peel.
    rewrite (dropout_step_eval dr) by exact Hdr.
    rewrite (dropout_step_eval (PyFloat 0)) by reflexivity. reflexivity.
  - unfold CDBasicBlock.forward, CDBasicBlock.activate, CDBasicBlock.conv1_input,
      CDBasicBlock.call_attn, CDBasicBlock.shortcut.
    cbn [CDBasicBlock.train CDBasicBlock.init CDBasicBlock.bn1 CDBasicBlock.relu1
         CDBasicBlock.equalInOut CDBasicBlock.convShortcut
         CDBasicBlock.activate_before_residual CDBasicBlock.attn
         CDBasicBlock.training].
    fold (CDBasicBlock.init cin cout s dr abr av).
    fold (CDBasicBlock.train false (CDBasicBlock.init cin cout s dr abr av)).
    fold (CDBasicBlock.init cin cout s (PyFloat 0) abr av).
    fold (CDBasicBlock.train false (CDBasicBlock.init cin cout s (PyFloat 0) abr av)).
    peel. rewrite (residual_eval_mode cin cout s dr abr av) by exact Hdr.
    reflexivity.
Qed.

Lemma dropout_is_off_in_eval_mode_witness :
  BasicBlock.forward
    (BasicBlock.train false (BasicBlock.init 16 32 1 (PyFloat 0.5) false))
    (mk_tensor [1; 16; 8; 8] EInput)
  = BasicBlock.forward
      (BasicBlock.train false (BasicBlock.init 16 32 1 (PyFloat 0) false))
      (mk_tensor [1; 16; 8; 8] EInput)
  ∧ CDBasicBlock.forward
      (CDBasicBlock.train false (CDBasicBlock.init 16 32 1 (PyFloat 0.5) false 2))
      (mk_tensor [1; 16; 8; 8] EInput)
    = CDBasicBlock.forward
        (CDBasicBlock.train false (CDBasicBlock.init 16 32 1 (PyFloat 0) false 2))
        (mk_tensor [1; 16; 8; 8] EInput).
Proof.
  apply (dropout_is_off_in_eval_mode 16 32 1 (PyFloat 0.5) false 2
           (mk_tensor [1; 16; 8; 8] EInput)).
  reflexivity.
Defined.

(** In training mode a positive dropout rate puts the dropout between
    [relu2] and [conv2], on the residual path only. *)
Theorem dropout_sits_between_relu2_and_conv2 (cin cout s : Z) (dr : num)
  (abr : bool) (b h w : Z) (e : expr) :
  gt_int dr 0 = true → drop_ok dr →
  1 ≤ h → 1 ≤ w → 1 ≤ s → (cin = cout → s = 1) → 2 ≤ b →
  BasicBlock.forward (BasicBlock.train true (BasicBlock.init cin cout s dr abr))
    (mk_tensor [b; cin; h; w] e)
  = Ok (mk_tensor [b; cout; down h s; down w s]
          (EAdd (shortcut_values cin cout s abr e)
             (ECall "conv2" (Conv2d cout cout 3 1 1 1)
                (EDropout dr
                   (ECall "relu2" LeakyReLU
                      (ECall "bn2" (BatchNorm2d cout)
                         (ECall "conv1" (Conv2d cin cout 3 s 1 1)
                            (conv1_arg cin cout abr e)))))))).
Proof.
  intros Hpos Hdr Hh Hw Hs Heq Hb.
  rewrite BasicBlock_forward_fits by first [assumption | right; lia].
  unfold after_conv2, dropped. rewrite Hpos. reflexivity.
Qed.

Lemma dropout_sits_between_relu2_and_conv2_witness :
  BasicBlock.forward
    (BasicBlock.train true (BasicBlock.init 16 32 1 (PyFloat 0.5) false))
    (mk_tensor [4; 16; 8; 8] EInput)
  = Ok (mk_tensor [4; 32; down 8 1; down 8 1]
          (EAdd (shortcut_values 16 32 1 false EInput)
             (ECall "conv2" (Conv2d 32 32 3 1 1 1)
                (EDropout (PyFloat 0.5)
                   (ECall "relu2" LeakyReLU
                      (ECall "bn2" (BatchNorm2d 32)
                         (ECall "conv1" (Conv2d 16 32 3 1 1 1)
                            (conv1_arg 16 32 false EInput)))))))).
Proof.
  apply (dropout_sits_between_relu2_and_conv2 16 32 1 (PyFloat 0.5) false
           4 8 8 EInput);
    first [lia | reflexivity].
Defined.

(** A dropout rate above 1 makes [forward] raise [ValueError] on an input
    that fits the block, in training and in evaluation mode alike: the rate
    is checked before the mode is looked at. *)
Theorem dropout_rate_above_one_raises (tr : bool) (cin cout s : Z) (dr : num)
  (abr : bool) (av : Z) (b h w : Z) (e : expr) :
  gt_int dr 0 = true → gt_int dr 1 = true →
  1 ≤ h → 1 ≤ w → 1 ≤ s → bn_accepts tr b →
  BasicBlock.forward (BasicBlock.train tr (BasicBlock.init cin cout s dr abr))
    (mk_tensor [b; cin; h; w] e)
  = Raise ValueError
  ∧ CDBasicBlock.forward
      (CDBasicBlock.train tr (CDBasicBlock.init cin cout s dr abr av))
      (mk_tensor [b; cin; h; w] e)
    = Raise ValueError.
Proof.
  intros Hpos Hbig Hh Hw Hs Hbn.
  assert (∀ x, (if gt_int dr 0 then dropout x dr tr else Ok x) = Raise ValueError)
    as Hdrop.
  { intros x. rewrite Hpos. unfold dropout. rewrite Hbig, orb_true_r. reflexivity. }
  split.
  - unfold BasicBlock.forward, BasicBlock.activate, BasicBlock.conv1_input.
    block_fields.
    destruct (cin =? cout), abr; run_layers; rewrite Hdrop; reflexivity.
  - unfold CDBasicBlock.forward, CDBasicBlock.activate, CDBasicBlock.conv1_input,
      CDBasicBlock.residual.
    block_fields.
    destruct (cin =? cout), abr; run_layers; rewrite Hdrop; reflexivity.
Qed.

Lemma dropout_rate_above_one_raises_witness :
  BasicBlock.forward
    (BasicBlock.train false (BasicBlock.init 16 32 1 (PyFloat 1.5) false))
    (mk_tensor [1; 16; 8; 8] EInput)
  = Raise ValueError
  ∧ CDBasicBlock.forward
      (CDBasicBlock.train false (CDBasicBlock.init 16 32 1 (PyFloat 1.5) false 1))
      (mk_tensor [1; 16; 8; 8] EInput)
    = Raise ValueError.
Proof.
  apply (dropout_rate_above_one_raises false 16 32 1 (PyFloat 1.5) false 1
           1 8 8 EInput);
    first [lia | reflexivity | (left; reflexivity)].
Defined.

(** *** Shortcut and stride *)

Lemma broadcast_rows_differ (b c h w h' w' : Z) :
  h ≠ h' → h ≠ 1 → h' ≠ 1 →
  broadcast [b; c; h; w] [b; c; h'; w'] = Raise RuntimeError.
Proof.
  intros H1 H2 H3. unfold broadcast.
  change (reverse [b; c; h; w]) with [w; h; c; b].
  change (reverse [b; c; h'; w']) with [w'; h'; c; b].
  cbn [broadcast_rev]. bind_simpl. rewrite !Z.eqb_refl. bind_simpl.
  destruct (Z.eqb_spec h h'); [lia|]. destruct (Z.eqb_spec h 1); [lia|].
  destruct (Z.eqb_spec h' 1); [lia|]. reflexivity.
Qed.

(** A plain block that keeps the channel count uses the identity shortcut
    whatever its stride is.  With a stride of 2 or more and an input of more
    than [stride] rows the two operands of the addition have different
    heights, and [forward] raises [RuntimeError]. *)
Theorem identity_shortcut_ignores_stride (tr : bool) (c s : Z) (dr : num)
  (abr : bool) (b h w : Z) (e : expr) :
  2 ≤ s → s + 1 ≤ h → 1 ≤ w → bn_accepts tr b → drop_ok dr →
  BasicBlock.convShortcut (BasicBlock.train tr (BasicBlock.init c c s dr abr)) = None
  ∧ BasicBlock.forward (BasicBlock.train tr (BasicBlock.init c c s dr abr))
      (mk_tensor [b; c; h; w] e)
    = Raise RuntimeError.
Proof.
  intros Hs Hh Hw Hbn Hdr.
  assert (1 ≤ (h - 1) / s) as Hq by (apply Z.div_le_lower_bound; lia).
  assert ((h - 1) / s * s ≤ h - 1) as Hm
    by (rewrite Z.mul_comm; apply Z.mul_div_le; lia).
  assert (down h s ≠ h ∧ down h s ≠ 1) as [Hd1 Hd2] by (unfold down; nia).
  split.
  - block_fields. rewrite Z.eqb_refl. reflexivity.
  - unfold BasicBlock.forward, BasicBlock.activate, BasicBlock.conv1_input.
    block_fields. rewrite Z.eqb_refl. cbn [negb andb].
    repeat first
      [ rewrite down_1
      | rewrite call_bn by dims
      | rewrite call_conv3 by dims
      | rewrite call_pointwise by tauto
      | rewrite dropout_step by assumption
      | progress bind_simpl
      | progress cbn [t_shape t_data negb andb call_opt read_local] ].
    unfold add. cbn [t_shape t_data].
    rewrite broadcast_rows_differ by lia. reflexivity.
Qed.

Lemma identity_shortcut_ignores_stride_witness :
  BasicBlock.convShortcut
    (BasicBlock.train true (BasicBlock.init 16 16 2 (PyFloat 0) false)) = None
  ∧ BasicBlock.forward
      (BasicBlock.train true (BasicBlock.init 16 16 2 (PyFloat 0) false))
      (mk_tensor [4; 16; 8; 8] EInput)
    = Raise RuntimeError.
Proof.
  apply (identity_shortcut_ignores_stride true 16 2 (PyFloat 0) false 4 8 8 EInput);
    first [lia | reflexivity | (right; lia)].
Defined.

(** *** The stage builders *)

(** Both stage builders return [n] blocks: the first one makes the
    transition ([in_planes] to [out_planes], with the given stride), the
    [n - 1] others keep the shape ([out_planes] to [out_planes], stride 1).
    Every block gets the same dropout rate and the same
    [activate_before_residual] flag, and every gated block the same
    attention variant. *)
Theorem stage_builders_blocks (av n cin cout s : Z) (dr : num) (abr : bool) :
  1 ≤ n → cin ≠ 0 → s ≠ 0 →
  CDWideResNet._make_layer n cin cout s dr abr
  = BasicBlock.init cin cout s dr abr
    :: replicate (Z.to_nat (n - 1)) (BasicBlock.init cout cout 1 dr abr)
  ∧ CDWideResNet._make_cd_layer av n cin cout s dr abr
    = CDBasicBlock.init cin cout s dr abr av
      :: replicate (Z.to_nat (n - 1)) (CDBasicBlock.init cout cout 1 dr abr av)
  ∧ Z.of_nat (length (CDWideResNet._make_layer n cin cout s dr abr)) = n
  ∧ Z.of_nat (length (CDWideResNet._make_cd_layer av n cin cout s dr abr)) = n.
Proof.
  intros Hn Hc Hs.
  rewrite make_layer_blocks, make_cd_layer_blocks by assumption.
  split; [reflexivity|]. split; [reflexivity|].
  cbn [length]. rewrite !length_replicate. lia.
Qed.

Lemma stage_builders_blocks_witness :
  CDWideResNet._make_layer 4 16 32 1 (PyFloat 0) true
  = BasicBlock.init 16 32 1 (PyFloat 0) true
    :: replicate (Z.to_nat (4 - 1)) (BasicBlock.init 32 32 1 (PyFloat 0) true)
  ∧ CDWideResNet._make_cd_layer 1 4 16 32 1 (PyFloat 0) true
    = CDBasicBlock.init 16 32 1 (PyFloat 0) true 1
      :: replicate (Z.to_nat (4 - 1)) (CDBasicBlock.init 32 32 1 (PyFloat 0) true 1)
  ∧ Z.of_nat (length (CDWideResNet._make_layer 4 16 32 1 (PyFloat 0) true)) = 4
  ∧ Z.of_nat (length (CDWideResNet._make_cd_layer 1 4 16 32 1 (PyFloat 0) true)) = 4.
Proof.
  apply (stage_builders_blocks 1 4 16 32 1 (PyFloat 0) true); lia.
Defined.

(** The [a and b or c] idiom of the builders falls through to [c] when [b]
    is zero: a stride of 0 builds the stage of stride 1, and 0 input
    channels build the stage whose first block already has [out_planes]
    input channels. *)
Theorem stage_builders_zero_arguments (av n cin cout s : Z) (dr : num) (abr : bool) :
  CDWideResNet._make_layer n cin cout 0 dr abr
  = CDWideResNet._make_layer n cin cout 1 dr abr
  ∧ CDWideResNet._make_layer n 0 cout s dr abr
    = CDWideResNet._make_layer n cout cout s dr abr
  ∧ CDWideResNet._make_cd_layer av n cin cout 0 dr abr
    = CDWideResNet._make_cd_layer av n cin cout 1 dr abr
  ∧ CDWideResNet._make_cd_layer av n 0 cout s dr abr
    = CDWideResNet._make_cd_layer av n cout cout s dr abr.
Proof.
  assert (∀ a : bool, and_or a 0 1 = and_or a 1 1) as Hstride
    by (intros []; reflexivity).
  assert (∀ a : bool, and_or a 0 cout = and_or a cout cout) as Hplanes.
  { intros a. unfold and_or. cbn [Z.eqb negb]. rewrite andb_false_r.
    destruct (a && negb (cout =? 0)); reflexivity. }
  unfold CDWideResNet._make_layer, CDWideResNet._make_cd_layer.
  split_and!; apply list_fmap_ext; intros i x _;
    rewrite ?Hstride, ?Hplanes; reflexivity.
Qed.

(** *** Construction and inputs that cannot work *)

Lemma range_nonpositive (n : Z) : n ≤ 0 → range 0 n = [].
Proof.
  intros Hn. unfold range, seqZ.
  replace (Z.to_nat (n - 0)) with 0%nat by lia. reflexivity.
Qed.

(** The depths 4, -2, -8, ... pass the assertion and, with a positive
    widening factor and a positive number of classes, give a network whose
    three stages are empty.  Its [forward] returns on no input, in no mode.
    On a batch of images the first convolution runs, the loop of lines 143
    to 150 has no block to go through, and [torch.cat] is called with the
    empty list, which it refuses. *)
Theorem network_without_blocks_cannot_run (nc depth wf : Z) (dr : num) (av : Z)
  (partial : num) :
  (depth - 4) mod 6 = 0 → depth ≤ 4 → 1 ≤ wf → 1 ≤ nc →
  ∃ net,
    CDWideResNet.init nc depth wf dr av partial = Ok net
    ∧ CDWideResNet.block1 net = []
    ∧ CDWideResNet.block2 net = []
    ∧ CDWideResNet.block3 net = []
    ∧ (∀ tr x, is_ok (CDWideResNet.forward (CDWideResNet.train tr net) x) = false)
    ∧ is_ok (cat1 []) = false
    ∧ ∀ tr b h w e, 1 ≤ h → 1 ≤ w →
        CDWideResNet.features_and_mask (CDWideResNet.train tr net)
          (mk_tensor [b; 3; h; w] e)
        = (mask ← cat1 [];
           Ok (mk_tensor [b; 16; h; w] (ECall "conv1" (Conv2d 3 16 3 1 1 1) e),
               mask)).
Proof.
  intros Hm Hd Hwf Hnc.
  assert ((depth - 4) / 6 ≤ 0) as Hn
    by (apply Z.div_le_upper_bound; lia).
  exists (built nc depth wf dr av partial).
  split; [apply init_valid_depth; exact Hm|].
  assert (∀ tr x,
            CDWideResNet.features_and_mask
              (CDWideResNet.train tr (built nc depth wf dr av partial)) x
            = out ← call tr "conv1" (Conv2d 3 16 3 1 1 1) x;
              mask ← cat1 []; Ok (out, mask))
    as Hfm.
  { intros tr x. unfold CDWideResNet.features_and_mask, built.
    net_fields.
    unfold CDWideResNet._make_layer, CDWideResNet._make_cd_layer.
    rewrite (range_nonpositive _ Hn). cbn [fmap list_fmap].
    destruct (call tr "conv1" (Conv2d 3 16 3 1 1 1) x); reflexivity. }
  unfold built at 1 2 3. net_fields.
  unfold CDWideResNet._make_layer, CDWideResNet._make_cd_layer.
  rewrite (range_nonpositive _ Hn). cbn [fmap list_fmap].
  split_and!; try reflexivity.
  - intros tr x. unfold CDWideResNet.forward. rewrite Hfm.
    destruct (call tr "conv1" (Conv2d 3 16 3 1 1 1) x); reflexivity.
  - intros tr b h w e Hh Hw. rewrite Hfm.
    rewrite call_conv3 by assumption. bind_simpl. rewrite !down_1. reflexivity.
Qed.

Lemma network_without_blocks_cannot_run_witness :
  ∃ net,
    CDWideResNet.init 10 4 2 (PyFloat 0) 1 (PyInt 1) = Ok net
    ∧ CDWideResNet.block1 net = []
    ∧ CDWideResNet.block2 net = []
    ∧ CDWideResNet.block3 net = []
    ∧ (∀ tr x, is_ok (CDWideResNet.forward (CDWideResNet.train tr net) x) = false)
    ∧ is_ok (cat1 []) = false
    ∧ ∀ tr b h w e, 1 ≤ h → 1 ≤ w →
        CDWideResNet.features_and_mask (CDWideResNet.train tr net)
          (mk_tensor [b; 3; h; w] e)
        = (mask ← cat1 [];
           Ok (mk_tensor [b; 16; h; w] (ECall "conv1" (Conv2d 3 16 3 1 1 1) e),
               mask)).
Proof.
  apply (network_without_blocks_cannot_run 10 4 2 (PyFloat 0) 1 (PyInt 1));
    first [reflexivity | lia].
Defined.

(** An input whose channel count is not 3 is refused by the first
    convolution with [RuntimeError], by every network and in every mode. *)
Theorem forward_needs_three_channels (nc depth wf : Z) (dr : num) (av : Z)
  (partial : num) (net : CDWideResNet.t) (tr : bool) (b c h w : Z) (e : expr) :
  CDWideResNet.init nc depth wf dr av partial = Ok net → c ≠ 3 →
  CDWideResNet.forward (CDWideResNet.train tr net) (mk_tensor [b; c; h; w] e)
  = Raise RuntimeError.
Proof.
  intros Hinit Hc.
  destruct (decide ((depth - 4) mod 6 = 0)) as [Hm|Hm];
    [|rewrite init_invalid_depth in Hinit by exact Hm; discriminate].
  rewrite init_valid_depth in Hinit by exact Hm. injection Hinit as <-.
  unfold CDWideResNet.forward, CDWideResNet.features_and_mask.
  change (CDWideResNet.training (CDWideResNet.train tr _)) with tr.
  change (CDWideResNet.conv1 (CDWideResNet.train tr (built nc depth wf dr av partial)))
    with (Conv2d 3 16 3 1 1 1).
  assert (call tr "conv1" (Conv2d 3 16 3 1 1 1) (mk_tensor [b; c; h; w] e)
          = Raise RuntimeError) as ->; [|reflexivity].
  unfold call, layer_shape. cbn [t_shape].
  destruct (Z.eqb_spec c 3); [lia|]. reflexivity.
Qed.

Lemma forward_needs_three_channels_witness :
  CDWideResNet.forward
    (CDWideResNet.train true (built 10 28 2 (PyFloat 0) 1 (PyInt 1)))
    (mk_tensor [4; 1; 32; 32] EInput)
  = Raise RuntimeError.
Proof.
  apply (forward_needs_three_channels 10 28 2 (PyFloat 0) 1 (PyInt 1)
           (built 10 28 2 (PyFloat 0) 1 (PyInt 1)) true 4 1 32 32 EInput);
    first [reflexivity | lia].
Defined.

(** *** The gate loop, whatever the collected shape is *)

(** The loop over blocks of stage 3 that keep the shape, given the shape
    [csh] that lines 146 to 150 give to a squeezed gate. *)
Lemma block3_loop_collects (self : CDWideResNet.t) (tr : bool) (wf : Z)
  (csh : list Z) (dr : num) (abr : bool) (av b h w : Z) (k : nat) :
  (∀ e, ∃ e', CDWideResNet.collected self
                (mk_tensor (squeeze_shape [b; 64 * wf; 1; 1]) e)
              = Ok (mk_tensor csh e')) →
  1 ≤ wf → bn_accepts tr b → 1 ≤ h → 1 ≤ w → drop_ok dr →
  av = 1 ∨ av = 2 ∨ av = 3 →
  ∀ (e : expr) (acc : list tensor), ∃ e' ms,
    CDWideResNet.block3_loop self
      (replicate k (CDBasicBlock.train tr
                      (CDBasicBlock.init (64 * wf) (64 * wf) 1 dr abr av)))
      (mk_tensor [b; 64 * wf; h; w] e) acc
    = Ok (mk_tensor [b; 64 * wf; h; w] e', acc ++ ms)
    ∧ length ms = k
    ∧ Forall (fun m => t_shape m = csh) ms.
Proof.
  intros Hcol Hw1 Hbn Hh Hw Hdr Hav.
  induction k as [|k IH]; intros e acc.
  - exists e, []. rewrite app_nil_r. split_and!; [reflexivity..|constructor].
  - cbn [replicate CDWideResNet.block3_loop].
    destruct (squeezed_gate_fits tr (64 * wf) (64 * wf) 1 dr abr av b h w e)
      as (e1 & e2 & ->); try assumption; try lia.
    bind_simpl. destruct (Hcol e2) as (e3 & ->). bind_simpl. rewrite !down_1.
    destruct (IH e1 (acc ++ [mk_tensor csh e3])) as (e' & ms & -> & Hlen & Hall).
    exists e', (mk_tensor csh e3 :: ms).
    rewrite <- app_assoc. split; [reflexivity|].
    split; [cbn; lia|]. constructor; [reflexivity|assumption].
Qed.

(** The whole of stage 3, in the same generality. *)
Lemma block3_stage_collects (self : CDWideResNet.t) (tr : bool) (n wf : Z)
  (csh : list Z) (dr : num) (av b h w : Z) (e : expr) :
  (∀ e, ∃ e', CDWideResNet.collected self
                (mk_tensor (squeeze_shape [b; 64 * wf; 1; 1]) e)
              = Ok (mk_tensor csh e')) →
  1 ≤ n → 1 ≤ wf → bn_accepts tr b → 1 ≤ h → 1 ≤ w → drop_ok dr →
  av = 1 ∨ av = 2 ∨ av = 3 →
  ∃ e' m ms,
    CDWideResNet.block3_loop self
      (CDBasicBlock.train tr
         <$> CDWideResNet._make_cd_layer av n (32 * wf) (64 * wf) 2 dr false)
      (mk_tensor [b; 32 * wf; h; w] e) []
    = Ok (mk_tensor [b; 64 * wf; down h 2; down w 2] e', m :: ms)
    ∧ Z.of_nat (length (m :: ms)) = n
    ∧ Forall (fun m => t_shape m = csh) (m :: ms).
Proof.
  intros Hcol Hn Hw1 Hbn Hh Hw Hdr Hav.
  rewrite make_cd_layer_blocks by lia.
  cbn [fmap list_fmap CDWideResNet.block3_loop].
  destruct (squeezed_gate_fits tr (32 * wf) (64 * wf) 2 dr false av b h w e)
    as (e1 & e2 & ->); try assumption; try lia.
  bind_simpl. destruct (Hcol e2) as (e3 & ->). bind_simpl.
  change (list_fmap _ _ (CDBasicBlock.train tr))
    with (fmap (M:=list) (CDBasicBlock.train tr)).
  rewrite fmap_replicate.
  destruct (block3_loop_collects self tr wf csh dr false av b (down h 2) (down w 2)
              (Z.to_nat (n - 1)) Hcol Hw1 Hbn) with (e := e1)
              (acc := [] ++ [mk_tensor csh e3])
    as (e' & ms & -> & Hlen & Hall);
    try assumption; try (apply down_pos; lia).
  exists e', (mk_tensor csh e3), ms.
  split; [reflexivity|]. split; [cbn [length]; lia|].
  constructor; [reflexivity|assumption].
Qed.

(** The stages before the gate loop. *)
Lemma stages_1_and_2 (nc depth wf : Z) (dr : num) (av : Z) (partial : num)
  (tr : bool) (b h w : Z) (e : expr) :
  10 ≤ depth → 1 ≤ wf → bn_accepts tr b → 1 ≤ h → 1 ≤ w → drop_ok dr →
  ∃ e2,
    (out ← call tr "conv1" (Conv2d 3 16 3 1 1 1) (mk_tensor [b; 3; h; w] e);
     out ← CDWideResNet.sequential
             (BasicBlock.train tr
                <$> CDWideResNet._make_layer ((depth - 4) / 6) 16 (16 * wf) 1 dr true)
             out;
     CDWideResNet.sequential
       (BasicBlock.train tr
          <$> CDWideResNet._make_layer ((depth - 4) / 6) (16 * wf) (32 * wf) 2
                dr false)
       out)
    = Ok (mk_tensor [b; 32 * wf; down h 2; down w 2] e2).
Proof.
  intros Hd Hwf Hbn Hh Hw Hdr.
  assert (1 ≤ (depth - 4) / 6) as Hn by (apply Z.div_le_lower_bound; lia).
  rewrite call_conv3 by assumption. bind_simpl. rewrite !down_1.
  destruct (stage_shape tr ((depth - 4) / 6) 16 (16 * wf) 1 dr true b h w
              (ECall "conv1" (Conv2d 3 16 3 1 1 1) e))
    as (e1 & ->); try assumption; try lia.
  bind_simpl. rewrite !down_1.
  destruct (stage_shape tr ((depth - 4) / 6) (16 * wf) (32 * wf) 2 dr false b h w e1)
    as (e2 & ->); try assumption; try lia.
  eauto.
Qed.

(** Lines 138 to 151 in terms of the two parts above. *)
Lemma features_and_mask_unfold (nc depth wf : Z) (dr : num) (av : Z)
  (partial : num) (tr : bool) (x : tensor) :
  CDWideResNet.features_and_mask
    (CDWideResNet.train tr (built nc depth wf dr av partial)) x
  = out ← (out ← call tr "conv1" (Conv2d 3 16 3 1 1 1) x;
           out ← CDWideResNet.sequential
                   (BasicBlock.train tr
                      <$> CDWideResNet._make_layer ((depth - 4) / 6) 16 (16 * wf) 1
                            dr true)
                   out;
           CDWideResNet.sequential
             (BasicBlock.train tr
                <$> CDWideResNet._make_layer ((depth - 4) / 6) (16 * wf) (32 * wf) 2
                      dr false)
             out);
    '(out, mask_per_layer) ←
       CDWideResNet.block3_loop
         (CDWideResNet.train tr (built nc depth wf dr av partial))
         (CDBasicBlock.train tr
            <$> CDWideResNet._make_cd_layer av ((depth - 4) / 6) (32 * wf)
                  (64 * wf) 2 dr false)
         out [];
    mask ← cat1 mask_per_layer;
    Ok (out, mask).
Proof.
  unfold CDWideResNet.features_and_mask.
  change (CDWideResNet.training (CDWideResNet.train tr _)) with tr.
  change (CDWideResNet.conv1 (CDWideResNet.train tr (built nc depth wf dr av partial)))
    with (Conv2d 3 16 3 1 1 1).
  change (CDWideResNet.block1 (CDWideResNet.train tr (built nc depth wf dr av partial)))
    with (BasicBlock.train tr
            <$> CDWideResNet._make_layer ((depth - 4) / 6) 16 (16 * wf) 1 dr true).
  change (CDWideResNet.block2 (CDWideResNet.train tr (built nc depth wf dr av partial)))
    with (BasicBlock.train tr
            <$> CDWideResNet._make_layer ((depth - 4) / 6) (16 * wf) (32 * wf) 2
                  dr false).
  change (CDWideResNet.block3 (CDWideResNet.train tr (built nc depth wf dr av partial)))
    with (CDBasicBlock.train tr
            <$> CDWideResNet._make_cd_layer av ((depth - 4) / 6) (32 * wf)
                  (64 * wf) 2 dr false).
  destruct (call tr "conv1" (Conv2d 3 16 3 1 1 1) x) as [o1|]; bind_simpl;
    [|reflexivity].
  destruct (CDWideResNet.sequential _ o1) as [o2|]; bind_simpl; [|reflexivity].
  reflexivity.
Qed.

(** The classifier head, from a feature map of stage 3. *)
Lemma head_fits (nc depth wf : Z) (dr : num) (av : Z) (partial : num)
  (tr : bool) (b h w : Z) (e1 : expr) (mask : tensor) (x : tensor) :
  1 ≤ wf → bn_accepts tr b → 1 ≤ h → 1 ≤ w →
  CDWideResNet.features_and_mask
    (CDWideResNet.train tr (built nc depth wf dr av partial)) x
  = Ok (mk_tensor [b; 64 * wf; h; w] e1, mask) →
  ∃ e',
    CDWideResNet.forward (CDWideResNet.train tr (built nc depth wf dr av partial)) x
    = Ok (VTensor (mk_tensor [b; nc] e')).
Proof.
  intros Hwf Hbn Hh Hw Hfm. unfold CDWideResNet.forward. rewrite Hfm. bind_simpl.
  change (CDWideResNet.training (CDWideResNet.train tr _)) with tr.
  change (CDWideResNet.bn1 (CDWideResNet.train tr (built nc depth wf dr av partial)))
    with (BatchNorm2d (64 * wf)).
  change (CDWideResNet.relu (CDWideResNet.train tr (built nc depth wf dr av partial)))
    with LeakyReLU.
  change (CDWideResNet.fc (CDWideResNet.train tr (built nc depth wf dr av partial)))
    with (Linear (64 * wf) nc).
  change (CDWideResNet.channels (CDWideResNet.train tr (built nc depth wf dr av partial)))
    with (64 * wf).
  rewrite call_bn by assumption. bind_simpl.
  rewrite call_pointwise by tauto. bind_simpl. cbn [t_shape t_data].
  unfold adaptive_avg_pool2d, layer_shape. cbn [t_shape t_data].
  destruct (Z.ltb_spec 0 (64 * wf)); [|lia].
  destruct (Z.ltb_spec 0 h); [|lia]. destruct (Z.ltb_spec 0 w); [|lia].
  cbn [andb]. bind_simpl.
  unfold view_rows. cbn [t_shape t_data].
  replace (numel [b; 64 * wf; 1; 1]) with (b * (64 * wf))
    by (unfold numel; cbn [foldr]; lia).
  rewrite Z.mod_mul by lia. rewrite Z.div_mul by lia.
  destruct (Z.eqb_spec (64 * wf) 0); [lia|]. cbn [negb andb Z.eqb]. bind_simpl.
  unfold call, layer_shape. cbn [t_shape t_data].
  change (reverse [b; 64 * wf]) with [64 * wf; b]. cbv beta iota.
  rewrite Z.eqb_refl. bind_simpl.
  change (reverse [nc; b]) with [b; nc]. eauto.
Qed.

(** *** A batch of one image *)

(** In evaluation mode a batch of one image never gets through [forward],
    for any valid configuration and any image size: [squeeze()] leaves the
    gates with one axis, and then either the slice [mask[:, 0:k]]
    ([partial < 1]) or [torch.cat(..., dim=1)] raises [IndexError]. *)
Theorem single_image_is_refused (nc depth wf : Z) (dr : num) (av : Z)
  (partial : num) (h w : Z) (e : expr) :
  (depth - 4) mod 6 = 0 → 10 ≤ depth → 1 ≤ wf → drop_ok dr →
  av = 1 ∨ av = 2 ∨ av = 3 → 1 ≤ h → 1 ≤ w →
  lt_int partial 1 = false
  ∨ (∃ p k, mul_int (64 * wf) partial = Ok p ∧ int p = Ok k) →
  ∃ net,
    CDWideResNet.init nc depth wf dr av partial = Ok net
    ∧ CDWideResNet.forward (CDWideResNet.train false net)
        (mk_tensor [1; 3; h; w] e)
      = Raise IndexError.
Proof.
  intros Hm Hd Hwf Hdr Hav Hh Hw Hpartial.
  exists (built nc depth wf dr av partial).
  split; [apply init_valid_depth; exact Hm|].
  assert (bn_accepts false 1) as Hbn by (left; reflexivity).
  assert (1 ≤ (depth - 4) / 6) as Hn by (apply Z.div_le_lower_bound; lia).
  pose proof (down_pos h 2 Hh ltac:(lia)) as Hh2.
  pose proof (down_pos w 2 Hw ltac:(lia)) as Hw2.
  assert (squeeze_shape [1; 64 * wf; 1; 1] = [64 * wf]) as Hsq
    by (rewrite squeeze_gate_shape by lia; reflexivity).
  unfold CDWideResNet.forward. rewrite features_and_mask_unfold.
  destruct (stages_1_and_2 nc depth wf dr av partial false 1 h w e)
    as (e2 & ->); try assumption.
  bind_simpl.
  destruct (lt_int partial 1) eqn:Hlt.
  - destruct Hpartial as [?|(p & k & Hp & Hk)]; [discriminate|].
    rewrite make_cd_layer_blocks by lia.
    cbn [fmap list_fmap CDWideResNet.block3_loop].
    destruct (squeezed_gate_fits false (32 * wf) (64 * wf) 2 dr false av 1
                (down h 2) (down w 2) e2)
      as (e3 & e4 & ->); try assumption; try lia.
    bind_simpl. rewrite Hsq.
    assert (CDWideResNet.collected
              (CDWideResNet.train false (built nc depth wf dr av partial))
              (mk_tensor [64 * wf] e4) = Raise IndexError) as ->; [|reflexivity].
    unfold CDWideResNet.collected.
    change (CDWideResNet.partial (CDWideResNet.train false _)) with partial.
    change (CDWideResNet.widen_factor
              (CDWideResNet.train false (built nc depth wf dr av partial))) with wf.
    rewrite Hlt, Hp. bind_simpl. rewrite Hk. reflexivity.
  - destruct (block3_stage_collects
                (CDWideResNet.train false (built nc depth wf dr av partial))
                false ((depth - 4) / 6) wf [64 * wf] dr av 1
                (down h 2) (down w 2) e2)
      as (e3 & m & ms & -> & _ & Hall); try assumption.
    + intros e0. rewrite Hsq. exists e0. unfold CDWideResNet.collected.
      change (CDWideResNet.partial (CDWideResNet.train false _)) with partial.
      rewrite Hlt. reflexivity.
    + bind_simpl. apply Forall_cons_1 in Hall as [Hm0 _].
      unfold cat1. cbn [fmap list_fmap]. rewrite Hm0. reflexivity.
Qed.

Lemma single_image_is_refused_witness :
  ∃ net,
    CDWideResNet.init 10 28 2 (PyFloat 0) 1 (PyInt 1) = Ok net
    ∧ CDWideResNet.forward (CDWideResNet.train false net)
        (mk_tensor [1; 3; 32; 32] EInput)
      = Raise IndexError.
Proof.
  apply (single_image_is_refused 10 28 2 (PyFloat 0) 1 (PyInt 1) 32 32 EInput);
    first [lia | reflexivity | (left; reflexivity)].
Defined.

(** *** Values of [partial] at and below zero *)

Lemma collected_nonpositive_int (self : CDWideResNet.t) (wf z b : Z) (e : expr) :
  CDWideResNet.widen_factor self = wf → CDWideResNet.partial self = PyInt z →
  1 ≤ wf → z ≤ 0 →
  ∃ e', CDWideResNet.collected self (mk_tensor [b; 64 * wf] e)
        = Ok (mk_tensor [b; 0] e').
Proof.
  intros Hwf Hp Hw1 Hz. unfold CDWideResNet.collected. rewrite Hwf, Hp.
  cbn [lt_int mul_int int]. destruct (Z.ltb_spec z 1); [|lia]. bind_simpl.
  assert (slice_len (64 * wf) (64 * wf * z) = 0) as Hlen.
  { unfold slice_len.
    assert (64 * wf * z ≤ 0) by (apply Z.mul_nonneg_nonpos; lia).
    destruct (Z.ltb_spec (64 * wf * z) 0) as [Hneg|Hpos]; [|lia].
    assert (z ≤ -1) by (destruct (decide (z = 0)); [subst; lia|lia]).
    assert (64 * wf * (z + 1) ≤ 0) by (apply Z.mul_nonneg_nonpos; lia).
    lia. }
  unfold slice_cols. cbn [t_shape t_data int]. bind_simpl. rewrite Hlen. eauto.
Qed.

(** With an integer [partial] of zero or below every block contributes no
    gate column: the concatenated gate tensor has shape [(B, 0)], and the
    logits are returned as usual. *)
Theorem nonpositive_partial_empties_gates (nc depth wf : Z) (dr : num) (av z : Z)
  (tr : bool) (b h w : Z) (e : expr) :
  (depth - 4) mod 6 = 0 → 10 ≤ depth → 1 ≤ wf → drop_ok dr →
  av = 1 ∨ av = 2 ∨ av = 3 → z ≤ 0 → 2 ≤ b → 1 ≤ h → 1 ≤ w →
  ∃ net out mask logits,
    CDWideResNet.init nc depth wf dr av (PyInt z) = Ok net
    ∧ CDWideResNet.features_and_mask (CDWideResNet.train tr net)
        (mk_tensor [b; 3; h; w] e)
      = Ok (out, mask)
    ∧ t_shape mask = [b; 0]
    ∧ CDWideResNet.forward (CDWideResNet.train tr net) (mk_tensor [b; 3; h; w] e)
      = Ok (VTensor logits)
    ∧ t_shape logits = [b; nc].
Proof.
  intros Hm Hd Hwf Hdr Hav Hz Hb Hh Hw.
  assert (bn_accepts tr b) as Hbn by (right; lia).
  assert (1 ≤ (depth - 4) / 6) as Hn by (apply Z.div_le_lower_bound; lia).
  pose proof (down_pos h 2 Hh ltac:(lia)) as Hh2.
  pose proof (down_pos w 2 Hw ltac:(lia)) as Hw2.
  assert (squeeze_shape [b; 64 * wf; 1; 1] = [b; 64 * wf]) as Hsq.
  { rewrite squeeze_gate_shape by lia. destruct (Z.eqb_spec b 1); [lia|reflexivity]. }
  assert (∃ e1 e2,
            CDWideResNet.features_and_mask
              (CDWideResNet.train tr (built nc depth wf dr av (PyInt z)))
              (mk_tensor [b; 3; h; w] e)
            = Ok (mk_tensor [b; 64 * wf; down (down h 2) 2; down (down w 2) 2] e1,
                  mk_tensor [b; 0] e2)) as (e1 & e2 & Hfm).
  { rewrite features_and_mask_unfold.
    destruct (stages_1_and_2 nc depth wf dr av (PyInt z) tr b h w e)
      as (e2 & ->); try assumption.
    bind_simpl.
    destruct (block3_stage_collects
                (CDWideResNet.train tr (built nc depth wf dr av (PyInt z)))
                tr ((depth - 4) / 6) wf [b; 0] dr av b (down h 2) (down w 2) e2)
      as (e3 & m & ms & -> & Hlen & Hall); try assumption.
    - intros e0. rewrite Hsq.
      apply (collected_nonpositive_int _ wf z); first [reflexivity | assumption].
    - bind_simpl. rewrite (cat1_same_width b 0 (m :: ms)) by (done || exact Hall).
      bind_simpl. rewrite Z.mul_0_r. eauto. }
  destruct (head_fits nc depth wf dr av (PyInt z) tr b (down (down h 2) 2)
              (down (down w 2) 2) e1 (mk_tensor [b; 0] e2)
              (mk_tensor [b; 3; h; w] e))
    as (e' & Hf); try assumption; try (apply down_pos; lia).
  eexists _, _, _, _. split; [apply init_valid_depth; exact Hm|].
  split; [exact Hfm|]. split; [reflexivity|]. split; [exact Hf|reflexivity].
Qed.

Lemma nonpositive_partial_empties_gates_witness :
  ∃ net out mask logits,
    CDWideResNet.init 10 28 2 (PyFloat 0) 1 (PyInt 0) = Ok net
    ∧ CDWideResNet.features_and_mask (CDWideResNet.train true net)
        (mk_tensor [4; 3; 32; 32] EInput)
      = Ok (out, mask)
    ∧ t_shape mask = [4; 0]
    ∧ CDWideResNet.forward (CDWideResNet.train true net)
        (mk_tensor [4; 3; 32; 32] EInput)
      = Ok (VTensor logits)
    ∧ t_shape logits = [4; 10].
Proof.
  apply (nonpositive_partial_empties_gates 10 28 2 (PyFloat 0) 1 0 true
           4 32 32 EInput);
    first [lia | reflexivity].
Defined.

(** *** Resolution and the convenience constructor *)

Lemma down_twice (n : Z) : 1 ≤ n → down (down n 2) 2 = (n + 3) / 4.
Proof.
  intros Hn. unfold down.
  replace ((n - 1) / 2 + 1 - 1) with ((n - 1) / 2) by lia.
  rewrite Z.div_div by lia.
  replace (n + 3) with (n - 1 + 1 * 4) by lia.
  rewrite Z.div_add by lia. reflexivity.
Qed.

(** The feature map that reaches the classifier head has [64 * widen_factor]
    channels and a quarter of the input resolution, rounded up, along each
    spatial axis: stage 1 keeps the resolution and stages 2 and 3 halve it.
    Every image size from 1 by 1 on is accepted. *)
Theorem features_are_a_quarter_of_the_input (nc depth wf : Z) (dr : num) (av : Z)
  (partial : num) (tr : bool) (b h w g : Z) (e : expr) :
  (depth - 4) mod 6 = 0 → 10 ≤ depth → 1 ≤ wf → drop_ok dr →
  av = 1 ∨ av = 2 ∨ av = 3 → per_block_width wf partial g →
  2 ≤ b → 1 ≤ h → 1 ≤ w →
  ∃ net out mask,
    CDWideResNet.init nc depth wf dr av partial = Ok net
    ∧ CDWideResNet.features_and_mask (CDWideResNet.train tr net)
        (mk_tensor [b; 3; h; w] e)
      = Ok (out, mask)
    ∧ t_shape out = [b; 64 * wf; (h + 3) / 4; (w + 3) / 4].
Proof.
  intros Hm Hd Hwf Hdr Hav Hg Hb Hh Hw.
  destruct (features_and_mask_fits nc depth wf dr av partial tr b h w g e)
    as (e1 & e2 & Hfm); try assumption.
  eexists _, _, _. split; [apply init_valid_depth; exact Hm|].
  split; [exact Hfm|]. cbn [t_shape]. rewrite !down_twice by assumption.
  reflexivity.
Qed.

Lemma features_are_a_quarter_of_the_input_witness :
  ∃ net out mask,
    CDWideResNet.init 10 28 2 (PyFloat 0) 1 (PyInt 1) = Ok net
    ∧ CDWideResNet.features_and_mask (CDWideResNet.train true net)
        (mk_tensor [4; 3; 30; 17] EInput)
      = Ok (out, mask)
    ∧ t_shape out = [4; 64 * 2; (30 + 3) / 4; (17 + 3) / 4].
Proof.
  apply (features_are_a_quarter_of_the_input 10 28 2 (PyFloat 0) 1 (PyInt 1) true
           4 30 17 128 EInput);
    first [lia | reflexivity | apply (width_full 2 (PyInt 1)); reflexivity].
Defined.

(** For a positive number of classes and a positive widening factor
    [CDWRN28] returns a network of depth 28: four blocks in each of the
    three stages, attention variant 1, [partial = 1], a classifier from
    [64 * widen_factor] features to [num_classes] classes, and in every
    block of stage 3 the gating module of variant 1 for [64 * widen_factor]
    channels. *)
Theorem CDWRN28_structure (nc wf : Z) :
  1 ≤ nc → 1 ≤ wf →
  ∃ net,
    CDWideResNet.CDWRN28 nc wf = Ok net
    ∧ length (CDWideResNet.block1 net) = 4%nat
    ∧ length (CDWideResNet.block2 net) = 4%nat
    ∧ length (CDWideResNet.block3 net) = 4%nat
    ∧ CDWideResNet.attn_var net = 1
    ∧ CDWideResNet.partial net = PyInt 1
    ∧ CDWideResNet.fc net = Linear (64 * wf) nc
    ∧ Forall (fun blk => CDBasicBlock.attn blk
                         = CDBasicBlock.make_attn (64 * wf) 1)
        (CDWideResNet.block3 net).
Proof.
  intros _ _. eexists. split; [reflexivity|]. net_fields.
  split_and!; try reflexivity.
  repeat constructor.
Qed.

Lemma CDWRN28_structure_witness :
  ∃ net,
    CDWideResNet.CDWRN28 10 2 = Ok net
    ∧ length (CDWideResNet.block1 net) = 4%nat
    ∧ length (CDWideResNet.block2 net) = 4%nat
    ∧ length (CDWideResNet.block3 net) = 4%nat
    ∧ CDWideResNet.attn_var net = 1
    ∧ CDWideResNet.partial net = PyInt 1
    ∧ CDWideResNet.fc net = Linear (64 * 2) 10
    ∧ Forall (fun blk => CDBasicBlock.attn blk
                         = CDBasicBlock.make_attn (64 * 2) 1)
        (CDWideResNet.block3 net).
Proof.
  apply (CDWRN28_structure 10 2); lia.
Defined.

End NetMore.
